(** * Cipher configuration registry: a shallow embedding of [cipher_config.c]

    The development follows the C file function by function.  C [int]s are
    modelled as [Z] (the code only compares and copies them; the two casts
    from 64-bit host integers are written out with [to_int]), C strings as
    [string], sentinel-terminated arrays as lists whose end (or whose first
    empty-named element) is the sentinel, and the mutable tables reached
    through [sqlite3*] handles and through [globalCodecParameterTable] as
    an explicit store that every entry point threads through.

    Mutex enter/leave pairs bracket the reads and writes of one call and
    have no effect on the sequential result; they are not represented. *)

From Stdlib Require Import ZArith Ascii String Bool Lia.
From stdpp Require Import base tactics option list strings pretty.

Local Open Scope string_scope.
Local Open Scope Z_scope.

(** ** Host string primitives

    [sqlite3_stricmp] and [sqlite3_strnicmp] belong to the host engine; they
    are transcribed from its ASCII build, where [sqlite3UpperToLower] maps
    'A'..'Z' to 'a'..'z' and every other byte to itself.  The end of a
    [string] plays the part of the terminating zero byte. *)

Definition UpperToLower (c : ascii) : Z :=
  let n := Z.of_nat (nat_of_ascii c) in
  if (65 <=? n) && (n <=? 90) then n + 32 else n.

Fixpoint sqlite3_stricmp (zLeft zRight : string) : Z :=
  match zLeft, zRight with
  | EmptyString, EmptyString => 0
  | EmptyString, String x _ => 0 - UpperToLower x
  | String c _, EmptyString => UpperToLower c - 0
  | String c a, String x b =>
      if Ascii.eqb c x then sqlite3_stricmp a b
      else
        let d := UpperToLower c - UpperToLower x in
        if d =? 0 then sqlite3_stricmp a b else d
  end.

Fixpoint sqlite3_strnicmp (zLeft zRight : string) (N : nat) {struct N} : Z :=
  match N with
  | O => 0
  | S n =>
      match zLeft, zRight with
      | EmptyString, EmptyString => 0
      | EmptyString, String x _ => 0 - UpperToLower x
      | String c _, EmptyString => UpperToLower c - 0
      | String c a, String x b =>
          if UpperToLower c =? UpperToLower x then sqlite3_strnicmp a b n
          else UpperToLower c - UpperToLower x
      end
  end.

Definition strlen (s : string) : Z := Z.of_nat (String.length s).

(** [advance s n] is the pointer [s + n]. *)
Fixpoint advance (s : string) (n : nat) {struct n} : string :=
  match n, s with
  | O, _ => s
  | S n', String _ s' => advance s' n'
  | S _, EmptyString => EmptyString
  end.

(** The idiom
    [if (sqlite3_strnicmp(name, prefix, n) == 0) { flag = 1; name += n; }]
    that every entry point repeats for ["default:"], ["min:"], ["max:"]. *)
Definition skipPrefix (name pfx : string) (n : nat) : bool * string :=
  if sqlite3_strnicmp name pfx n =? 0 then (true, advance name n)
  else (false, name).

(** Truncation of a 64-bit host integer to a C [int]. *)
Definition to_int (z : Z) : Z := (z + 2147483648) mod 4294967296 - 2147483648.

(** ** Data model *)

Record CipherParams := mkCipherParams {
  m_name : string;
  m_value : Z;
  m_default : Z;
  m_minValue : Z;
  m_maxValue : Z
}.

Record CodecParameter := mkCodecParameter {
  codec_m_name : string;
  m_params : list CipherParams
}.

Definition set_m_value (v : Z) (p : CipherParams) : CipherParams :=
  mkCipherParams (m_name p) v (m_default p) (m_minValue p) (m_maxValue p).

Definition set_m_default (v : Z) (p : CipherParams) : CipherParams :=
  mkCipherParams (m_name p) (m_value p) v (m_minValue p) (m_maxValue p).

Definition set_m_params (ps : list CipherParams) (c : CodecParameter)
  : CodecParameter :=
  mkCodecParameter (codec_m_name c) ps.

(** The loop
    [for (; strlen(param->m_name) > 0; ++param)
       if (sqlite3_stricmp(name, param->m_name) == 0) break;]
    followed by the test [strlen(param->m_name) > 0]: the position and the
    contents of the first match before the sentinel, if any. *)
Fixpoint findParam (name : string) (params : list CipherParams)
  : option (nat * CipherParams) :=
  match params with
  | [] => None
  | p :: rest =>
      if strlen (m_name p) >? 0 then
        if sqlite3_stricmp name (m_name p) =? 0 then Some (O, p)
        else prod_map S id <$> findParam name rest
      else None
  end.

(** The same loop over [codecParams[j].m_name]. *)
Fixpoint findCodec (name : string) (table : list CodecParameter) : option nat :=
  match table with
  | [] => None
  | c :: rest =>
      if strlen (codec_m_name c) >? 0 then
        if sqlite3_stricmp name (codec_m_name c) =? 0 then Some O
        else S <$> findCodec name rest
      else None
  end.

(** The same loop over [codecDescriptorTable[j]->m_name]. *)
Fixpoint findDescriptor (name : string) (table : list string)
  : option (nat * string) :=
  match table with
  | [] => None
  | d :: rest =>
      if strlen d >? 0 then
        if sqlite3_stricmp name d =? 0 then Some (O, d)
        else prod_map S id <$> findDescriptor name rest
      else None
  end.

(** The names [params[j].m_name] for [j] up to the sentinel. *)
Fixpoint paramNames (params : list CipherParams) : list string :=
  match params with
  | [] => []
  | p :: rest =>
      if strlen (m_name p) >? 0 then m_name p :: paramNames rest else []
  end.

(** [codecParams[j].m_params]; an index at or past the sentinel yields the
    empty schema. *)
Definition paramsAt (j : nat) (table : list CodecParameter) : list CipherParams :=
  match table !! j with
  | Some c => m_params c
  | None => []
  end.

(** Writing back cell [i] of [codecParams[j].m_params]. *)
Definition storeParam (p : CipherParams) (j i : nat)
    (table : list CodecParameter) : list CodecParameter :=
  alter (fun c => set_m_params (<[i := p]> (m_params c)) c) j table.

(** [(hasDefaultPrefix) ? m_default : (hasMinPrefix) ? m_minValue :
     (hasMaxPrefix) ? m_maxValue : m_value] *)
Definition viewValue (hasDefaultPrefix hasMinPrefix hasMaxPrefix : bool)
    (p : CipherParams) : Z :=
  if hasDefaultPrefix then m_default p
  else if hasMinPrefix then m_minValue p
  else if hasMaxPrefix then m_maxValue p
  else m_value p.

(** The write shared by [sqlite3mc_config] and the two-argument SQL form:
    [if (hasDefaultPrefix && sqlite3_stricmp(name, "hmac_check") != 0)
       param->m_default = newValue;
     param->m_value = newValue;] *)
Definition assignCommon (hasDefaultPrefix : bool) (name : string)
    (newValue : Z) (p : CipherParams) : CipherParams :=
  let p :=
    if hasDefaultPrefix && negb (sqlite3_stricmp name "hmac_check" =? 0)
    then set_m_default newValue p else p in
  set_m_value newValue p.

(** The write of the cipher-scope paths:
    [if (hasDefaultPrefix) param->m_default = newValue;
     param->m_value = newValue;] *)
Definition assignCipher (hasDefaultPrefix : bool) (newValue : Z)
    (p : CipherParams) : CipherParams :=
  let p := if hasDefaultPrefix then set_m_default newValue p else p in
  set_m_value newValue p.

(** ** Host values, codecs and connections *)

Inductive sqlite3_value :=
| SqlInteger (i : Z)
| SqlFloat (text : string)      (* carries the host's text rendering *)
| SqlText (s : string)
| SqlBlob (s : string)
| SqlNull
| SqlPointer (zPType : string). (* a pointer to the connection's table *)

Definition SQLITE_INTEGER : Z := 1.
Definition SQLITE_FLOAT : Z := 2.
Definition SQLITE_TEXT : Z := 3.
Definition SQLITE_BLOB : Z := 4.
Definition SQLITE_NULL : Z := 5.
Definition SQLITE_OK : Z := 0.
Definition SQLITE_ERROR : Z := 1.
Definition SQLITE_ROW : Z := 100.
Definition SQLITE_WARNING : Z := 28.

Definition sqlite3_value_type (v : sqlite3_value) : Z :=
  match v with
  | SqlInteger _ => SQLITE_INTEGER
  | SqlFloat _ => SQLITE_FLOAT
  | SqlText _ => SQLITE_TEXT
  | SqlBlob _ => SQLITE_BLOB
  | SqlNull | SqlPointer _ => SQLITE_NULL
  end.

Definition sqlite3_value_text (v : sqlite3_value) : string :=
  match v with
  | SqlInteger i => pretty i
  | SqlFloat s | SqlText s | SqlBlob s => s
  | SqlNull | SqlPointer _ => ""
  end.

Definition sqlite3_value_int (v : sqlite3_value) : Z :=
  match v with
  | SqlInteger i => to_int i
  | _ => 0
  end.

(** [sqlite3_value_pointer(v, zPType) != NULL]: the value is a pointer that
    was bound under exactly this type tag. *)
Definition sqlite3_value_pointer (v : sqlite3_value) (zPType : string) : bool :=
  match v with
  | SqlPointer t => String.eqb t zPType
  | _ => false
  end.

(** Modelled from the spec: the external codec, seen through the three
    observers this file consults, [isEncrypted(Codec) -> bool],
    [hasWriteCipher(Codec) -> bool] and
    [getSaltWriteCipher(Codec) -> bytes(16)?]. *)
Record Codec := mkCodec {
  sqlite3mcIsEncrypted : bool;
  sqlite3mcHasWriteCipher : bool;
  sqlite3mcGetSaltWriteCipher : option (list Z)
}.

(** What [SELECT sqlite3mc_config_table();] does on a connection:
    the return codes of [sqlite3_prepare_v2] and [sqlite3_step], the value
    of column 0, and what the host reports to the log sink when the
    statement cannot be prepared (error code and text are the host's). *)
Record ConfigTableQuery := mkConfigTableQuery {
  prepare_rc : Z;
  step_rc : Z;
  column_value : sqlite3_value;
  prepare_logged : list (Z * string)
}.

Record sqlite3 := mkSqlite3 {
  m_codecParams : list CodecParameter;  (* user data of the SQL functions *)
  m_configTableQuery : ConfigTableQuery;
  m_errMsg : option (Z * string);
  sqlite3FindDbName : string -> Z;
  sqlite3mcGetCodec : Z -> option Codec
}.

Definition set_m_codecParams (t : list CodecParameter) (c : sqlite3) : sqlite3 :=
  mkSqlite3 t (m_configTableQuery c) (m_errMsg c)
            (sqlite3FindDbName c) (sqlite3mcGetCodec c).

Definition set_m_errMsg (e : option (Z * string)) (c : sqlite3) : sqlite3 :=
  mkSqlite3 (m_codecParams c) (m_configTableQuery c) e
            (sqlite3FindDbName c) (sqlite3mcGetCodec c).

(** [sqlite3mcConfigTable]: the value the zero-argument SQL function
    returns, a pointer to its user data under the tag below. *)
Definition sqlite3mcConfigTable : sqlite3_value :=
  SqlPointer "sqlite3mc_codec_params".

(** ** Log sink

    One constructor per format string of the file, holding the arguments
    in the order the format takes them, and one for the entries the host
    writes itself. *)

Inductive LogMessage :=
| MsgNameMissing (cipherName paramName : string)
| MsgGlobalChange (paramName cipherName : string)
| MsgTableNotFound
| MsgLegacyOutOfRange (newValue lo hi : Z)
| MsgValueOutOfRange (newValue : Z) (paramName cipherName : string)
                     (minValue maxValue : Z)
| MsgHost (text : string).

(** ** The store

    A [sqlite3*] is an index into [connections]; the null handle is [None].
    An index that names no connection has no counterpart in a running
    program; it is answered like a connection without a table. *)

Record World := mkWorld {
  globalCodecParameterTable : option (list CodecParameter);
  connections : list sqlite3;
  logged : list (Z * LogMessage)
}.

(** A [CodecParameter*]: the process-wide table or a connection's own. *)
Inductive TableRef :=
| GlobalTable
| ConnTable (db : nat).

Definition loadTable (r : TableRef) (w : World) : list CodecParameter :=
  match r with
  | GlobalTable => default [] (globalCodecParameterTable w)
  | ConnTable db => default [] (m_codecParams <$> connections w !! db)
  end.

Definition storeTable (r : TableRef) (t : list CodecParameter) (w : World)
  : World :=
  match r with
  | GlobalTable =>
      mkWorld (const t <$> globalCodecParameterTable w)
              (connections w) (logged w)
  | ConnTable db =>
      mkWorld (globalCodecParameterTable w)
              (alter (set_m_codecParams t) db (connections w)) (logged w)
  end.

Definition writeParam (r : TableRef) (j i : nat) (p : CipherParams)
    (w : World) : World :=
  storeTable r (storeParam p j i (loadTable r w)) w.

Definition sqlite3_log (iErrCode : Z) (msg : LogMessage) (w : World) : World :=
  mkWorld (globalCodecParameterTable w) (connections w)
          (logged w ++ [(iErrCode, msg)]).

(** ** [sqlite3mcGetCodecParams]

    The function is given by its result and by the store it leaves.  The
    pointer that comes back, if any, is the table of the connection. *)

Definition sqlite3mcGetCodecParams (db : nat) (w : World) : option TableRef :=
  match connections w !! db with
  | None => None
  | Some c =>
      let q := m_configTableQuery c in
      if prepare_rc q =? SQLITE_OK then
        if step_rc q =? SQLITE_ROW then
          if sqlite3_value_pointer (column_value q) "sqlite3mc_codec_params"
          then Some (ConnTable db) else None
        else None
      else None
  end.

(** The store after [sqlite3mcGetCodecParams(db)]: a statement that cannot
    be prepared makes the host write its report to the log sink; a query
    that has been prepared writes nothing there. *)
Definition hostLog (entries : list (Z * string)) (w : World) : World :=
  fold_left (fun w e => sqlite3_log e.1 (MsgHost e.2) w) entries w.

Definition sqlite3mcGetCodecParams_store (db : nat) (w : World) : World :=
  match connections w !! db with
  | None => w
  | Some c =>
      let q := m_configTableQuery c in
      if prepare_rc q =? SQLITE_OK then w
      else hostLog (prepare_logged q) w
  end.

(** [(db != NULL) ? sqlite3mcGetCodecParams(db) : globalCodecParameterTable] *)
Definition codecParamsFor (db : option nat) (w : World) : option TableRef :=
  match db with
  | Some h => sqlite3mcGetCodecParams h w
  | None =>
      match globalCodecParameterTable w with
      | Some _ => Some GlobalTable
      | None => None
      end
  end.

(** The store after that expression; a table that was obtained was
    obtained without a report to the log sink. *)
Definition codecParamsFor_store (db : option nat) (w : World) : World :=
  match db with
  | Some h => sqlite3mcGetCodecParams_store h w
  | None => w
  end.

(** ** [sqlite3mc_config] *)

Definition sqlite3mc_config (db : option nat) (paramName : option string)
    (newValue : Z) (w : World) : Z * World :=
  match paramName with
  | None => (-1, w)
  | Some paramName =>
      if bool_decide (db = None) && (newValue >=? 0) then (-1, w)
      else
        match codecParamsFor db w with
        | None => (-1, codecParamsFor_store db w)
        | Some codecParams =>
            let '(hasDefaultPrefix, paramName) :=
              skipPrefix paramName "default:" 8 in
            let '(hasMinPrefix, paramName) := skipPrefix paramName "min:" 4 in
            let '(hasMaxPrefix, paramName) := skipPrefix paramName "max:" 4 in
            match findParam paramName (paramsAt 0 (loadTable codecParams w)) with
            | None => (-1, w)
            | Some (i, param) =>
                let value :=
                  viewValue hasDefaultPrefix hasMinPrefix hasMaxPrefix param in
                if negb hasMinPrefix && negb hasMaxPrefix && (newValue >=? 0)
                   && (newValue >=? m_minValue param)
                   && (newValue <=? m_maxValue param)
                then
                  (newValue,
                   writeParam codecParams 0 i
                     (assignCommon hasDefaultPrefix paramName newValue param) w)
                else (value, w)
            end
        end
  end.

(** ** Entry points that reach external collaborators *)

Inductive sqlite3_result :=
| ResultNull
| ResultInt (v : Z)
| ResultText (s : string)
| ResultErrorNomem.

(** A database file name with its URI query parameters, in order. *)
Definition DbFileName := list (string * string).

Fixpoint sqlite3_uri_parameter (zFilename : DbFileName) (zParam : string)
  : option string :=
  match zFilename with
  | [] => None
  | (k, v) :: rest =>
      if String.eqb k zParam then Some v else sqlite3_uri_parameter rest zParam
  end.

Definition sqlite3ErrorWithMsg (db : option nat) (rc : Z) (msg : string)
    (w : World) : World :=
  match db with
  | Some h =>
      mkWorld (globalCodecParameterTable w)
              (alter (set_m_errMsg (Some (rc, msg))) h (connections w))
              (logged w)
  | None => w
  end.

(** What a call of [sqlite3mc_codec_data] does: it returns a buffer with
    these bytes, it returns the null pointer, or it does not return: the
    code does not test the result of [sqlite3_malloc], and where the
    allocation fails it writes through the null pointer it got. *)
Inductive CodecData :=
| CodecDataBuffer (bytes : list Z)
| CodecDataNull
| CodecDataFault.

Section Model.

(** The collaborators this file names but does not define. *)

Variable SQLCIPHER_VERSION_MAX : Z.

(** [sqlite3mcConfigureSQLCipherVersion(db, configDefault, legacyVersion)],
    the external legacy configurator.  It "configures multiple underlying
    cells"; which cells and which values is decided elsewhere, so here it
    is an arbitrary transformer of the store. *)
Variable sqlite3mcConfigureSQLCipherVersion :
  option nat -> Z -> Z -> World -> World.

(** Names of [codecDescriptorTable], up to its sentinel. *)
Variable codecDescriptorTable : list string.

(** The host's digit table used for hexadecimal output. *)
Variable hexdigits : list Z.

(** Whether [sqlite3_malloc(n)] succeeds. *)
Variable sqlite3_malloc_ok : Z -> bool.

(** The host's parsers behind [sqlite3_uri_boolean] and
    [sqlite3_uri_int64]. *)
Variable sqlite3GetBoolean : string -> bool -> bool.
Variable sqlite3DecOrHexToI64 : string -> option Z.

Definition sqlite3_uri_boolean (zFilename : DbFileName) (zParam : string)
    (bDflt : Z) : Z :=
  let bDflt := negb (bDflt =? 0) in
  match sqlite3_uri_parameter zFilename zParam with
  | Some z => Z.b2z (sqlite3GetBoolean z bDflt)
  | None => Z.b2z bDflt
  end.

Definition sqlite3_uri_int64 (zFilename : DbFileName) (zParam : string)
    (bDflt : Z) : Z :=
  match sqlite3_uri_parameter zFilename zParam with
  | Some z =>
      match sqlite3DecOrHexToI64 z with
      | Some v => v
      | None => bDflt
      end
  | None => bDflt
  end.

(** *** [sqlite3mc_config_cipher] *)

(** The block "Special handling for SQLCipher legacy mode". *)
Definition legacyHandling (db : option nat) (cipherName paramName : string)
    (hasDefaultPrefix hasMinPrefix hasMaxPrefix : bool) (newValue : Z)
    (w : World) : World :=
  if bool_decide (db <> None)
     && (sqlite3_stricmp cipherName "sqlcipher" =? 0)
     && (sqlite3_stricmp paramName "legacy" =? 0)
  then
    if negb hasMinPrefix && negb hasMaxPrefix then
      if (newValue >? 0) && (newValue <=? SQLCIPHER_VERSION_MAX)
      then sqlite3mcConfigureSQLCipherVersion
             db (Z.b2z hasDefaultPrefix) newValue w
      else sqlite3_log SQLITE_WARNING
             (MsgLegacyOutOfRange newValue 1 SQLCIPHER_VERSION_MAX) w
    else w
  else w.

Definition sqlite3mc_config_cipher (db : option nat)
    (cipherName paramName : option string) (newValue : Z) (w : World)
  : Z * World :=
  match cipherName, paramName with
  | Some cipherName, Some paramName =>
      if bool_decide (db = None) && (newValue >=? 0) then
        (-1, sqlite3_log SQLITE_WARNING
               (MsgGlobalChange paramName cipherName) w)
      else
        match codecParamsFor db w with
        | None =>
            (-1, sqlite3_log SQLITE_WARNING MsgTableNotFound
                   (codecParamsFor_store db w))
        | Some codecParams =>
            match findCodec cipherName (loadTable codecParams w) with
            | None => (-1, w)
            | Some j =>
                let '(hasDefaultPrefix, paramName) :=
                  skipPrefix paramName "default:" 8 in
                let '(hasMinPrefix, paramName) :=
                  skipPrefix paramName "min:" 4 in
                let '(hasMaxPrefix, paramName) :=
                  skipPrefix paramName "max:" 4 in
                let w :=
                  legacyHandling db cipherName paramName hasDefaultPrefix
                    hasMinPrefix hasMaxPrefix newValue w in
                match findParam paramName
                        (paramsAt j (loadTable codecParams w)) with
                | None => (-1, w)
                | Some (i, param) =>
                    let value :=
                      viewValue hasDefaultPrefix hasMinPrefix hasMaxPrefix
                        param in
                    if negb hasMinPrefix && negb hasMaxPrefix then
                      if (newValue >=? 0)
                         && (newValue >=? m_minValue param)
                         && (newValue <=? m_maxValue param)
                      then
                        (newValue,
                         writeParam codecParams j i
                           (assignCipher hasDefaultPrefix newValue param) w)
                      else
                        (value,
                         sqlite3_log SQLITE_WARNING
                           (MsgValueOutOfRange newValue paramName cipherName
                              (m_minValue param) (m_maxValue param)) w)
                    else (value, w)
                end
            end
        end
  | _, _ =>
      (-1, sqlite3_log SQLITE_WARNING
             (MsgNameMissing (default "" cipherName) (default "" paramName))
             w)
  end.

(** *** [sqlite3mc_codec_data] *)

Definition hexdigit (k : Z) : Z := nth (Z.to_nat k) hexdigits 0.

(** The loop filling [result[2j]] and [result[2j+1]] for [j < 16]. *)
Definition hexSalt (salt : list Z) : list Z :=
  flat_map
    (fun j =>
       let b := nth j salt 0 in
       [hexdigit (Z.land (Z.shiftr b 4) 15); hexdigit (Z.land b 15)])
    (seq 0 16).

Definition sqlite3mc_codec_data (db : option nat) (zDbName : option string)
    (paramName : option string) (w : World) : CodecData :=
  match db, paramName with
  | Some h, Some paramName =>
      match connections w !! h with
      | None => CodecDataNull
      | Some conn =>
          let iDb :=
            match zDbName with
            | Some n => sqlite3FindDbName conn n
            | None => 0
            end in
          let '(toRaw, paramName) := skipPrefix paramName "raw:" 4 in
          if (sqlite3_stricmp paramName "cipher_salt" =? 0) && (iDb >=? 0)
          then
            match sqlite3mcGetCodec conn iDb with
            | Some codec =>
                if sqlite3mcIsEncrypted codec
                   && sqlite3mcHasWriteCipher codec
                then
                  match sqlite3mcGetSaltWriteCipher codec with
                  | Some salt =>
                      if negb toRaw then
                        if sqlite3_malloc_ok (32 + 1)
                        then CodecDataBuffer (hexSalt salt ++ [0])%list
                        else CodecDataFault
                      else
                        if sqlite3_malloc_ok (16 + 1)
                        then CodecDataBuffer (take 16 salt ++ [0])%list
                        else CodecDataFault
                  | None => CodecDataNull
                  end
                else CodecDataNull
            | None => CodecDataNull
            end
          else CodecDataNull
      end
  | _, _ => CodecDataNull
  end.

(** *** [sqlite3mcCodecDataSql]

    [sqlite3_result_text(context, salt, -1, sqlite3_free)] hands over the
    bytes of the buffer up to its first zero byte; the result is that text,
    or [None] for [sqlite3_result_null], and for no result at all where
    the call of [sqlite3mc_codec_data] does not return. *)

Fixpoint cstring (buf : list Z) : list Z :=
  match buf with
  | [] => []
  | b :: rest => if b =? 0 then [] else b :: cstring rest
  end.

Definition sqlite3mcCodecDataSql (db : nat) (argv : list sqlite3_value)
    (w : World) : option (list Z) :=
  let argc := Z.of_nat (length argv) in
  let arg k := nth k argv SqlNull in
  if (sqlite3_value_type (arg 0%nat) =? SQLITE_NULL)
     || ((argc >? 1) && (sqlite3_value_type (arg 1%nat) =? SQLITE_NULL))
  then None
  else
    let nameParam1 := sqlite3_value_text (arg 0%nat) in
    let nameParam2 :=
      if argc =? 2 then Some (sqlite3_value_text (arg 1%nat)) else None in
    if sqlite3_stricmp nameParam1 "cipher_salt" =? 0 then
      match sqlite3mc_codec_data (Some db) nameParam2 (Some "cipher_salt") w
      with
      | CodecDataBuffer salt => Some (cstring salt)
      | CodecDataNull => None
      | CodecDataFault => None
      end
    else None.

(** *** [sqlite3mcConfigParams]

    [db] is the connection of the calling context; the function's user
    data is that connection's table.  [argc] is the length of [argv]. *)

(** One-argument form on a cipher name: the comma-separated list. *)
Definition listParams (cipherParamTable : list CipherParams)
  : sqlite3_result :=
  let names := paramNames cipherParamTable in
  let nParams := Z.of_nat (length names) in
  let lenTotal := foldr (fun n acc => strlen n + acc) 0 names in
  if nParams >? 0 then
    if sqlite3_malloc_ok (lenTotal + nParams)
    then ResultText (String.concat "," names)
    else ResultErrorNomem
  else ResultNull.

(** [codecDescriptorTable[value - 1]->m_name]: the name at that position,
    the empty name of the sentinel right after the last one, and no result
    elsewhere, where the C code reads out of bounds. *)
Definition descriptorName (value : Z) : sqlite3_result :=
  if value - 1 <? 0 then ResultNull
  else
    match codecDescriptorTable !! Z.to_nat (value - 1) with
    | Some name => ResultText name
    | None =>
        if value - 1 =? Z.of_nat (length codecDescriptorTable)
        then ResultText "" else ResultNull
    end.

(** Two arguments, first a common parameter. *)
Definition setCommonParam (codecParams : TableRef) (i : nat)
    (param1 : CipherParams) (nameParam1 : string) (hasDefaultPrefix : bool)
    (arg2 : sqlite3_value) (w : World) : sqlite3_result * World :=
  let arg2Type := sqlite3_value_type arg2 in
  if sqlite3_stricmp nameParam1 "cipher" =? 0 then
    if arg2Type =? SQLITE_TEXT then
      let nameCipher := sqlite3_value_text arg2 in
      match findDescriptor nameCipher codecDescriptorTable with
      | Some (j, name) =>
          (ResultText name,
           writeParam codecParams 0 i
             (assignCipher hasDefaultPrefix (Z.of_nat j + 1) param1) w)
      | None => (ResultNull, w)
      end
    else (ResultNull, w)
  else if arg2Type =? SQLITE_INTEGER then
    let value := sqlite3_value_int arg2 in
    if (value >=? m_minValue param1) && (value <=? m_maxValue param1) then
      (ResultInt value,
       writeParam codecParams 0 i
         (assignCommon hasDefaultPrefix nameParam1 value param1) w)
    else (ResultNull, w)
  else (ResultNull, w).

(** The block "Special handling for SQLCipher legacy mode" of the SQL
    form. *)
Definition legacyHandlingSql (db : nat) (nameParam1 nameParam2 : string)
    (hasDefaultPrefix hasMinPrefix hasMaxPrefix : bool) (argc : Z)
    (arg3 : sqlite3_value) (w : World) : World :=
  if (argc =? 3)
     && (sqlite3_stricmp nameParam1 "sqlcipher" =? 0)
     && (sqlite3_stricmp nameParam2 "legacy" =? 0)
  then
    if negb hasMinPrefix && negb hasMaxPrefix
       && (sqlite3_value_type arg3 =? SQLITE_INTEGER)
    then
      let legacy := sqlite3_value_int arg3 in
      if (legacy >? 0) && (legacy <=? SQLCIPHER_VERSION_MAX)
      then sqlite3mcConfigureSQLCipherVersion
             (Some db) (Z.b2z hasDefaultPrefix) legacy w
      else w
    else w
  else w.

(** Two or three arguments, first a cipher name, second a text. *)
Definition cipherParam (db : nat) (codecParams : TableRef) (j : nat)
    (nameParam1 : string) (argc : Z) (arg2 arg3 : sqlite3_value) (w : World)
  : sqlite3_result * World :=
  let nameParam2 := sqlite3_value_text arg2 in
  let '(hasDefaultPrefix, nameParam2) := skipPrefix nameParam2 "default:" 8 in
  let '(hasMinPrefix, nameParam2) := skipPrefix nameParam2 "min:" 4 in
  let '(hasMaxPrefix, nameParam2) := skipPrefix nameParam2 "max:" 4 in
  let param2 := findParam nameParam2 (paramsAt j (loadTable codecParams w)) in
  let w :=
    legacyHandlingSql db nameParam1 nameParam2 hasDefaultPrefix hasMinPrefix
      hasMaxPrefix argc arg3 w in
  (* [param2] still points at the same cell; its fields are read again *)
  match param2 with
  | None => (ResultNull, w)
  | Some (i, _) =>
      match paramsAt j (loadTable codecParams w) !! i with
      | None => (ResultNull, w)
      | Some param2 =>
          if strlen (m_name param2) >? 0 then
            if argc =? 2 then
              (ResultInt
                 (viewValue hasDefaultPrefix hasMinPrefix hasMaxPrefix param2),
               w)
            else if negb hasMinPrefix && negb hasMaxPrefix
                    && (sqlite3_value_type arg3 =? SQLITE_INTEGER)
            then
              let value := sqlite3_value_int arg3 in
              if (value >=? m_minValue param2)
                 && (value <=? m_maxValue param2)
              then
                (ResultInt value,
                 writeParam codecParams j i
                   (assignCipher hasDefaultPrefix value param2) w)
              else (ResultNull, w)
            else (ResultNull, w)
          else (ResultNull, w)
      end
  end.

Definition sqlite3mcConfigParams (db : nat) (argv : list sqlite3_value)
    (w : World) : sqlite3_result * World :=
  let argc := Z.of_nat (length argv) in
  let arg k := nth k argv SqlNull in
  if (sqlite3_value_type (arg 0%nat) =? SQLITE_NULL)
     || ((argc >? 1) && (sqlite3_value_type (arg 1%nat) =? SQLITE_NULL))
  then (ResultNull, w)
  else
    let codecParams := ConnTable db in
    let nameParam1 := sqlite3_value_text (arg 0%nat) in
    let '(hasDefaultPrefix, nameParam1) :=
      skipPrefix nameParam1 "default:" 8 in
    let '(hasMinPrefix, nameParam1) := skipPrefix nameParam1 "min:" 4 in
    let '(hasMaxPrefix, nameParam1) := skipPrefix nameParam1 "max:" 4 in
    let table := loadTable codecParams w in
    match findParam nameParam1 (paramsAt 0 table) with
    | Some (i, param1) =>
        (* isCommonParam1 *)
        if argc =? 1 then
          let value :=
            viewValue hasDefaultPrefix hasMinPrefix hasMaxPrefix param1 in
          if sqlite3_stricmp nameParam1 "cipher" =? 0
          then (descriptorName value, w)
          else (ResultInt value, w)
        else if argc =? 2 then
          setCommonParam codecParams i param1 nameParam1 hasDefaultPrefix
            (arg 1%nat) w
        else (ResultNull, w)
    | None =>
        let cipher :=
          if negb hasDefaultPrefix && negb hasMinPrefix && negb hasMaxPrefix
          then findCodec nameParam1 table else None in
        match cipher with
        | None => (ResultNull, w)
        | Some j =>
            (* isCipherParam1 *)
            if argc =? 1 then (listParams (paramsAt j table), w)
            else if sqlite3_value_type (arg 1%nat) =? SQLITE_TEXT then
              cipherParam db codecParams j nameParam1 argc
                (arg 1%nat) (arg 2%nat) w
            else (ResultNull, w)
        end
    end.

(** *** [sqlite3mcConfigureFromUri] *)

(** One round of the loop "Check all cipher specific parameters".
    [sqlite3_mprintf] is taken to succeed. *)
Definition configureParamFromUri (db : option nat) (dbFileName : DbFileName)
    (cipherName : string) (configDefault : Z) (w : World) (name : string)
  : World :=
  let value := to_int (sqlite3_uri_int64 dbFileName name (-1)) in
  if value >=? 0 then
    let param :=
      if negb (configDefault =? 0) then "default:" ++ name else name in
    snd (sqlite3mc_config_cipher db (Some cipherName) (Some param) value w)
  else w.

(** The three steps before that loop: "Set global parameters (cipher and
    hmac_check)" and "Special handling for SQLCipher". *)
Definition configureCipherFromUri (db : option nat) (configDefault : Z)
    (j : nat) (w : World) : World :=
  if negb (configDefault =? 0)
  then snd (sqlite3mc_config db (Some "default:cipher") (Z.of_nat j) w)
  else snd (sqlite3mc_config db (Some "cipher") (Z.of_nat j) w).

Definition configureHmacCheckFromUri (db : option nat) (hmacCheck : Z)
    (w : World) : World :=
  if hmacCheck =? 0
  then snd (sqlite3mc_config db (Some "hmac_check") hmacCheck w)
  else w.

Definition configureLegacyFromUri (db : option nat) (dbFileName : DbFileName)
    (cipherName : string) (configDefault : Z) (w : World) : World :=
  if sqlite3_stricmp cipherName "sqlcipher" =? 0 then
    let legacy := to_int (sqlite3_uri_int64 dbFileName "legacy" 0) in
    if (legacy >? 0) && (legacy <=? SQLCIPHER_VERSION_MAX)
    then sqlite3mcConfigureSQLCipherVersion db configDefault legacy w
    else w
  else w.

Definition sqlite3mcConfigureFromUri (db : option nat)
    (zDbName : option DbFileName) (configDefault : Z) (w : World)
  : Z * World :=
  match zDbName with
  | None => (SQLITE_OK, w)
  | Some dbFileName =>
      match sqlite3_uri_parameter dbFileName "cipher" with
      | None => (SQLITE_OK, w)
      | Some cipherName =>
          let global := default [] (globalCodecParameterTable w) in
          (* the search starts at j = 1 *)
          match findCodec cipherName (drop 1 global) with
          | None =>
              (SQLITE_ERROR,
               sqlite3ErrorWithMsg db SQLITE_ERROR
                 ("unknown cipher '" ++ cipherName ++ "'") w)
          | Some j' =>
              let j := S j' in
              let hmacCheck :=
                sqlite3_uri_boolean dbFileName "hmac_check" 1 in
              let w := configureCipherFromUri db configDefault j w in
              let w := configureHmacCheckFromUri db hmacCheck w in
              let w :=
                configureLegacyFromUri db dbFileName cipherName
                  configDefault w in
              (* the loop walks the names of the process-wide schema, which
                 none of its own calls writes *)
              let cipherParams :=
                paramsAt j (default [] (globalCodecParameterTable w)) in
              (SQLITE_OK,
               fold_left
                 (configureParamFromUri db dbFileName cipherName
                    configDefault)
                 (paramNames cipherParams) w)
          end
      end
  end.

(** *** Sequences of calls *)

Inductive Operation :=
| OpConfig (db : option nat) (paramName : option string) (newValue : Z)
| OpConfigCipher (db : option nat) (cipherName paramName : option string)
                 (newValue : Z)
| OpConfigParams (db : nat) (argv : list sqlite3_value)
| OpConfigureFromUri (db : option nat) (zDbName : option DbFileName)
                     (configDefault : Z).

Definition perform (w : World) (op : Operation) : World :=
  match op with
  | OpConfig db paramName newValue =>
      snd (sqlite3mc_config db paramName newValue w)
  | OpConfigCipher db cipherName paramName newValue =>
      snd (sqlite3mc_config_cipher db cipherName paramName newValue w)
  | OpConfigParams db argv => snd (sqlite3mcConfigParams db argv w)
  | OpConfigureFromUri db zDbName configDefault =>
      snd (sqlite3mcConfigureFromUri db zDbName configDefault w)
  end.

Definition performAll (ops : list Operation) (w : World) : World :=
  fold_left perform ops w.

End Model.

(** ** Predicates used by the statements *)

(** The range invariant of one cell, of a table, of the whole store. *)
Definition cellInRange (p : CipherParams) : Prop :=
  m_minValue p <= m_value p <= m_maxValue p
  /\ m_minValue p <= m_default p <= m_maxValue p.

Definition tableInRange (t : list CodecParameter) : Prop :=
  Forall (fun c => Forall cellInRange (m_params c)) t.

Definition worldInRange (w : World) : Prop :=
  (forall t, globalCodecParameterTable w = Some t -> tableInRange t)
  /\ Forall (fun c => tableInRange (m_codecParams c)) (connections w).

(** A cell that some spelling of ["cipher"] resolves to. *)
Definition answersToCipher (p : CipherParams) : Prop :=
  exists name,
    sqlite3_stricmp name (m_name p) = 0 /\ sqlite3_stricmp name "cipher" = 0.

(** Every position of the descriptor table is an admissible value of the
    common [cipher] cell of every connection. *)
Definition fitsDescriptors (codecDescriptorTable : list string)
    (p : CipherParams) : Prop :=
  answersToCipher p ->
  m_minValue p <= 1 /\ Z.of_nat (length codecDescriptorTable) <= m_maxValue p.

Definition descriptorsFit (codecDescriptorTable : list string) (w : World)
  : Prop :=
  Forall
    (fun c =>
       Forall (fitsDescriptors codecDescriptorTable)
         (paramsAt 0 (m_codecParams c)))
    (connections w).

Definition registryInv (codecDescriptorTable : list string) (w : World)
  : Prop :=
  worldInRange w /\ descriptorsFit codecDescriptorTable w.

(** The name carries none of the three view prefixes. *)
Definition hasNoPrefix (name : string) : Prop :=
  sqlite3_strnicmp name "default:" 8 <> 0
  /\ sqlite3_strnicmp name "min:" 4 <> 0
  /\ sqlite3_strnicmp name "max:" 4 <> 0.

(** The call reaches the external legacy configurator. *)
Definition reachesLegacy (SQLCIPHER_VERSION_MAX : Z)
    (cipherName paramName : string) (hasMinPrefix hasMaxPrefix : bool)
    (newValue : Z) : bool :=
  (sqlite3_stricmp cipherName "sqlcipher" =? 0)
  && (sqlite3_stricmp paramName "legacy" =? 0)
  && negb hasMinPrefix && negb hasMaxPrefix
  && (newValue >? 0) && (newValue <=? SQLCIPHER_VERSION_MAX).

(** The common cell stored at position [i] of connection [db]. *)
Definition commonCell (db i : nat) (w : World) : option CipherParams :=
  paramsAt 0 (loadTable (ConnTable db) w) !! i.

(** Entry 0 of the table of connection [db]: the common scope. *)
Definition commonEntry (db : nat) (w : World) : option CodecParameter :=
  loadTable (ConnTable db) w !! 0%nat.

(** The cipher name is not the name of entry 0 of the connection's table. *)
Definition cipherNotCommon (db : nat) (cipherName : string) (w : World)
  : Prop :=
  forall c, commonEntry db w = Some c ->
            sqlite3_stricmp cipherName (codec_m_name c) <> 0.

(** Two names that differ at most in the case of their letters. *)
Fixpoint sameCase (a b : string) : Prop :=
  match a, b with
  | EmptyString, EmptyString => True
  | String c a', String x b' =>
      UpperToLower c = UpperToLower x /\ sameCase a' b'
  | _, _ => False
  end.

(** What a write never touches: the name and the bounds of a cell, the
    names of the scopes, and on a connection the answer of its table
    query. *)
Definition cellKey (p : CipherParams) : string * Z * Z :=
  (m_name p, m_minValue p, m_maxValue p).

Definition tableShape (t : list CodecParameter)
  : list (string * list (string * Z * Z)) :=
  (fun c => (codec_m_name c, cellKey <$> m_params c)) <$> t.

Definition worldShape (w : World) :=
  (tableShape <$> globalCodecParameterTable w,
   (fun c => (m_configTableQuery c, tableShape (m_codecParams c)))
     <$> connections w).

(** The tables of the store, without the log and the error messages. *)
Definition worldTables (w : World) :=
  (globalCodecParameterTable w, m_codecParams <$> connections w).

(** A byte. *)
Definition isByte (b : Z) : Prop := 0 <= b < 256.

(** ** Sample data *)

Definition sampleCommon : list CipherParams :=
  [ mkCipherParams "cipher" 2 2 1 3;
    mkCipherParams "hmac_check" 1 1 0 1 ].

Definition sampleChacha20 : list CipherParams :=
  [ mkCipherParams "kdf_iter" 64007 64007 1 2147483647;
    mkCipherParams "legacy" 0 0 0 1;
    mkCipherParams "legacy_page_size" 4096 4096 0 65536 ].

Definition sampleSqlcipher : list CipherParams :=
  [ mkCipherParams "kdf_iter" 256000 256000 1 2147483647;
    mkCipherParams "fast_kdf_iter" 2 2 1 2147483647;
    mkCipherParams "hmac_use" 1 1 0 1;
    mkCipherParams "legacy" 0 0 0 4;
    mkCipherParams "legacy_page_size" 4096 4096 0 65536 ].

Definition sampleAes128 : list CipherParams :=
  [ mkCipherParams "legacy" 0 0 0 1;
    mkCipherParams "legacy_page_size" 0 0 0 65536 ].

Definition sampleTable : list CodecParameter :=
  [ mkCodecParameter "global" sampleCommon;
    mkCodecParameter "aes128cbc" sampleAes128;
    mkCodecParameter "chacha20" sampleChacha20;
    mkCodecParameter "sqlcipher" sampleSqlcipher ].

Definition sampleDescriptors : list string :=
  [ "aes128cbc"; "chacha20"; "sqlcipher" ].

Definition sampleSalt : list Z :=
  [ 0; 17; 34; 51; 68; 85; 102; 119; 136; 153; 170; 187; 204; 221; 238; 255 ].

Definition sampleCodec : Codec := mkCodec true true (Some sampleSalt).

Definition sampleHexdigits : list Z :=
  [ 48; 49; 50; 51; 52; 53; 54; 55; 56; 57; 65; 66; 67; 68; 69; 70 ].

(** A connection whose functions are registered as the module does it, with
    an encrypted main schema. *)
Definition sampleConn : sqlite3 :=
  mkSqlite3 sampleTable
    (mkConfigTableQuery SQLITE_OK SQLITE_ROW sqlite3mcConfigTable []) None
    (fun n => if sqlite3_stricmp n "main" =? 0 then 0 else -1)
    (fun i => if i =? 0 then Some sampleCodec else None).

(** A connection on which [sqlite3mc_config_table] answers with a pointer
    bound under another tag. *)
Definition foreignConn : sqlite3 :=
  mkSqlite3 sampleTable
    (mkConfigTableQuery SQLITE_OK SQLITE_ROW (SqlPointer "carray") []) None
    (fun _ => -1) (fun _ => None).

Definition sampleWorld : World :=
  mkWorld (Some sampleTable) [sampleConn; foreignConn] [].

(** A connection on which the module's functions are not registered: the
    query cannot be prepared, and the host reports why. *)
Definition bareConn : sqlite3 :=
  mkSqlite3 sampleTable
    (mkConfigTableQuery SQLITE_ERROR SQLITE_ERROR SqlNull
       [(SQLITE_ERROR, "no such function: sqlite3mc_config_table")])
    None (fun _ => -1) (fun _ => None).

Definition bareWorld : World :=
  mkWorld (Some sampleTable) [bareConn] [].

Definition noLegacy : option nat -> Z -> Z -> World -> World :=
  fun _ _ _ w => w.

(** A sample legacy configurator: a version preset that sets three cells of
    the sqlcipher schema through [sqlite3mc_config_cipher]. *)
Definition sampleLegacy (db : option nat) (configDefault legacy : Z)
    (w : World) : World :=
  let pfx := if negb (configDefault =? 0) then "default:" else "" in
  let kdf_iter :=
    if legacy <? 3 then 4000 else if legacy <? 4 then 64000 else 256000 in
  let hmac_use := if legacy <? 2 then 0 else 1 in
  let page_size := if legacy <? 4 then 1024 else 4096 in
  fold_left
    (fun w nv =>
       snd (sqlite3mc_config_cipher 4 noLegacy db (Some "sqlcipher")
              (Some (fst nv)) (snd nv) w))
    [ (pfx ++ "kdf_iter", kdf_iter); (pfx ++ "hmac_use", hmac_use);
      (pfx ++ "legacy_page_size", page_size) ]
    w.

Definition sampleGetBoolean (z : string) (dflt : bool) : bool :=
  if String.eqb z "0" || String.eqb z "false" || String.eqb z "no"
     || String.eqb z "off"
  then false
  else if String.eqb z "1" || String.eqb z "true" || String.eqb z "yes"
          || String.eqb z "on"
  then true
  else dflt.

Fixpoint sampleDigits (acc : Z) (z : string) : option Z :=
  match z with
  | EmptyString => Some acc
  | String c rest =>
      let d := Z.of_nat (nat_of_ascii c) - 48 in
      if (0 <=? d) && (d <=? 9) then sampleDigits (10 * acc + d) rest
      else None
  end.

Definition sampleDecToI64 (z : string) : option Z :=
  match z with
  | EmptyString => None
  | _ => sampleDigits 0 z
  end.

(** A sequence of calls of all four entry points on the sample connection. *)
Definition sampleOps : list Operation :=
  [ OpConfig (Some 0%nat) (Some "default:cipher") 3;
    OpConfigParams 0 [SqlText "cipher"; SqlText "chacha20"];
    OpConfigParams 0 [SqlText "sqlcipher"; SqlText "legacy"; SqlInteger 2];
    OpConfigCipher (Some 0%nat) (Some "sqlcipher") (Some "kdf_iter") 64000;
    OpConfigureFromUri (Some 0%nat)
      (Some [("cipher", "sqlcipher"); ("hmac_check", "0"); ("legacy", "3");
             ("kdf_iter", "64000")]) 1 ].

(** * Properties *)

(** ** Strings and prefixes *)

Lemma skipPrefix_default (name : string) :
  skipPrefix ("default:" ++ name) "default:" 8 = (true, name).
Proof. reflexivity. Qed.

Lemma skipPrefix_min (name : string) :
  skipPrefix ("min:" ++ name) "min:" 4 = (true, name).
Proof. reflexivity. Qed.

Lemma skipPrefix_max (name : string) :
  skipPrefix ("max:" ++ name) "max:" 4 = (true, name).
Proof. reflexivity. Qed.

Lemma skipPrefix_none (name pfx : string) (n : nat) :
  sqlite3_strnicmp name pfx n <> 0 -> skipPrefix name pfx n = (false, name).
Proof.
  intros H. unfold skipPrefix.
  destruct (Z.eqb_spec (sqlite3_strnicmp name pfx n) 0); congruence.
Qed.

Lemma skipPrefix_flag (name pfx : string) (n : nat) (b : bool) (rest : string) :
  skipPrefix name pfx n = (b, rest) ->
  b = (sqlite3_strnicmp name pfx n =? 0).
Proof.
  unfold skipPrefix. destruct (sqlite3_strnicmp name pfx n =? 0); congruence.
Qed.

(** Equal under [sqlite3_stricmp] means equal first letters, up to case. *)
Lemma stricmp_head (c x : ascii) (a b : string) :
  sqlite3_stricmp (String c a) (String x b) = 0 ->
  UpperToLower c = UpperToLower x.
Proof.
  simpl. destruct (Ascii.eqb_spec c x) as [-> | _]; [reflexivity |].
  destruct (Z.eqb_spec (UpperToLower c - UpperToLower x) 0); intros; lia.
Qed.

Lemma strnicmp_head (c x : ascii) (a b : string) (n : nat) :
  sqlite3_strnicmp (String c a) (String x b) (S n) = 0 ->
  UpperToLower c = UpperToLower x.
Proof.
  simpl. destruct (Z.eqb_spec (UpperToLower c) (UpperToLower x)); intros; lia.
Qed.

(** A name that spells ["hmac_check"] is not a spelling of ["cipher"] and
    carries no view prefix. *)
Lemma hmac_check_not_cipher (name : string) :
  sqlite3_stricmp name "hmac_check" = 0 -> sqlite3_stricmp name "cipher" <> 0.
Proof.
  destruct name as [| c rest]; [discriminate |].
  intros H1 H2. apply stricmp_head in H1. apply stricmp_head in H2.
  rewrite H1 in H2. discriminate.
Qed.

Lemma hmac_check_hasNoPrefix (name : string) :
  sqlite3_stricmp name "hmac_check" = 0 -> hasNoPrefix name.
Proof.
  destruct name as [| c rest]; [discriminate |].
  intros H1. apply stricmp_head in H1.
  repeat split; intros H2; apply strnicmp_head in H2;
    rewrite H1 in H2; discriminate.
Qed.

(** ** Lookup in a schema *)

Lemma findParam_Some (name : string) (ps : list CipherParams) (i : nat)
    (p : CipherParams) :
  findParam name ps = Some (i, p) ->
  ps !! i = Some p
  /\ sqlite3_stricmp name (m_name p) = 0
  /\ strlen (m_name p) > 0.
Proof.
  revert i. induction ps as [| q ps IH]; intros i; simpl; [discriminate |].
  destruct (Z.gtb_spec (strlen (m_name q)) 0) as [Hlen | _]; [| discriminate].
  destruct (Z.eqb_spec (sqlite3_stricmp name (m_name q)) 0) as [Heq | _].
  - intros [= <- <-]. repeat split; [assumption | lia].
  - destruct (findParam name ps) as [[k r] |] eqn:E; simpl; [| discriminate].
    intros [= <- <-]. exact (IH k eq_refl).
Qed.

(** Replacing the contents of a cell under its own name leaves every lookup
    at its position. *)
Lemma findParam_insert (name : string) (ps : list CipherParams) (k : nat)
    (q q' : CipherParams) :
  ps !! k = Some q -> m_name q' = m_name q ->
  findParam name (<[k := q']> ps)
  = (fun r => (r.1, if decide (r.1 = k) then q' else r.2))
      <$> findParam name ps.
Proof.
  revert k. induction ps as [| a ps IH]; intros k Hk Hn; [discriminate |].
  destruct k as [| k]; simpl in *.
  - injection Hk as ->. rewrite Hn.
    destruct (strlen (m_name q) >? 0); [| reflexivity].
    destruct (sqlite3_stricmp name (m_name q) =? 0); [reflexivity |].
    destruct (findParam name ps) as [[j r] |]; reflexivity.
  - destruct (strlen (m_name a) >? 0); [| reflexivity].
    destruct (sqlite3_stricmp name (m_name a) =? 0); [reflexivity |].
    rewrite (IH k Hk Hn).
    destruct (findParam name ps) as [[j r] |]; simpl; [| reflexivity].
    destruct (decide (j = k)), (decide (S j = S k)); try reflexivity; lia.
Qed.

Lemma findParam_insert_same (name : string) (ps : list CipherParams) (i : nat)
    (p p' : CipherParams) :
  findParam name ps = Some (i, p) -> m_name p' = m_name p ->
  findParam name (<[i := p']> ps) = Some (i, p').
Proof.
  intros Hf Hn. destruct (findParam_Some _ _ _ _ Hf) as (Hi & _ & _).
  rewrite (findParam_insert _ _ _ _ _ Hi Hn), Hf. simpl.
  destruct (decide (i = i)); congruence.
Qed.

Lemma findParam_insert_other (name : string) (ps : list CipherParams)
    (i k : nat) (p q q' : CipherParams) :
  findParam name ps = Some (i, p) -> i <> k ->
  ps !! k = Some q -> m_name q' = m_name q ->
  findParam name (<[k := q']> ps) = Some (i, p).
Proof.
  intros Hf Hne Hk Hn.
  rewrite (findParam_insert _ _ _ _ _ Hk Hn), Hf. simpl.
  destruct (decide (i = k)); congruence.
Qed.

Lemma findDescriptor_Some (name : string) (ds : list string) (j : nat)
    (d : string) :
  findDescriptor name ds = Some (j, d) -> (j < length ds)%nat.
Proof.
  revert j. induction ds as [| a ds IH]; intros j; simpl; [discriminate |].
  destruct (strlen a >? 0); [| discriminate].
  destruct (sqlite3_stricmp name a =? 0).
  - intros [= <- <-]. lia.
  - destruct (findDescriptor name ds) as [[k r] |]; simpl; [| discriminate].
    intros [= <- <-]. specialize (IH k eq_refl). lia.
Qed.

Lemma assignCommon_name (b : bool) (name : string) (v : Z) (p : CipherParams) :
  m_name (assignCommon b name v p) = m_name p.
Proof. unfold assignCommon. destruct (_ && _); reflexivity. Qed.

Lemma assignCipher_name (b : bool) (v : Z) (p : CipherParams) :
  m_name (assignCipher b v p) = m_name p.
Proof. unfold assignCipher. destruct b; reflexivity. Qed.

(** ** The store *)

Lemma loadTable_writeParam (h j i : nat) (p : CipherParams) (w : World) :
  loadTable (ConnTable h) (writeParam (ConnTable h) j i p w)
  = storeParam p j i (loadTable (ConnTable h) w).
Proof.
  unfold writeParam, loadTable, storeTable. simpl.
  rewrite list_lookup_alter_eq.
  destruct (connections w !! h) as [c |]; reflexivity.
Qed.

Lemma paramsAt_storeParam (j i : nat) (p : CipherParams)
    (t : list CodecParameter) :
  paramsAt j (storeParam p j i t) = <[i := p]> (paramsAt j t).
Proof.
  unfold paramsAt, storeParam. rewrite list_lookup_alter_eq.
  destruct (t !! j) as [c |]; reflexivity.
Qed.

Lemma paramsAt_storeParam_ne (j k i : nat) (p : CipherParams)
    (t : list CodecParameter) :
  j <> k -> paramsAt k (storeParam p j i t) = paramsAt k t.
Proof.
  intros Hne. unfold paramsAt, storeParam.
  rewrite list_lookup_alter_ne by assumption. reflexivity.
Qed.

Lemma getCodecParams_writeParam (h : nat) (r : TableRef) (j i : nat)
    (p : CipherParams) (w : World) :
  sqlite3mcGetCodecParams h (writeParam r j i p w)
  = sqlite3mcGetCodecParams h w.
Proof.
  unfold sqlite3mcGetCodecParams, writeParam, storeTable.
  destruct r as [| h']; simpl; [reflexivity |].
  destruct (decide (h' = h)) as [-> | Hne].
  - rewrite list_lookup_alter_eq.
    destruct (connections w !! h) as [c |]; reflexivity.
  - rewrite list_lookup_alter_ne by assumption. reflexivity.
Qed.

Lemma getCodecParams_ref (h : nat) (w : World) (r : TableRef) :
  sqlite3mcGetCodecParams h w = Some r -> r = ConnTable h.
Proof.
  unfold sqlite3mcGetCodecParams.
  destruct (connections w !! h) as [c |]; [| discriminate].
  repeat (destruct (_ : bool); [| discriminate]). congruence.
Qed.

(** The query of [sqlite3mcGetCodecParams] leaves the tables and the
    connections alone, and the log as well when a table comes back. *)
Lemma hostLog_connections (entries : list (Z * string)) (w : World) :
  globalCodecParameterTable (hostLog entries w) = globalCodecParameterTable w
  /\ connections (hostLog entries w) = connections w.
Proof.
  revert w. induction entries as [| e entries IH]; intros w;
    [split; reflexivity |].
  exact (IH (sqlite3_log e.1 (MsgHost e.2) w)).
Qed.

Lemma getCodecParams_store_connections (h : nat) (w : World) :
  globalCodecParameterTable (sqlite3mcGetCodecParams_store h w)
  = globalCodecParameterTable w
  /\ connections (sqlite3mcGetCodecParams_store h w) = connections w.
Proof.
  unfold sqlite3mcGetCodecParams_store.
  destruct (connections w !! h) as [c |]; [| split; reflexivity].
  destruct (prepare_rc (m_configTableQuery c) =? SQLITE_OK);
    [split; reflexivity | apply hostLog_connections].
Qed.

Lemma getCodecParams_store_Some (h : nat) (w : World) (r : TableRef) :
  sqlite3mcGetCodecParams h w = Some r ->
  sqlite3mcGetCodecParams_store h w = w.
Proof.
  unfold sqlite3mcGetCodecParams, sqlite3mcGetCodecParams_store.
  destruct (connections w !! h) as [c |]; [| reflexivity].
  destruct (prepare_rc (m_configTableQuery c) =? SQLITE_OK);
    [reflexivity | discriminate].
Qed.

Lemma codecParamsFor_store_connections (db : option nat) (w : World) :
  globalCodecParameterTable (codecParamsFor_store db w)
  = globalCodecParameterTable w
  /\ connections (codecParamsFor_store db w) = connections w.
Proof.
  destruct db as [h |]; [apply getCodecParams_store_connections |].
  split; reflexivity.
Qed.

Lemma codecParamsFor_store_Some (db : option nat) (w : World) (r : TableRef) :
  codecParamsFor db w = Some r -> codecParamsFor_store db w = w.
Proof.
  destruct db as [h |]; [apply getCodecParams_store_Some | reflexivity].
Qed.

Lemma codecParamsFor_store_tables (db : option nat) (w : World) :
  worldTables (codecParamsFor_store db w) = worldTables w.
Proof.
  destruct (codecParamsFor_store_connections db w) as [Hg Hc].
  unfold worldTables. rewrite Hg, Hc. reflexivity.
Qed.

(** Setting the error of a connection touches no table. *)
Lemma worldTables_error (w : World) (db : option nat) (rc : Z) (msg : string) :
  worldTables (sqlite3ErrorWithMsg db rc msg w) = worldTables w.
Proof.
  destruct db as [h |]; [| reflexivity]. unfold worldTables. simpl. f_equal.
  apply list_eq. intros k. rewrite !list_lookup_fmap.
  destruct (decide (h = k)) as [<- | Hne];
    [| rewrite list_lookup_alter_ne by assumption; reflexivity].
  rewrite list_lookup_alter_eq.
  destruct (connections w !! h) as [c |]; reflexivity.
Qed.

(** ** [sqlite3mc_config] on a connection *)

Lemma config_on_connection (h : nat) (name0 n1 n2 name : string) (v : Z)
    (w : World) (d mn mx : bool) (i : nat) (p : CipherParams) :
  sqlite3mcGetCodecParams h w = Some (ConnTable h) ->
  skipPrefix name0 "default:" 8 = (d, n1) ->
  skipPrefix n1 "min:" 4 = (mn, n2) ->
  skipPrefix n2 "max:" 4 = (mx, name) ->
  findParam name (paramsAt 0 (loadTable (ConnTable h) w)) = Some (i, p) ->
  sqlite3mc_config (Some h) (Some name0) v w
  = if negb mn && negb mx && (v >=? 0)
       && (v >=? m_minValue p) && (v <=? m_maxValue p)
    then (v, writeParam (ConnTable h) 0 i (assignCommon d name v p) w)
    else (viewValue d mn mx p, w).
Proof.
  intros Hc H1 H2 H3 Hf. unfold sqlite3mc_config, codecParamsFor.
  rewrite Hc, H1, H2, H3, Hf. reflexivity.
Qed.

Lemma config_unresolved (h : nat) (name0 n1 n2 name : string) (v : Z)
    (w : World) (d mn mx : bool) :
  sqlite3mcGetCodecParams h w = Some (ConnTable h) ->
  skipPrefix name0 "default:" 8 = (d, n1) ->
  skipPrefix n1 "min:" 4 = (mn, n2) ->
  skipPrefix n2 "max:" 4 = (mx, name) ->
  findParam name (paramsAt 0 (loadTable (ConnTable h) w)) = None ->
  sqlite3mc_config (Some h) (Some name0) v w = (-1, w).
Proof.
  intros Hc H1 H2 H3 Hf. unfold sqlite3mc_config, codecParamsFor. simpl.
  rewrite Hc, H1, H2, H3, Hf. reflexivity.
Qed.

(** The state of a connection after a write to one common cell. *)
Lemma common_after_write (h i : nat) (p p' : CipherParams) (name : string)
    (w : World) :
  findParam name (paramsAt 0 (loadTable (ConnTable h) w)) = Some (i, p) ->
  m_name p' = m_name p ->
  findParam name
    (paramsAt 0 (loadTable (ConnTable h) (writeParam (ConnTable h) 0 i p' w)))
  = Some (i, p').
Proof.
  intros Hf Hn. rewrite loadTable_writeParam, paramsAt_storeParam.
  exact (findParam_insert_same _ _ _ _ _ Hf Hn).
Qed.

(** C2 (as amended): without a connection, every [newValue >= 0] is refused:
    the call returns [-1] and leaves the store as it was, whether or not
    the process-wide table exists. *)
Theorem config_global_write_refused (paramName : option string) (v : Z)
    (w : World) :
  0 <= v -> sqlite3mc_config None paramName v w = (-1, w).
Proof.
  intros Hv. unfold sqlite3mc_config.
  destruct paramName as [name |]; [| reflexivity].
  destruct (Z.geb_spec v 0); [reflexivity | lia].
Qed.

(** C7: on a connection, for a name other than ["hmac_check"] that resolves
    in the common scope, a write of an admissible [v] through [default:]
    is read back as [v] through [default:] and through the plain name. *)
Theorem config_default_write_read (h : nat) (w : World) (name : string)
    (v : Z) (i : nat) (p : CipherParams) :
  sqlite3mcGetCodecParams h w = Some (ConnTable h) ->
  hasNoPrefix name ->
  findParam name (paramsAt 0 (loadTable (ConnTable h) w)) = Some (i, p) ->
  sqlite3_stricmp name "hmac_check" <> 0 ->
  0 <= v -> m_minValue p <= v <= m_maxValue p ->
  let w1 := snd (sqlite3mc_config (Some h) (Some ("default:" ++ name)) v w) in
  fst (sqlite3mc_config (Some h) (Some ("default:" ++ name)) (-1) w1) = v
  /\ fst (sqlite3mc_config (Some h) (Some name) (-1) w1) = v.
Proof.
  intros Hc (Hd & Hmn & Hmx) Hf Hh Hv Hr.
  pose proof (skipPrefix_none _ _ _ Hd) as Sd.
  pose proof (skipPrefix_none _ _ _ Hmn) as Smn.
  pose proof (skipPrefix_none _ _ _ Hmx) as Smx.
  rewrite (config_on_connection h _ _ _ _ v w _ _ _ i p Hc
             (skipPrefix_default name) Smn Smx Hf).
  assert (Hw : negb false && negb false && (v >=? 0)
               && (v >=? m_minValue p) && (v <=? m_maxValue p) = true).
  { simpl. destruct (Z.geb_spec v 0), (Z.geb_spec v (m_minValue p)),
      (Z.leb_spec v (m_maxValue p)); try reflexivity; lia. }
  rewrite Hw. cbv zeta. cbn [snd].
  set (p' := assignCommon true name v p).
  assert (Hf' := common_after_write h i p p' name w Hf
                   (assignCommon_name true name v p)).
  assert (Hc' : sqlite3mcGetCodecParams h
                  (writeParam (ConnTable h) 0 i p' w) = Some (ConnTable h))
    by (rewrite getCodecParams_writeParam; exact Hc).
  rewrite (config_on_connection h _ _ _ _ (-1) _ _ _ _ i p' Hc'
             (skipPrefix_default name) Smn Smx Hf').
  rewrite (config_on_connection h _ _ _ _ (-1) _ _ _ _ i p' Hc' Sd Smn Smx Hf').
  simpl. unfold p', assignCommon.
  destruct (Z.eqb_spec (sqlite3_stricmp name "hmac_check") 0);
    [contradiction | split; reflexivity].
Qed.

(** C10: prefixes are consumed in the order [default:], [min:], [max:], each
    once.  ["default:min:N"] loses both prefixes, answers with the default
    of [N] and writes nothing whatever [v] is; ["min:default:N"] loses only
    ["min:"], and the remaining ["default:N"], naming no cell, makes the
    call return [-1]. *)
Theorem config_compound_prefix (h : nat) (w : World) (name : string) (v : Z)
    (i : nat) (p : CipherParams) :
  sqlite3mcGetCodecParams h w = Some (ConnTable h) ->
  sqlite3_strnicmp name "max:" 4 <> 0 ->
  findParam name (paramsAt 0 (loadTable (ConnTable h) w)) = Some (i, p) ->
  findParam ("default:" ++ name) (paramsAt 0 (loadTable (ConnTable h) w))
  = None ->
  sqlite3mc_config (Some h) (Some ("default:min:" ++ name)) v w
  = (m_default p, w)
  /\ sqlite3mc_config (Some h) (Some ("min:default:" ++ name)) v w = (-1, w).
Proof.
  intros Hc Hmx Hf Hnone. split.
  - rewrite (config_on_connection h ("default:min:" ++ name) ("min:" ++ name)
               name name v w true true false i p Hc eq_refl eq_refl
               (skipPrefix_none _ _ _ Hmx) Hf).
    reflexivity.
  - exact (config_unresolved h ("min:default:" ++ name)
             ("min:default:" ++ name) ("default:" ++ name) ("default:" ++ name)
             v w false true false Hc eq_refl eq_refl eq_refl Hnone).
Qed.

(** Supporting fact for C1: [sqlite3mc_config] never writes under a [min:]
    or [max:] prefix. *)
Lemma config_min_max_frame (db : option nat) (name0 n1 n2 name : string)
    (v : Z) (w : World) (d mn mx : bool) :
  skipPrefix name0 "default:" 8 = (d, n1) ->
  skipPrefix n1 "min:" 4 = (mn, n2) ->
  skipPrefix n2 "max:" 4 = (mx, name) ->
  mn || mx = true ->
  worldTables (snd (sqlite3mc_config db (Some name0) v w)) = worldTables w.
Proof.
  intros H1 H2 H3 Hp. unfold sqlite3mc_config.
  destruct (bool_decide (db = None) && (v >=? 0)); [reflexivity |].
  destruct (codecParamsFor db w) as [r |];
    [| apply codecParamsFor_store_tables].
  rewrite H1, H2, H3.
  destruct (findParam name (paramsAt 0 (loadTable r w))) as [[i p] |];
    [| reflexivity].
  destruct mn, mx; try discriminate; reflexivity.
Qed.

Section Properties.

Variable SQLCIPHER_VERSION_MAX : Z.
Variable sqlite3mcConfigureSQLCipherVersion :
  option nat -> Z -> Z -> World -> World.
Variable codecDescriptorTable : list string.
Variable hexdigits : list Z.
Variable sqlite3_malloc_ok : Z -> bool.
Variable sqlite3GetBoolean : string -> bool -> bool.
Variable sqlite3DecOrHexToI64 : string -> option Z.

Local Abbreviation config_cipher :=
  (sqlite3mc_config_cipher SQLCIPHER_VERSION_MAX
     sqlite3mcConfigureSQLCipherVersion).
Local Abbreviation legacy_handling :=
  (legacyHandling SQLCIPHER_VERSION_MAX sqlite3mcConfigureSQLCipherVersion).
Local Abbreviation config_params :=
  (sqlite3mcConfigParams SQLCIPHER_VERSION_MAX
     sqlite3mcConfigureSQLCipherVersion codecDescriptorTable
     sqlite3_malloc_ok).
Local Abbreviation cipher_param :=
  (cipherParam SQLCIPHER_VERSION_MAX sqlite3mcConfigureSQLCipherVersion).
Local Abbreviation set_common_param := (setCommonParam codecDescriptorTable).
Local Abbreviation configure_from_uri :=
  (sqlite3mcConfigureFromUri SQLCIPHER_VERSION_MAX
     sqlite3mcConfigureSQLCipherVersion sqlite3GetBoolean
     sqlite3DecOrHexToI64).
Local Abbreviation codec_data :=
  (sqlite3mc_codec_data hexdigits sqlite3_malloc_ok).

(** *** The legacy block *)

Lemma legacyHandling_unreached (db : option nat) (cipherName name : string)
    (d mn mx : bool) (v : Z) (w : World) :
  reachesLegacy SQLCIPHER_VERSION_MAX cipherName name mn mx v = false ->
  exists l,
    legacy_handling db cipherName name d mn mx v w
    = mkWorld (globalCodecParameterTable w) (connections w)
              (logged w ++ l)%list.
Proof.
  unfold reachesLegacy, legacyHandling. intros Hr.
  destruct w as [g c l0]; simpl.
  destruct (bool_decide (db <> None)); simpl;
    [| exists []; rewrite app_nil_r; reflexivity].
  destruct (sqlite3_stricmp cipherName "sqlcipher" =? 0); simpl in *;
    [| exists []; rewrite app_nil_r; reflexivity].
  destruct (sqlite3_stricmp name "legacy" =? 0); simpl in *;
    [| exists []; rewrite app_nil_r; reflexivity].
  destruct mn; simpl in *; [exists []; rewrite app_nil_r; reflexivity |].
  destruct mx; simpl in *; [exists []; rewrite app_nil_r; reflexivity |].
  rewrite Hr. unfold sqlite3_log. simpl. eexists. reflexivity.
Qed.

Lemma legacyHandling_prefixed (db : option nat) (cipherName name : string)
    (d mn mx : bool) (v : Z) (w : World) :
  mn || mx = true ->
  legacy_handling db cipherName name d mn mx v w = w.
Proof.
  intros Hp. unfold legacyHandling.
  destruct (_ && _ && _); [| reflexivity].
  destruct mn, mx; try discriminate; reflexivity.
Qed.

Lemma reachesLegacy_negative (cipherName name : string) (mn mx : bool)
    (v : Z) :
  v <= 0 -> reachesLegacy SQLCIPHER_VERSION_MAX cipherName name mn mx v = false.
Proof.
  intros Hv. unfold reachesLegacy.
  destruct (Z.gtb_spec v 0); [lia |].
  rewrite andb_false_r. reflexivity.
Qed.

(** *** [sqlite3mc_config_cipher] on a connection *)

Lemma config_cipher_on_connection (h : nat) (cipherName name0 n1 n2 name : string)
    (v : Z) (w : World) (d mn mx : bool) (j : nat) :
  sqlite3mcGetCodecParams h w = Some (ConnTable h) ->
  findCodec cipherName (loadTable (ConnTable h) w) = Some j ->
  skipPrefix name0 "default:" 8 = (d, n1) ->
  skipPrefix n1 "min:" 4 = (mn, n2) ->
  skipPrefix n2 "max:" 4 = (mx, name) ->
  config_cipher (Some h) (Some cipherName) (Some name0) v w
  = let w1 := legacy_handling (Some h) cipherName name d mn mx v w in
    match findParam name (paramsAt j (loadTable (ConnTable h) w1)) with
    | None => (-1, w1)
    | Some (i, param) =>
        if negb mn && negb mx then
          if (v >=? 0) && (v >=? m_minValue param)
             && (v <=? m_maxValue param)
          then (v, writeParam (ConnTable h) j i (assignCipher d v param) w1)
          else (viewValue d mn mx param,
                sqlite3_log SQLITE_WARNING
                  (MsgValueOutOfRange v name cipherName
                     (m_minValue param) (m_maxValue param)) w1)
        else (viewValue d mn mx param, w1)
    end.
Proof.
  intros Hc Hj H1 H2 H3. unfold sqlite3mc_config_cipher, codecParamsFor.
  rewrite Hc, Hj, H1, H2, H3. reflexivity.
Qed.

(** C4 (as amended): on a connection, for a parameter that resolves in the
    cipher's schema, a call with a negative [v], or with a [v] outside the
    cell's range that does not reach the legacy configurator, returns the
    value of the requested view (not [-1]), leaves every table as it was
    and, when the name has no [min:]/[max:] prefix, logs the warning that
    carries the cell's range. *)
Theorem config_cipher_rejected (h : nat) (w : World)
    (cipherName name0 n1 n2 name : string) (v : Z) (d mn mx : bool)
    (j i : nat) (p : CipherParams) :
  sqlite3mcGetCodecParams h w = Some (ConnTable h) ->
  findCodec cipherName (loadTable (ConnTable h) w) = Some j ->
  skipPrefix name0 "default:" 8 = (d, n1) ->
  skipPrefix n1 "min:" 4 = (mn, n2) ->
  skipPrefix n2 "max:" 4 = (mx, name) ->
  findParam name (paramsAt j (loadTable (ConnTable h) w)) = Some (i, p) ->
  v < 0
  \/ ((v < m_minValue p \/ m_maxValue p < v)
      /\ reachesLegacy SQLCIPHER_VERSION_MAX cipherName name mn mx v = false) ->
  let r := config_cipher (Some h) (Some cipherName) (Some name0) v w in
  fst r = viewValue d mn mx p
  /\ globalCodecParameterTable (snd r) = globalCodecParameterTable w
  /\ connections (snd r) = connections w
  /\ (mn = false -> mx = false ->
      In (SQLITE_WARNING,
          MsgValueOutOfRange v name cipherName (m_minValue p) (m_maxValue p))
         (logged (snd r))).
Proof.
  intros Hc Hj H1 H2 H3 Hf Hv.
  assert (Hr : reachesLegacy SQLCIPHER_VERSION_MAX cipherName name mn mx v
               = false).
  { destruct Hv as [Hv | [_ Hv]]; [| exact Hv].
    apply reachesLegacy_negative. lia. }
  assert (Hrange : (v >=? 0) && (v >=? m_minValue p) && (v <=? m_maxValue p)
                   = false).
  { destruct (Z.geb_spec v 0), (Z.geb_spec v (m_minValue p)),
      (Z.leb_spec v (m_maxValue p)); try reflexivity; lia. }
  rewrite (config_cipher_on_connection h cipherName name0 n1 n2 name v w
             d mn mx j Hc Hj H1 H2 H3).
  destruct (legacyHandling_unreached (Some h) cipherName name d mn mx v w Hr)
    as [l ->].
  cbv zeta.
  change (loadTable (ConnTable h)
            (mkWorld (globalCodecParameterTable w) (connections w)
               (logged w ++ l)%list))
    with (loadTable (ConnTable h) w).
  rewrite Hf, Hrange.
  destruct mn, mx; simpl; repeat split; try discriminate.
  intros _ _. apply in_or_app. right. left. reflexivity.
Qed.


(** Supporting facts for C1: under a [min:] or [max:] prefix neither
    [sqlite3mc_config_cipher] nor the three-argument SQL form touches a
    table. *)
Lemma config_cipher_min_max_frame (db : option nat)
    (cipherName name0 n1 n2 name : string) (v : Z) (w : World)
    (d mn mx : bool) :
  skipPrefix name0 "default:" 8 = (d, n1) ->
  skipPrefix n1 "min:" 4 = (mn, n2) ->
  skipPrefix n2 "max:" 4 = (mx, name) ->
  mn || mx = true ->
  let w' := snd (config_cipher db (Some cipherName) (Some name0) v w) in
  globalCodecParameterTable w' = globalCodecParameterTable w
  /\ connections w' = connections w.
Proof.
  intros H1 H2 H3 Hp. unfold sqlite3mc_config_cipher.
  destruct (bool_decide (db = None) && (v >=? 0)); [split; reflexivity |].
  destruct (codecParamsFor db w) as [r |];
    [| exact (codecParamsFor_store_connections db w)].
  destruct (findCodec cipherName (loadTable r w)) as [j |];
    [| split; reflexivity].
  rewrite H1, H2, H3, (legacyHandling_prefixed _ _ _ _ _ _ _ _ Hp).
  destruct (findParam name (paramsAt j (loadTable r w))) as [[i p] |];
    [| split; reflexivity].
  destruct mn, mx; try discriminate; split; reflexivity.
Qed.

Lemma cipherParam_min_max_frame (db : nat) (r : TableRef) (j : nat)
    (nameParam1 : string) (argc : Z) (arg2 arg3 : sqlite3_value) (w : World)
    (n1 n2 name : string) (d mn mx : bool) :
  skipPrefix (sqlite3_value_text arg2) "default:" 8 = (d, n1) ->
  skipPrefix n1 "min:" 4 = (mn, n2) ->
  skipPrefix n2 "max:" 4 = (mx, name) ->
  mn || mx = true ->
  snd (cipher_param db r j nameParam1 argc arg2 arg3 w) = w.
Proof.
  intros H1 H2 H3 Hp. unfold cipherParam. rewrite H1, H2, H3.
  assert (Hn : negb mn && negb mx = false)
    by (destruct mn, mx; try discriminate; reflexivity).
  assert (Hw : legacyHandlingSql SQLCIPHER_VERSION_MAX
                 sqlite3mcConfigureSQLCipherVersion db nameParam1 name d mn mx
                 argc arg3 w = w).
  { unfold legacyHandlingSql. rewrite Hn.
    destruct (_ && _ && _); reflexivity. }
  rewrite Hw, Hn.
  destruct (findParam name (paramsAt j (loadTable r w))) as [[i q] |];
    [| reflexivity].
  destruct (paramsAt j (loadTable r w) !! i) as [p2 |]; [| reflexivity].
  destruct (strlen (m_name p2) >? 0); [| reflexivity].
  destruct (argc =? 2); reflexivity.
Qed.

(** C5 (as amended): when the query for the connection's table yields no
    pointer under the tag ["sqlite3mc_codec_params"], both entry points
    return [-1] and leave every table, the process-wide one included, as it
    was: there is no fall-back.  [sqlite3mc_config] writes nothing to the
    log, and [sqlite3mc_config_cipher], given both names, writes exactly
    the warning that the table was not found; before it stands only what
    the host reports when the query cannot be prepared, which is nothing
    when the query runs and the tag is the wrong one. *)
Theorem config_without_overlay (h : nat) (w : World) (c : sqlite3)
    (cipherName paramName : option string) (cn pn : string) (v : Z) :
  connections w !! h = Some c ->
  sqlite3_value_pointer (column_value (m_configTableQuery c))
    "sqlite3mc_codec_params" = false ->
  let queried := sqlite3mcGetCodecParams_store h w in
  (fst (sqlite3mc_config (Some h) paramName v w) = -1
   /\ worldTables (snd (sqlite3mc_config (Some h) paramName v w))
      = worldTables w
   /\ fst (config_cipher (Some h) cipherName paramName v w) = -1
   /\ worldTables (snd (config_cipher (Some h) cipherName paramName v w))
      = worldTables w)
  /\ logged (snd (sqlite3mc_config (Some h) (Some pn) v w)) = logged queried
  /\ logged (snd (config_cipher (Some h) (Some cn) (Some pn) v w))
     = (logged queried ++ [(SQLITE_WARNING, MsgTableNotFound)])%list
  /\ (prepare_rc (m_configTableQuery c) = SQLITE_OK ->
      logged queried = logged w).
Proof.
  intros Hc Hp queried.
  assert (Hnone : sqlite3mcGetCodecParams h w = None).
  { unfold sqlite3mcGetCodecParams. rewrite Hc. cbv zeta. rewrite Hp.
    destruct (prepare_rc (m_configTableQuery c) =? SQLITE_OK),
      (step_rc (m_configTableQuery c) =? SQLITE_ROW); reflexivity. }
  pose proof (codecParamsFor_store_tables (Some h) w) as Ht.
  change (codecParamsFor_store (Some h) w) with queried in Ht.
  assert (Hconfig : forall name,
             sqlite3mc_config (Some h) (Some name) v w = (-1, queried)).
  { intros name. unfold sqlite3mc_config, codecParamsFor.
    rewrite Hnone. reflexivity. }
  assert (Hcipher : forall a b,
             config_cipher (Some h) (Some a) (Some b) v w
             = (-1, sqlite3_log SQLITE_WARNING MsgTableNotFound queried)).
  { intros a b. unfold sqlite3mc_config_cipher, codecParamsFor.
    rewrite Hnone. reflexivity. }
  split; [| split; [| split]].
  - split; [| split; [| split]].
    + destruct paramName as [name |]; [rewrite Hconfig |]; reflexivity.
    + destruct paramName as [name |]; [rewrite Hconfig; exact Ht |].
      reflexivity.
    + destruct cipherName as [a |], paramName as [b |];
        [rewrite Hcipher | | |]; reflexivity.
    + destruct cipherName as [a |], paramName as [b |];
        [rewrite Hcipher; exact Ht | | |]; reflexivity.
  - rewrite Hconfig. reflexivity.
  - rewrite Hcipher. reflexivity.
  - intros Hok. unfold queried, sqlite3mcGetCodecParams_store.
    rewrite Hc. cbv zeta. rewrite Hok. reflexivity.
Qed.

(** C8: for a name that spells ["hmac_check"] and an admissible [v >= 0],
    a write through [default:], by [sqlite3mc_config] or by the
    two-argument SQL form, sets the current value to [v] and keeps the
    default. *)
Theorem hmac_check_default_write (h : nat) (w : World) (name : string)
    (v : Z) (i : nat) (p : CipherParams) :
  sqlite3mcGetCodecParams h w = Some (ConnTable h) ->
  sqlite3_stricmp name "hmac_check" = 0 ->
  findParam name (paramsAt 0 (loadTable (ConnTable h) w)) = Some (i, p) ->
  0 <= v <= 2147483647 ->
  m_minValue p <= v <= m_maxValue p ->
  let wc := snd (sqlite3mc_config (Some h) (Some ("default:" ++ name)) v w) in
  let wa := snd (config_params h
                   [SqlText ("default:" ++ name); SqlInteger v] w) in
  (m_value <$> commonCell h i wc = Some v
   /\ m_default <$> commonCell h i wc = Some (m_default p))
  /\ (m_value <$> commonCell h i wa = Some v
      /\ m_default <$> commonCell h i wa = Some (m_default p)).
Proof.
  intros Hc Hh Hf Hv Hr.
  destruct (hmac_check_hasNoPrefix name Hh) as (_ & Hmn & Hmx).
  pose proof (skipPrefix_none _ _ _ Hmn) as Smn.
  pose proof (skipPrefix_none _ _ _ Hmx) as Smx.
  destruct (findParam_Some _ _ _ _ Hf) as (Hi & _ & _).
  assert (Hw : (v >=? m_minValue p) && (v <=? m_maxValue p) = true).
  { destruct (Z.geb_spec v (m_minValue p)), (Z.leb_spec v (m_maxValue p));
      try reflexivity; lia. }
  assert (Ha : assignCommon true name v p = set_m_value v p).
  { unfold assignCommon. rewrite Hh. reflexivity. }
  assert (Hcell : commonCell h i
                    (writeParam (ConnTable h) 0 i (set_m_value v p) w)
                  = Some (set_m_value v p)).
  { unfold commonCell. rewrite loadTable_writeParam, paramsAt_storeParam.
    apply list_lookup_insert_eq. exact (lookup_lt_Some _ _ _ Hi). }
  cbv zeta. split.
  - rewrite (config_on_connection h _ _ _ _ v w _ _ _ i p Hc
               (skipPrefix_default name) Smn Smx Hf).
    assert (Hge : (v >=? 0) = true) by (destruct (Z.geb_spec v 0); [easy | lia]).
    simpl negb. rewrite Hge. simpl andb. rewrite Hw. cbn [snd].
    rewrite Ha, Hcell. split; reflexivity.
  - unfold sqlite3mcConfigParams.
    change (nth 0 [SqlText ("default:" ++ name); SqlInteger v] SqlNull)
      with (SqlText ("default:" ++ name)).
    change (nth 1 [SqlText ("default:" ++ name); SqlInteger v] SqlNull)
      with (SqlInteger v).
    change (Z.of_nat (length [SqlText ("default:" ++ name); SqlInteger v]))
      with 2.
    cbn [sqlite3_value_type sqlite3_value_text].
    change ((SQLITE_TEXT =? SQLITE_NULL)
            || (2 >? 1) && (SQLITE_INTEGER =? SQLITE_NULL)) with false.
    cbv iota.
    rewrite (skipPrefix_default name), Smn, Smx, Hf.
    change (2 =? 1) with false. change (2 =? 2) with true. cbv iota.
    unfold setCommonParam.
    destruct (Z.eqb_spec (sqlite3_stricmp name "cipher") 0) as [Hcip | _];
      [exfalso; exact (hmac_check_not_cipher name Hh Hcip) |].
    cbn [sqlite3_value_type sqlite3_value_int].
    change (SQLITE_INTEGER =? SQLITE_INTEGER) with true. cbv iota.
    assert (Hint : to_int v = v) by (unfold to_int; rewrite Z.mod_small; lia).
    rewrite Hint, Hw. cbn [snd]. rewrite Ha, Hcell. split; reflexivity.
Qed.

(** ** [sqlite3mc_codec_data] *)

Lemma hexSalt_digits (s : list Z) (k : nat) :
  (k < 16)%nat ->
  hexSalt hexdigits s !! (2 * k)%nat
  = Some (hexdigit hexdigits (Z.land (Z.shiftr (nth k s 0) 4) 15))
  /\ hexSalt hexdigits s !! (2 * k + 1)%nat
     = Some (hexdigit hexdigits (Z.land (nth k s 0) 15)).
Proof.
  intros Hk. unfold hexSalt.
  do 16 (destruct k as [| k]; [split; reflexivity |]). lia.
Qed.

Lemma hexSalt_length (s : list Z) : length (hexSalt hexdigits s) = 32%nat.
Proof. reflexivity. Qed.

(** The table entry of a nibble, when the table has its sixteen entries. *)
Lemma hexdigit_lookup (z : Z) :
  (16 <= length hexdigits)%nat ->
  Some (hexdigit hexdigits (Z.land z 15))
  = hexdigits !! Z.to_nat (Z.land z 15).
Proof.
  intros Hlen. unfold hexdigit. rewrite nth_lookup.
  assert (Hk : (Z.to_nat (Z.land z 15) < length hexdigits)%nat).
  { change 15 with (Z.ones 4). rewrite Z.land_ones by lia.
    change (2 ^ 4) with 16. pose proof (Z.mod_pos_bound z 16 ltac:(lia)).
    lia. }
  destruct (lookup_lt_is_Some_2 hexdigits _ Hk) as [x Hx].
  rewrite Hx. reflexivity.
Qed.

(** C9: with a codec attached to the schema that is encrypted, has a
    write-side cipher and a 16-byte salt, ["cipher_salt"] yields a 33-byte
    buffer whose bytes [2k] and [2k+1] are the entries of the table
    [hexdigits] at the high and at the low nibble of salt byte [k], closed
    by a zero byte, and ["raw:cipher_salt"] yields the 16 salt bytes and a
    zero byte; with no codec, no encryption or no write-side cipher the
    result is null.  The two allocations are not checked by the code and
    are taken to succeed; the table has its sixteen entries. *)
Theorem codec_data_cipher_salt (h : nat) (w : World) (conn : sqlite3)
    (zDbName : option string) :
  connections w !! h = Some conn ->
  let iDb :=
    match zDbName with
    | Some n => sqlite3FindDbName conn n
    | None => 0
    end in
  (forall codec salt,
      0 <= iDb ->
      sqlite3mcGetCodec conn iDb = Some codec ->
      sqlite3mcIsEncrypted codec = true ->
      sqlite3mcHasWriteCipher codec = true ->
      sqlite3mcGetSaltWriteCipher codec = Some salt ->
      length salt = 16%nat ->
      (16 <= length hexdigits)%nat ->
      sqlite3_malloc_ok 33 = true ->
      sqlite3_malloc_ok 17 = true ->
      (exists buf,
          codec_data (Some h) zDbName (Some "cipher_salt") w
          = CodecDataBuffer buf
          /\ length buf = 33%nat
          /\ (forall k b, salt !! k = Some b ->
                buf !! (2 * k)%nat
                = hexdigits !! Z.to_nat (Z.land (Z.shiftr b 4) 15)
                /\ buf !! (2 * k + 1)%nat
                   = hexdigits !! Z.to_nat (Z.land b 15))
          /\ buf !! 32%nat = Some 0)
      /\ codec_data (Some h) zDbName (Some "raw:cipher_salt") w
         = CodecDataBuffer (salt ++ [0])%list)
  /\ (forall name,
         sqlite3mcGetCodec conn iDb = None
         \/ (exists codec,
                sqlite3mcGetCodec conn iDb = Some codec
                /\ (sqlite3mcIsEncrypted codec = false
                    \/ sqlite3mcHasWriteCipher codec = false)) ->
         codec_data (Some h) zDbName (Some name) w = CodecDataNull).
Proof.
  intros Hc iDb. split.
  - intros codec salt HiDb Hcodec Henc Hwr Hsalt Hlen Hhex H33 H17.
    assert (Hge : (iDb >=? 0) = true)
      by (destruct (Z.geb_spec iDb 0); [reflexivity | lia]).
    split.
    + exists (hexSalt hexdigits salt ++ [0])%list.
      split; [| split; [| split]].
      * unfold sqlite3mc_codec_data. rewrite Hc.
        change (skipPrefix "cipher_salt" "raw:" 4) with (false, "cipher_salt").
        cbv iota. fold iDb. rewrite Hge, Hcodec, Henc, Hwr, Hsalt.
        change (32 + 1) with 33. simpl. rewrite H33. reflexivity.
      * rewrite length_app, hexSalt_length. reflexivity.
      * intros k b Hb.
        assert (Hk : (k < 16)%nat)
          by (rewrite <- Hlen; exact (lookup_lt_Some _ _ _ Hb)).
        destruct (hexSalt_digits salt k Hk) as [E1 E2].
        rewrite (nth_lookup_Some _ _ 0 _ Hb) in E1, E2.
        rewrite !lookup_app_l by (rewrite hexSalt_length; lia).
        rewrite E1, E2. split; apply hexdigit_lookup; exact Hhex.
      * rewrite lookup_app_r by (rewrite hexSalt_length; lia).
        rewrite hexSalt_length. reflexivity.
    + unfold sqlite3mc_codec_data. rewrite Hc.
      change (skipPrefix "raw:cipher_salt" "raw:" 4) with (true, "cipher_salt").
      cbv iota. fold iDb. rewrite Hge, Hcodec, Henc, Hwr, Hsalt.
      change (16 + 1) with 17. simpl. rewrite H17.
      rewrite take_ge by lia. reflexivity.
  - intros name Hno. unfold sqlite3mc_codec_data. rewrite Hc.
    destruct (skipPrefix name "raw:" 4) as [toRaw rest]. fold iDb.
    destruct (_ && _); [| reflexivity].
    destruct Hno as [-> | (codec & -> & [-> | Hw])]; [reflexivity .. |].
    rewrite Hw, andb_false_r. reflexivity.
Qed.

(** ** The range invariant *)

Local Abbreviation fits := (fitsDescriptors codecDescriptorTable).

Lemma cellInRange_assignCommon (d : bool) (name : string) (v : Z)
    (p : CipherParams) :
  cellInRange p -> m_minValue p <= v <= m_maxValue p ->
  cellInRange (assignCommon d name v p).
Proof.
  unfold cellInRange, assignCommon. intros [H1 H2] Hv.
  destruct (d && _); simpl; lia.
Qed.

Lemma cellInRange_assignCipher (d : bool) (v : Z) (p : CipherParams) :
  cellInRange p -> m_minValue p <= v <= m_maxValue p ->
  cellInRange (assignCipher d v p).
Proof.
  unfold cellInRange, assignCipher. intros [H1 H2] Hv.
  destruct d; simpl; lia.
Qed.

Lemma assignCommon_bounds (d : bool) (name : string) (v : Z) (p : CipherParams) :
  m_minValue (assignCommon d name v p) = m_minValue p
  /\ m_maxValue (assignCommon d name v p) = m_maxValue p.
Proof. unfold assignCommon. destruct (d && _); split; reflexivity. Qed.

Lemma assignCipher_bounds (d : bool) (v : Z) (p : CipherParams) :
  m_minValue (assignCipher d v p) = m_minValue p
  /\ m_maxValue (assignCipher d v p) = m_maxValue p.
Proof. unfold assignCipher. destruct d; split; reflexivity. Qed.

Lemma range_test (v lo hi : Z) :
  (v >=? lo) && (v <=? hi) = true -> lo <= v <= hi.
Proof.
  destruct (Z.geb_spec v lo), (Z.leb_spec v hi); simpl; try discriminate; lia.
Qed.

Lemma tableInRange_storeParam (t : list CodecParameter) (j i : nat)
    (p' : CipherParams) :
  tableInRange t -> cellInRange p' -> tableInRange (storeParam p' j i t).
Proof.
  intros Ht Hp. unfold tableInRange, storeParam.
  apply Forall_alter; [exact Ht |].
  intros c _ Hc. simpl. apply Forall_insert; assumption.
Qed.

Lemma tableInRange_cell (t : list CodecParameter) (j i : nat)
    (p : CipherParams) :
  tableInRange t -> paramsAt j t !! i = Some p -> cellInRange p.
Proof.
  unfold tableInRange, paramsAt. intros Ht Hp.
  destruct (t !! j) as [c |] eqn:Hj; [| discriminate].
  exact (Forall_lookup_1 _ _ _ _ (Forall_lookup_1 _ _ _ _ Ht Hj) Hp).
Qed.

Lemma fitsDescriptors_storeParam (t : list CodecParameter) (j i : nat)
    (p p' : CipherParams) :
  Forall fits (paramsAt 0 t) ->
  paramsAt j t !! i = Some p ->
  m_name p' = m_name p ->
  m_minValue p' = m_minValue p -> m_maxValue p' = m_maxValue p ->
  Forall fits (paramsAt 0 (storeParam p' j i t)).
Proof.
  intros Hall Hp Hn Hlo Hhi. destruct (decide (j = 0%nat)) as [-> | Hne].
  - rewrite paramsAt_storeParam. apply Forall_insert; [exact Hall |].
    pose proof (Forall_lookup_1 _ _ _ _ Hall Hp) as Hfit.
    unfold fitsDescriptors, answersToCipher in *.
    rewrite Hn, Hlo, Hhi. exact Hfit.
  - rewrite paramsAt_storeParam_ne by assumption. exact Hall.
Qed.

Lemma registryInv_cell (w : World) (r : TableRef) (j i : nat)
    (p : CipherParams) :
  registryInv codecDescriptorTable w ->
  paramsAt j (loadTable r w) !! i = Some p -> cellInRange p.
Proof.
  intros [[Hg Hcs] _] Hp. destruct r as [| h]; simpl in Hp.
  - destruct (globalCodecParameterTable w) as [t |] eqn:Ht;
      [| discriminate].
    exact (tableInRange_cell t j i p (Hg t eq_refl) Hp).
  - destruct (connections w !! h) as [c |] eqn:Hc; [| discriminate].
    exact (tableInRange_cell _ j i p (Forall_lookup_1 _ _ _ _ Hcs Hc) Hp).
Qed.

Lemma registryInv_fits (w : World) (h i : nat) (p : CipherParams) :
  registryInv codecDescriptorTable w ->
  paramsAt 0 (loadTable (ConnTable h) w) !! i = Some p -> fits p.
Proof.
  intros [_ Hfit] Hp. simpl in Hp.
  destruct (connections w !! h) as [c |] eqn:Hc; [| discriminate].
  exact (Forall_lookup_1 _ _ _ _ (Forall_lookup_1 _ _ _ _ Hfit Hc) Hp).
Qed.

Lemma registryInv_writeParam (w : World) (r : TableRef) (j i : nat)
    (p p' : CipherParams) :
  registryInv codecDescriptorTable w ->
  paramsAt j (loadTable r w) !! i = Some p ->
  cellInRange p' ->
  m_name p' = m_name p ->
  m_minValue p' = m_minValue p /\ m_maxValue p' = m_maxValue p ->
  registryInv codecDescriptorTable (writeParam r j i p' w).
Proof.
  intros [[Hg Hcs] Hfit] Hp Hin Hn [Hlo Hhi].
  destruct r as [| h]; unfold writeParam, storeTable; simpl in *.
  - repeat split; [| exact Hcs | exact Hfit].
    intros t Ht. simpl in Ht.
    destruct (globalCodecParameterTable w) as [t0 |]; [| discriminate].
    injection Ht as <-. simpl.
    exact (tableInRange_storeParam t0 j i p' (Hg t0 eq_refl) Hin).
  - destruct (connections w !! h) as [c |] eqn:Hc; [| discriminate].
    simpl in Hp. repeat split; [exact Hg | |].
    + simpl. apply Forall_alter; [exact Hcs |].
      intros c' Hc' Hin'. simpl. rewrite Hc in Hc'. injection Hc' as <-.
      exact (tableInRange_storeParam _ j i p' Hin' Hin).
    + unfold descriptorsFit. simpl. apply Forall_alter; [exact Hfit |].
      intros c' Hc' Hfit'. simpl. rewrite Hc in Hc'. injection Hc' as <-.
      exact (fitsDescriptors_storeParam _ j i p p' Hfit' Hp Hn Hlo Hhi).
Qed.

Lemma registryInv_log (w : World) (code : Z) (msg : LogMessage) :
  registryInv codecDescriptorTable w ->
  registryInv codecDescriptorTable (sqlite3_log code msg w).
Proof. intros H. exact H. Qed.

Lemma registryInv_queried (w : World) (db : option nat) :
  registryInv codecDescriptorTable w ->
  registryInv codecDescriptorTable (codecParamsFor_store db w).
Proof.
  intros [[Hg Hcs] Hfit].
  destruct (codecParamsFor_store_connections db w) as [Eg Ec].
  unfold registryInv, worldInRange, descriptorsFit. rewrite Eg, Ec.
  repeat split; assumption.
Qed.

Lemma registryInv_error (w : World) (db : option nat) (rc : Z) (msg : string) :
  registryInv codecDescriptorTable w ->
  registryInv codecDescriptorTable (sqlite3ErrorWithMsg db rc msg w).
Proof.
  intros [[Hg Hcs] Hfit]. destruct db as [h |]; [| repeat split; assumption].
  repeat split; [exact Hg | |]; simpl.
  - apply Forall_alter; [exact Hcs |]. intros c _ Hc. exact Hc.
  - unfold descriptorsFit. simpl. apply Forall_alter; [exact Hfit |].
    intros c _ Hc. exact Hc.
Qed.

Lemma config_preserves (db : option nat) (paramName : option string) (v : Z)
    (w : World) :
  registryInv codecDescriptorTable w ->
  registryInv codecDescriptorTable (snd (sqlite3mc_config db paramName v w)).
Proof.
  intros Hinv. unfold sqlite3mc_config.
  destruct paramName as [name |]; [| exact Hinv].
  destruct (bool_decide (db = None) && (v >=? 0)); [exact Hinv |].
  destruct (codecParamsFor db w) as [r |];
    [| exact (registryInv_queried w db Hinv)].
  destruct (skipPrefix name "default:" 8) as [d n1].
  destruct (skipPrefix n1 "min:" 4) as [mn n2].
  destruct (skipPrefix n2 "max:" 4) as [mx n3].
  destruct (findParam n3 (paramsAt 0 (loadTable r w))) as [[i p] |] eqn:Hf;
    [| exact Hinv].
  destruct (findParam_Some _ _ _ _ Hf) as (Hi & _ & _).
  destruct (negb mn && negb mx && (v >=? 0)) eqn:Hpre; [| exact Hinv].
  destruct ((v >=? m_minValue p) && (v <=? m_maxValue p)) eqn:Hrange.
  - rewrite <- andb_assoc, Hrange. simpl.
    apply (registryInv_writeParam w r 0 i p); try assumption.
    + apply cellInRange_assignCommon;
        [exact (registryInv_cell w r 0 i p Hinv Hi) | exact (range_test _ _ _ Hrange)].
    + apply assignCommon_name.
    + apply assignCommon_bounds.
  - rewrite <- andb_assoc, Hrange. exact Hinv.
Qed.

Section Invariant.

(** The external legacy configurator keeps the invariant. *)
Hypothesis legacy_preserves :
  forall db configDefault legacy w,
    registryInv codecDescriptorTable w ->
    registryInv codecDescriptorTable
      (sqlite3mcConfigureSQLCipherVersion db configDefault legacy w).

Lemma legacyHandling_preserves (db : option nat) (cipherName name : string)
    (d mn mx : bool) (v : Z) (w : World) :
  registryInv codecDescriptorTable w ->
  registryInv codecDescriptorTable
    (legacy_handling db cipherName name d mn mx v w).
Proof.
  intros Hinv. unfold legacyHandling.
  destruct (_ && _ && _); [| exact Hinv].
  destruct (negb mn && negb mx); [| exact Hinv].
  destruct (_ && _); [apply legacy_preserves | apply registryInv_log];
    exact Hinv.
Qed.

Lemma config_cipher_preserves (db : option nat)
    (cipherName paramName : option string) (v : Z) (w : World) :
  registryInv codecDescriptorTable w ->
  registryInv codecDescriptorTable
    (snd (config_cipher db cipherName paramName v w)).
Proof.
  intros Hinv. unfold sqlite3mc_config_cipher.
  destruct cipherName as [cn |], paramName as [pn |]; try exact Hinv.
  destruct (bool_decide (db = None) && (v >=? 0)); [exact Hinv |].
  destruct (codecParamsFor db w) as [r |];
    [| exact (registryInv_queried w db Hinv)].
  destruct (findCodec cn (loadTable r w)) as [j |]; [| exact Hinv].
  destruct (skipPrefix pn "default:" 8) as [d n1].
  destruct (skipPrefix n1 "min:" 4) as [mn n2].
  destruct (skipPrefix n2 "max:" 4) as [mx n3].
  pose proof (legacyHandling_preserves db cn n3 d mn mx v w Hinv) as Hinv1.
  set (w1 := legacy_handling db cn n3 d mn mx v w) in *.
  destruct (findParam n3 (paramsAt j (loadTable r w1))) as [[i p] |] eqn:Hf;
    [| exact Hinv1].
  destruct (findParam_Some _ _ _ _ Hf) as (Hi & _ & _).
  destruct (negb mn && negb mx); [| exact Hinv1].
  destruct (v >=? 0); [| exact Hinv1]. simpl.
  destruct ((v >=? m_minValue p) && (v <=? m_maxValue p)) eqn:Hrange;
    [| exact Hinv1].
  cbn [snd]. apply (registryInv_writeParam w1 r j i p); try assumption.
  - apply cellInRange_assignCipher;
      [exact (registryInv_cell w1 r j i p Hinv1 Hi)
      | exact (range_test _ _ _ Hrange)].
  - apply assignCipher_name.
  - apply assignCipher_bounds.
Qed.

Lemma setCommonParam_preserves (h i : nat) (p : CipherParams)
    (name : string) (d : bool) (arg2 : sqlite3_value) (w : World) :
  registryInv codecDescriptorTable w ->
  findParam name (paramsAt 0 (loadTable (ConnTable h) w)) = Some (i, p) ->
  registryInv codecDescriptorTable
    (snd (set_common_param (ConnTable h) i p name d arg2 w)).
Proof.
  intros Hinv Hf. destruct (findParam_Some _ _ _ _ Hf) as (Hi & Hname & _).
  pose proof (registryInv_cell w _ 0 i p Hinv Hi) as Hcell.
  unfold setCommonParam.
  destruct (Z.eqb_spec (sqlite3_stricmp name "cipher") 0) as [Hcip | _].
  - destruct (sqlite3_value_type arg2 =? SQLITE_TEXT); [| exact Hinv].
    destruct (findDescriptor (sqlite3_value_text arg2) codecDescriptorTable)
      as [[j dn] |] eqn:Hd; [| exact Hinv].
    cbn [snd]. apply findDescriptor_Some in Hd.
    destruct (registryInv_fits w h i p Hinv Hi) as [Hlo Hhi];
      [exists name; split; assumption |].
    apply (registryInv_writeParam w _ 0 i p); try assumption.
    + apply cellInRange_assignCipher; [exact Hcell | lia].
    + apply assignCipher_name.
    + apply assignCipher_bounds.
  - destruct (sqlite3_value_type arg2 =? SQLITE_INTEGER); [| exact Hinv].
    destruct ((sqlite3_value_int arg2 >=? m_minValue p)
              && (sqlite3_value_int arg2 <=? m_maxValue p)) eqn:Hrange;
      [| exact Hinv].
    cbn [snd]. apply (registryInv_writeParam w _ 0 i p); try assumption.
    + apply cellInRange_assignCommon;
        [exact Hcell | exact (range_test _ _ _ Hrange)].
    + apply assignCommon_name.
    + apply assignCommon_bounds.
Qed.

Lemma cipherParam_preserves (db : nat) (r : TableRef) (j : nat)
    (nameParam1 : string) (argc : Z) (arg2 arg3 : sqlite3_value) (w : World) :
  registryInv codecDescriptorTable w ->
  registryInv codecDescriptorTable
    (snd (cipher_param db r j nameParam1 argc arg2 arg3 w)).
Proof.
  intros Hinv. unfold cipherParam.
  destruct (skipPrefix (sqlite3_value_text arg2) "default:" 8) as [d n1].
  destruct (skipPrefix n1 "min:" 4) as [mn n2].
  destruct (skipPrefix n2 "max:" 4) as [mx n3].
  assert (Hinv1 : registryInv codecDescriptorTable
                    (legacyHandlingSql SQLCIPHER_VERSION_MAX
                       sqlite3mcConfigureSQLCipherVersion db nameParam1 n3
                       d mn mx argc arg3 w)).
  { unfold legacyHandlingSql.
    destruct (_ && _ && _); [| exact Hinv].
    destruct (_ && _ && _); [| exact Hinv].
    destruct (_ && _); [apply legacy_preserves |]; exact Hinv. }
  set (w1 := legacyHandlingSql _ _ db nameParam1 n3 d mn mx argc arg3 w) in *.
  destruct (findParam n3 (paramsAt j (loadTable r w))) as [[i q] |];
    [| exact Hinv1].
  destruct (paramsAt j (loadTable r w1) !! i) as [p2 |] eqn:Hi;
    [| exact Hinv1].
  destruct (strlen (m_name p2) >? 0); [| exact Hinv1].
  destruct (argc =? 2); [exact Hinv1 |].
  destruct (_ && _ && _); [| exact Hinv1].
  destruct ((sqlite3_value_int arg3 >=? m_minValue p2)
            && (sqlite3_value_int arg3 <=? m_maxValue p2)) eqn:Hrange;
    [| exact Hinv1].
  cbn [snd]. apply (registryInv_writeParam w1 r j i p2); try assumption.
  - apply cellInRange_assignCipher;
      [exact (registryInv_cell w1 r j i p2 Hinv1 Hi)
      | exact (range_test _ _ _ Hrange)].
  - apply assignCipher_name.
  - apply assignCipher_bounds.
Qed.

Lemma config_params_preserves (db : nat) (argv : list sqlite3_value)
    (w : World) :
  registryInv codecDescriptorTable w ->
  registryInv codecDescriptorTable (snd (config_params db argv w)).
Proof.
  intros Hinv. unfold sqlite3mcConfigParams.
  destruct (_ || _); [exact Hinv |].
  destruct (skipPrefix _ "default:" 8) as [d n1].
  destruct (skipPrefix n1 "min:" 4) as [mn n2].
  destruct (skipPrefix n2 "max:" 4) as [mx n3].
  destruct (findParam n3 (paramsAt 0 (loadTable (ConnTable db) w)))
    as [[i p] |] eqn:Hf.
  - destruct (_ =? 1).
    + destruct (sqlite3_stricmp n3 "cipher" =? 0); exact Hinv.
    + destruct (_ =? 2); [| exact Hinv].
      exact (setCommonParam_preserves db i p n3 d _ w Hinv Hf).
  - destruct (if negb d && negb mn && negb mx
              then findCodec n3 (loadTable (ConnTable db) w) else None)
      as [j |]; [| exact Hinv].
    destruct (_ =? 1); [exact Hinv |].
    destruct (_ =? SQLITE_TEXT); [| exact Hinv].
    apply cipherParam_preserves. exact Hinv.
Qed.

Lemma configureParamFromUri_preserves (db : option nat)
    (dbFileName : DbFileName) (cipherName : string) (configDefault : Z)
    (names : list string) (w : World) :
  registryInv codecDescriptorTable w ->
  registryInv codecDescriptorTable
    (fold_left
       (configureParamFromUri SQLCIPHER_VERSION_MAX
          sqlite3mcConfigureSQLCipherVersion sqlite3DecOrHexToI64
          db dbFileName cipherName configDefault)
       names w).
Proof.
  revert w. induction names as [| n names IH]; intros w Hinv; [exact Hinv |].
  simpl. apply IH. unfold configureParamFromUri.
  destruct (_ >=? 0); [| exact Hinv].
  apply config_cipher_preserves. exact Hinv.
Qed.

Lemma configureCipherFromUri_preserves (db : option nat) (configDefault : Z)
    (j : nat) (w : World) :
  registryInv codecDescriptorTable w ->
  registryInv codecDescriptorTable (configureCipherFromUri db configDefault j w).
Proof.
  intros Hinv. unfold configureCipherFromUri.
  destruct (negb (configDefault =? 0)); apply config_preserves; exact Hinv.
Qed.

Lemma configureHmacCheckFromUri_preserves (db : option nat) (hmacCheck : Z)
    (w : World) :
  registryInv codecDescriptorTable w ->
  registryInv codecDescriptorTable (configureHmacCheckFromUri db hmacCheck w).
Proof.
  intros Hinv. unfold configureHmacCheckFromUri.
  destruct (hmacCheck =? 0); [apply config_preserves |]; exact Hinv.
Qed.

Lemma configureLegacyFromUri_preserves (db : option nat)
    (dbFileName : DbFileName) (cipherName : string) (configDefault : Z)
    (w : World) :
  registryInv codecDescriptorTable w ->
  registryInv codecDescriptorTable
    (configureLegacyFromUri SQLCIPHER_VERSION_MAX
       sqlite3mcConfigureSQLCipherVersion sqlite3DecOrHexToI64
       db dbFileName cipherName configDefault w).
Proof.
  intros Hinv. unfold configureLegacyFromUri.
  destruct (_ =? 0); [| exact Hinv].
  destruct (_ && _); [apply legacy_preserves |]; exact Hinv.
Qed.

Lemma configure_from_uri_preserves (db : option nat)
    (zDbName : option DbFileName) (configDefault : Z) (w : World) :
  registryInv codecDescriptorTable w ->
  registryInv codecDescriptorTable
    (snd (configure_from_uri db zDbName configDefault w)).
Proof.
  intros Hinv. unfold sqlite3mcConfigureFromUri.
  destruct zDbName as [dbFileName |]; [| exact Hinv].
  destruct (sqlite3_uri_parameter dbFileName "cipher") as [cipherName |];
    [| exact Hinv].
  destruct (findCodec cipherName _) as [j' |];
    [| apply registryInv_error; exact Hinv].
  cbn [snd]. apply configureParamFromUri_preserves.
  apply configureLegacyFromUri_preserves.
  apply configureHmacCheckFromUri_preserves.
  apply configureCipherFromUri_preserves. exact Hinv.
Qed.

Lemma perform_preserves (op : Operation) (w : World) :
  registryInv codecDescriptorTable w ->
  registryInv codecDescriptorTable
    (perform SQLCIPHER_VERSION_MAX sqlite3mcConfigureSQLCipherVersion
       codecDescriptorTable sqlite3_malloc_ok sqlite3GetBoolean
       sqlite3DecOrHexToI64 w op).
Proof.
  intros Hinv. destruct op; simpl.
  - apply config_preserves; exact Hinv.
  - apply config_cipher_preserves; exact Hinv.
  - apply config_params_preserves; exact Hinv.
  - apply configure_from_uri_preserves; exact Hinv.
Qed.

(** C3 (as amended): from a store in which every cell satisfies
    [min <= current <= max] and [min <= default <= max], every sequence of
    [sqlite3mc_config], [sqlite3mc_config_cipher], SQL-function and URI
    calls leads to a store in which every cell satisfies them again,
    provided the positions of the descriptor table lie in the range of the
    common [cipher] cell of every connection (the SQL form
    [('cipher', name)] stores the position without a range test) and the
    legacy configurator keeps the invariant. *)
Theorem registry_invariant (ops : list Operation) (w : World) :
  worldInRange w ->
  descriptorsFit codecDescriptorTable w ->
  worldInRange
    (performAll SQLCIPHER_VERSION_MAX sqlite3mcConfigureSQLCipherVersion
       codecDescriptorTable sqlite3_malloc_ok sqlite3GetBoolean
       sqlite3DecOrHexToI64 ops w).
Proof.
  intros Hrange Hfit.
  assert (Hinv : registryInv codecDescriptorTable w) by (split; assumption).
  clear Hrange Hfit. revert w Hinv. unfold performAll.
  induction ops as [| op ops IH]; intros w Hinv; [exact (proj1 Hinv) |].
  simpl. apply IH. apply perform_preserves. exact Hinv.
Qed.

End Invariant.

(** ** The URI ingester and [hmac_check] *)

Lemma commonCell_commonEntry (h i : nat) (w w' : World) :
  commonEntry h w' = commonEntry h w -> commonCell h i w' = commonCell h i w.
Proof.
  unfold commonEntry, commonCell, paramsAt. intros ->. reflexivity.
Qed.

Lemma commonEntry_writeParam_other (h : nat) (r : TableRef) (j i : nat)
    (p : CipherParams) (w : World) :
  r <> ConnTable h \/ j <> 0%nat ->
  commonEntry h (writeParam r j i p w) = commonEntry h w.
Proof.
  intros Hne. unfold commonEntry.
  destruct r as [| h']; [reflexivity |].
  destruct (decide (h' = h)) as [-> | Hh].
  - destruct Hne as [Hne | Hj]; [congruence |].
    rewrite loadTable_writeParam. unfold storeParam.
    rewrite list_lookup_alter_ne by assumption. reflexivity.
  - unfold writeParam, storeTable, loadTable. simpl.
    rewrite list_lookup_alter_ne by assumption. reflexivity.
Qed.

Lemma commonEntry_name_writeParam (h i : nat) (p : CipherParams) (w : World) :
  codec_m_name <$> commonEntry h (writeParam (ConnTable h) 0 i p w)
  = codec_m_name <$> commonEntry h w.
Proof.
  unfold commonEntry. rewrite loadTable_writeParam. unfold storeParam.
  rewrite list_lookup_alter_eq.
  destruct (loadTable (ConnTable h) w !! 0%nat); reflexivity.
Qed.

Lemma findCodec_zero (name : string) (t : list CodecParameter) :
  findCodec name t = Some 0%nat ->
  exists c, t !! 0%nat = Some c /\ sqlite3_stricmp name (codec_m_name c) = 0.
Proof.
  destruct t as [| c t]; simpl; [discriminate |].
  destruct (strlen (codec_m_name c) >? 0); [| discriminate].
  destruct (Z.eqb_spec (sqlite3_stricmp name (codec_m_name c)) 0) as [E | _].
  - intros _. exists c. split; [reflexivity | exact E].
  - destruct (findCodec name t); discriminate.
Qed.

Section Ingester.

Variable h : nat.
Variable cipherName : string.

Local Abbreviation cipherIsNotCommon := (cipherNotCommon h cipherName).

(** The external legacy configurator leaves the common scope of connection
    [h] alone, in every store in which that scope does not go by the name
    of the cipher.  Only a cipher name that spells ["sqlcipher"] makes the
    ingester call the configurator, so nothing is asked of it for any
    other name. *)
Hypothesis legacy_keeps_common :
  sqlite3_stricmp cipherName "sqlcipher" = 0 ->
  forall db configDefault legacy w,
    cipherIsNotCommon w ->
    commonEntry h (sqlite3mcConfigureSQLCipherVersion db configDefault legacy w)
    = commonEntry h w.

Lemma commonEntry_queried (db : option nat) (w : World) :
  commonEntry h (codecParamsFor_store db w) = commonEntry h w.
Proof.
  unfold commonEntry, loadTable.
  rewrite (proj2 (codecParamsFor_store_connections db w)). reflexivity.
Qed.

Lemma cipherIsNotCommon_name (w w' : World) :
  codec_m_name <$> commonEntry h w' = codec_m_name <$> commonEntry h w ->
  cipherIsNotCommon w -> cipherIsNotCommon w'.
Proof.
  intros Hn Hname c Hc. rewrite Hc in Hn. simpl in Hn.
  destruct (commonEntry h w) as [c0 |] eqn:Hc0; [| discriminate].
  injection Hn as Hn. rewrite Hn. exact (Hname c0 Hc0).
Qed.

Lemma legacyHandling_commonEntry (db : option nat) (name : string)
    (d mn mx : bool) (v : Z) (w : World) :
  cipherIsNotCommon w ->
  commonEntry h (legacy_handling db cipherName name d mn mx v w)
  = commonEntry h w.
Proof.
  intros Hname. unfold legacyHandling.
  destruct (Z.eqb_spec (sqlite3_stricmp cipherName "sqlcipher") 0)
    as [Hsql | _]; [| rewrite andb_false_r; reflexivity].
  destruct (_ && _ && _); [| reflexivity].
  destruct (negb mn && negb mx); [| reflexivity].
  destruct (_ && _);
    [apply (legacy_keeps_common Hsql); exact Hname | reflexivity].
Qed.

Lemma config_cipher_commonEntry (db : option nat) (paramName : option string)
    (v : Z) (w : World) :
  cipherIsNotCommon w ->
  commonEntry h (snd (config_cipher db (Some cipherName) paramName v w))
  = commonEntry h w.
Proof.
  intros Hname. unfold sqlite3mc_config_cipher.
  destruct paramName as [pn |]; [| reflexivity].
  destruct (bool_decide (db = None) && (v >=? 0)); [reflexivity |].
  destruct (codecParamsFor db w) as [r |] eqn:Hc;
    [| exact (commonEntry_queried db w)].
  destruct (findCodec cipherName (loadTable r w)) as [j |] eqn:Hj;
    [| reflexivity].
  assert (Hother : r <> ConnTable h \/ j <> 0%nat).
  { destruct (decide (j = 0%nat)) as [-> | Hj0]; [left | right; exact Hj0].
    intros ->. apply findCodec_zero in Hj as (c & Hc0 & Hc1).
    exact (Hname c Hc0 Hc1). }
  destruct (skipPrefix pn "default:" 8) as [d n1].
  destruct (skipPrefix n1 "min:" 4) as [mn n2].
  destruct (skipPrefix n2 "max:" 4) as [mx n3].
  pose proof (legacyHandling_commonEntry db n3 d mn mx v w Hname) as Hw1.
  set (w1 := legacy_handling db cipherName n3 d mn mx v w) in *.
  destruct (findParam n3 (paramsAt j (loadTable r w1))) as [[i p] |];
    [| exact Hw1].
  destruct (negb mn && negb mx); [| exact Hw1].
  destruct (_ && _ && _); cbn [snd]; [| exact Hw1].
  rewrite commonEntry_writeParam_other by exact Hother. exact Hw1.
Qed.

Lemma configureParamFromUri_commonEntry (dbFileName : DbFileName)
    (configDefault : Z) (names : list string) (w : World) :
  cipherIsNotCommon w ->
  commonEntry h
    (fold_left
       (configureParamFromUri SQLCIPHER_VERSION_MAX
          sqlite3mcConfigureSQLCipherVersion sqlite3DecOrHexToI64
          (Some h) dbFileName cipherName configDefault)
       names w)
  = commonEntry h w.
Proof.
  revert w. induction names as [| n names IH]; intros w Hname; [reflexivity |].
  simpl.
  assert (Hstep : commonEntry h
            (configureParamFromUri SQLCIPHER_VERSION_MAX
               sqlite3mcConfigureSQLCipherVersion sqlite3DecOrHexToI64
               (Some h) dbFileName cipherName configDefault w n)
          = commonEntry h w).
  { unfold configureParamFromUri.
    destruct (_ >=? 0); [| reflexivity].
    apply config_cipher_commonEntry. exact Hname. }
  rewrite IH; [exact Hstep |].
  apply (cipherIsNotCommon_name w); [rewrite Hstep; reflexivity | exact Hname].
Qed.

Lemma cipher_hmac_check_distinct (q : CipherParams) :
  sqlite3_stricmp "cipher" (m_name q) = 0 ->
  sqlite3_stricmp "hmac_check" (m_name q) = 0 -> False.
Proof.
  destruct (m_name q) as [| c s]; [discriminate |].
  intros H1 H2. apply stricmp_head in H1. apply stricmp_head in H2.
  rewrite <- H2 in H1. discriminate.
Qed.

Lemma config_cipher_cell_keeps_hmac (name0 : string) (d : bool) (v : Z)
    (i : nat) (p : CipherParams) (w : World) :
  skipPrefix name0 "default:" 8 = (d, "cipher") ->
  sqlite3mcGetCodecParams h w = Some (ConnTable h) ->
  findParam "hmac_check" (paramsAt 0 (loadTable (ConnTable h) w))
  = Some (i, p) ->
  let w' := snd (sqlite3mc_config (Some h) (Some name0) v w) in
  sqlite3mcGetCodecParams h w' = Some (ConnTable h)
  /\ findParam "hmac_check" (paramsAt 0 (loadTable (ConnTable h) w'))
     = Some (i, p)
  /\ codec_m_name <$> commonEntry h w' = codec_m_name <$> commonEntry h w.
Proof.
  intros Hparse Hc Hf. cbv zeta.
  destruct (findParam "cipher" (paramsAt 0 (loadTable (ConnTable h) w)))
    as [[i' p'] |] eqn:Hf'.
  - rewrite (config_on_connection h name0 "cipher" "cipher" "cipher" v w
               d false false i' p' Hc Hparse eq_refl eq_refl Hf').
    destruct (_ && _ && _ && _ && _); cbn [snd];
      [| repeat split; assumption].
    destruct (findParam_Some _ _ _ _ Hf) as (Hi & Hn & _).
    destruct (findParam_Some _ _ _ _ Hf') as (Hi' & Hn' & _).
    assert (Hne : i <> i').
    { intros ->. rewrite Hi in Hi'. injection Hi' as <-.
      exact (cipher_hmac_check_distinct p Hn' Hn). }
    split; [| split].
    + rewrite getCodecParams_writeParam. exact Hc.
    + rewrite loadTable_writeParam, paramsAt_storeParam.
      apply (findParam_insert_other _ _ i i' p p'); try assumption.
      apply assignCommon_name.
    + apply commonEntry_name_writeParam.
  - rewrite (config_unresolved h name0 "cipher" "cipher" "cipher" v w
               d false false Hc Hparse eq_refl eq_refl Hf').
    repeat split; assumption.
Qed.

Lemma configureCipherFromUri_keeps_hmac (configDefault : Z) (j i : nat)
    (p : CipherParams) (w : World) :
  sqlite3mcGetCodecParams h w = Some (ConnTable h) ->
  findParam "hmac_check" (paramsAt 0 (loadTable (ConnTable h) w))
  = Some (i, p) ->
  let w' := configureCipherFromUri (Some h) configDefault j w in
  sqlite3mcGetCodecParams h w' = Some (ConnTable h)
  /\ findParam "hmac_check" (paramsAt 0 (loadTable (ConnTable h) w'))
     = Some (i, p)
  /\ codec_m_name <$> commonEntry h w' = codec_m_name <$> commonEntry h w.
Proof.
  intros Hc Hf. unfold configureCipherFromUri.
  destruct (negb (configDefault =? 0)).
  - exact (config_cipher_cell_keeps_hmac "default:cipher" true _ i p w
             eq_refl Hc Hf).
  - exact (config_cipher_cell_keeps_hmac "cipher" false _ i p w
             eq_refl Hc Hf).
Qed.

Lemma configureHmacCheckFromUri_cell (hmacCheck : Z) (i : nat)
    (p : CipherParams) (w : World) :
  sqlite3mcGetCodecParams h w = Some (ConnTable h) ->
  findParam "hmac_check" (paramsAt 0 (loadTable (ConnTable h) w))
  = Some (i, p) ->
  let w' := configureHmacCheckFromUri (Some h) hmacCheck w in
  commonCell h i w'
  = Some (if (hmacCheck =? 0) && (m_minValue p <=? 0) && (0 <=? m_maxValue p)
          then set_m_value 0 p else p)
  /\ codec_m_name <$> commonEntry h w' = codec_m_name <$> commonEntry h w.
Proof.
  intros Hc Hf. destruct (findParam_Some _ _ _ _ Hf) as (Hi & _ & _).
  unfold configureHmacCheckFromUri.
  destruct (Z.eqb_spec hmacCheck 0) as [-> | _]; [| split; [exact Hi | reflexivity]].
  rewrite (config_on_connection h "hmac_check" "hmac_check" "hmac_check"
             "hmac_check" 0 w false false false i p Hc
             eq_refl eq_refl eq_refl Hf).
  rewrite !Z.geb_leb.
  change (negb false && negb false && (0 <=? 0)) with true.
  cbn [andb].
  destruct ((m_minValue p <=? 0) && (0 <=? m_maxValue p)); cbn [snd];
    [| split; [exact Hi | reflexivity]].
  split; [| apply commonEntry_name_writeParam].
  unfold commonCell. rewrite loadTable_writeParam, paramsAt_storeParam.
  apply list_lookup_insert_eq. exact (lookup_lt_Some _ _ _ Hi).
Qed.

Lemma configureLegacyFromUri_commonEntry (uri : DbFileName)
    (configDefault : Z) (w : World) :
  cipherIsNotCommon w ->
  commonEntry h
    (configureLegacyFromUri SQLCIPHER_VERSION_MAX
       sqlite3mcConfigureSQLCipherVersion sqlite3DecOrHexToI64
       (Some h) uri cipherName configDefault w)
  = commonEntry h w.
Proof.
  intros Hname. unfold configureLegacyFromUri.
  destruct (Z.eqb_spec (sqlite3_stricmp cipherName "sqlcipher") 0)
    as [Hsql | _]; [| reflexivity].
  destruct (_ && _);
    [apply (legacy_keeps_common Hsql); exact Hname | reflexivity].
Qed.

(** C6 (as amended): when the URI names, under [cipher], a cipher of the
    process-wide table, the connection's own table is reachable and that
    cipher name is not the name of its entry 0, a false [hmac_check] sets
    the current value of the common [hmac_check] cell to 0 (if 0 lies in
    the cell's range) and keeps its other fields, and a true one leaves
    the cell as it was, whatever else the URI holds.  A URI without
    [cipher] leaves the store as it is, and one whose [cipher] names no
    cipher of the process-wide table changes no table: in both, what the
    URI says about [hmac_check] is not looked at. *)
Theorem uri_hmac_check (uri : DbFileName) (configDefault : Z) (w : World) :
  (forall (j' i : nat) (p : CipherParams),
      sqlite3_uri_parameter uri "cipher" = Some cipherName ->
      findCodec cipherName (drop 1 (default [] (globalCodecParameterTable w)))
      = Some j' ->
      sqlite3mcGetCodecParams h w = Some (ConnTable h) ->
      findParam "hmac_check" (paramsAt 0 (loadTable (ConnTable h) w))
      = Some (i, p) ->
      cipherIsNotCommon w ->
      let hmacCheck :=
        sqlite3_uri_boolean sqlite3GetBoolean uri "hmac_check" 1 in
      commonCell h i
        (snd (configure_from_uri (Some h) (Some uri) configDefault w))
      = Some (if (hmacCheck =? 0) && (m_minValue p <=? 0)
                 && (0 <=? m_maxValue p)
              then set_m_value 0 p else p))
  /\ (sqlite3_uri_parameter uri "cipher" = None ->
      configure_from_uri (Some h) (Some uri) configDefault w = (SQLITE_OK, w))
  /\ (forall t,
        sqlite3_uri_parameter uri "cipher" = Some cipherName ->
        globalCodecParameterTable w = Some t ->
        findCodec cipherName (drop 1 t) = None ->
        fst (configure_from_uri (Some h) (Some uri) configDefault w)
        = SQLITE_ERROR
        /\ worldTables
             (snd (configure_from_uri (Some h) (Some uri) configDefault w))
           = worldTables w).
Proof.
  split; [| split].
  - intros j' i p Huri Hj Hc Hf Hname hmacCheck.
    unfold sqlite3mcConfigureFromUri. rewrite Huri, Hj. cbn [snd].
    destruct (configureCipherFromUri_keeps_hmac configDefault (S j') i p w
                Hc Hf) as (Hc0 & Hf0 & Hn0).
    set (w0 := configureCipherFromUri (Some h) configDefault (S j') w) in *.
    destruct (configureHmacCheckFromUri_cell hmacCheck i p w0 Hc0 Hf0)
      as (Hcell & Hn1).
    fold hmacCheck.
    set (w1 := configureHmacCheckFromUri (Some h) hmacCheck w0) in *.
    assert (Hname1 : cipherIsNotCommon w1).
    { apply (cipherIsNotCommon_name w); [| exact Hname].
      rewrite Hn1. exact Hn0. }
    pose proof (configureLegacyFromUri_commonEntry uri configDefault w1 Hname1)
      as Hw2.
    set (w2 := configureLegacyFromUri _ _ _ (Some h) uri cipherName
                 configDefault w1) in *.
    rewrite (commonCell_commonEntry h i w1); [exact Hcell |].
    rewrite configureParamFromUri_commonEntry; [exact Hw2 |].
    apply (cipherIsNotCommon_name w1); [rewrite Hw2; reflexivity | exact Hname1].
  - intros Huri. unfold sqlite3mcConfigureFromUri. rewrite Huri. reflexivity.
  - intros t Huri Ht Hnone. unfold sqlite3mcConfigureFromUri.
    rewrite Huri, Ht. change (default [] (Some t)) with t. rewrite Hnone.
    split; [reflexivity |]. cbn [snd]. apply worldTables_error.
Qed.

End Ingester.
End Properties.

(** * The statements on the sample data *)

Lemma config_cipher_rejected_witness :
  let r := sqlite3mc_config_cipher 4 sampleLegacy (Some 0%nat) (Some "sqlcipher")
             (Some "fast_kdf_iter") 0 sampleWorld in
  fst r = 2
  /\ globalCodecParameterTable (snd r) = globalCodecParameterTable sampleWorld
  /\ connections (snd r) = connections sampleWorld
  /\ (false = false -> false = false ->
      In (SQLITE_WARNING,
          MsgValueOutOfRange 0 "fast_kdf_iter" "sqlcipher" 1 2147483647)
         (logged (snd r))).
Proof.
  apply (config_cipher_rejected 4 sampleLegacy 0 sampleWorld "sqlcipher" "fast_kdf_iter"
           "fast_kdf_iter" "fast_kdf_iter" "fast_kdf_iter" 0
           false false false 3 1
           (mkCipherParams "fast_kdf_iter" 2 2 1 2147483647)).
  - reflexivity.
  - reflexivity.
  - reflexivity.
  - reflexivity.
  - reflexivity.
  - reflexivity.
  - right. split; [left; reflexivity | reflexivity].
Defined.

Lemma sampleWorld_inRange : worldInRange sampleWorld.
Proof.
  split; [intros t [= <-] |];
    repeat (apply Forall_cons; split); try apply Forall_nil;
    unfold cellInRange; simpl; lia.
Qed.

Lemma sampleWorld_fits : descriptorsFit sampleDescriptors sampleWorld.
Proof.
  repeat (apply Forall_cons; split); try apply Forall_nil; try exact I;
    unfold fitsDescriptors; intros (name & H1 & H2); simpl in *;
    solve [ split; lia
          | exfalso; exact (hmac_check_not_cipher name H1 H2) ].
Qed.

Lemma sampleLegacy_preserves (descriptors : list string) (db : option nat)
    (configDefault legacy : Z) (w : World) :
  registryInv descriptors w ->
  registryInv descriptors (sampleLegacy db configDefault legacy w).
Proof.
  intros Hinv. unfold sampleLegacy. cbn [fold_left].
  do 3 (apply (config_cipher_preserves 4 noLegacy descriptors);
        [intros ? ? ? ? Hi; exact Hi |]).
  exact Hinv.
Qed.

Lemma sampleLegacy_keeps_common (h : nat) (db : option nat)
    (configDefault legacy : Z) (w : World) :
  cipherNotCommon h "sqlcipher" w ->
  commonEntry h (sampleLegacy db configDefault legacy w) = commonEntry h w.
Proof.
  unfold sampleLegacy.
  generalize [ ((if negb (configDefault =? 0) then "default:" else "")
                ++ "kdf_iter",
                if legacy <? 3 then 4000
                else if legacy <? 4 then 64000 else 256000);
               ((if negb (configDefault =? 0) then "default:" else "")
                ++ "hmac_use", if legacy <? 2 then 0 else 1);
               ((if negb (configDefault =? 0) then "default:" else "")
                ++ "legacy_page_size",
                if legacy <? 4 then 1024 else 4096) ] as l.
  intros l. revert w. induction l as [| nv l IH]; intros w Hname;
    [reflexivity |].
  cbn [fold_left].
  pose proof (config_cipher_commonEntry 4 noLegacy h "sqlcipher"
                (fun _ _ _ _ _ _ => eq_refl) db (Some (fst nv)) (snd nv) w
                Hname)
    as Hstep.
  rewrite IH; [exact Hstep |].
  apply (cipherIsNotCommon_name h "sqlcipher" w);
    [rewrite Hstep; reflexivity | exact Hname].
Qed.

Lemma config_global_write_refused_witness :
  0 <= 0
  /\ sqlite3mc_config None (Some "hmac_check") 0 sampleWorld = (-1, sampleWorld).
Proof.
  split; [discriminate |].
  apply (config_global_write_refused (Some "hmac_check") 0 sampleWorld).
  discriminate.
Defined.

(** C2 (as stated) fails: the process-wide table exists, ["hmac_check"]
    resolves in it to a cell with range [0..1], and the call with [v = 0]
    returns [-1] and writes nothing. *)
Lemma config_global_write_counterexample :
  globalCodecParameterTable sampleWorld = Some sampleTable
  /\ findParam "hmac_check" (paramsAt 0 sampleTable)
     = Some (1%nat, mkCipherParams "hmac_check" 1 1 0 1)
  /\ sqlite3mc_config None (Some "hmac_check") 0 sampleWorld
     = (-1, sampleWorld)
  /\ sqlite3mc_config None (Some "hmac_check") 0 sampleWorld
     <> (0, writeParam GlobalTable 0 1 (mkCipherParams "hmac_check" 0 1 0 1)
              sampleWorld).
Proof. repeat split; try reflexivity. discriminate. Qed.

Lemma config_default_write_read_witness :
  let w1 := snd (sqlite3mc_config (Some 0%nat) (Some "default:cipher") 3
                   sampleWorld) in
  fst (sqlite3mc_config (Some 0%nat) (Some "default:cipher") (-1) w1) = 3
  /\ fst (sqlite3mc_config (Some 0%nat) (Some "cipher") (-1) w1) = 3.
Proof.
  apply (config_default_write_read 0 sampleWorld "cipher" 3 0
           (mkCipherParams "cipher" 2 2 1 3)).
  - reflexivity.
  - repeat split; discriminate.
  - reflexivity.
  - discriminate.
  - discriminate.
  - split; discriminate.
Defined.

Lemma config_compound_prefix_witness :
  sqlite3mc_config (Some 0%nat) (Some "default:min:hmac_check") 0 sampleWorld
  = (1, sampleWorld)
  /\ sqlite3mc_config (Some 0%nat) (Some "min:default:hmac_check") 0 sampleWorld
     = (-1, sampleWorld).
Proof.
  apply (config_compound_prefix 0 sampleWorld "hmac_check" 0 1
           (mkCipherParams "hmac_check" 1 1 0 1)).
  - reflexivity.
  - discriminate.
  - reflexivity.
  - reflexivity.
Defined.

(** C1 is violated by the two-argument SQL form on a common parameter: it
    never looks at the [min:]/[max:] flags.  On the sample connection
    [sqlite3mc_config('min:hmac_check', 0)] answers 0 and sets the current
    value of [hmac_check] from 1 to 0. *)
Theorem config_params_min_prefix_writes :
  commonCell 0 1 sampleWorld = Some (mkCipherParams "hmac_check" 1 1 0 1)
  /\ sqlite3mcConfigParams 4 sampleLegacy sampleDescriptors (fun _ => true) 0
       [SqlText "min:hmac_check"; SqlInteger 0] sampleWorld
     = (ResultInt 0,
        writeParam (ConnTable 0) 0 1 (mkCipherParams "hmac_check" 0 1 0 1)
          sampleWorld)
  /\ commonCell 0 1
       (snd (sqlite3mcConfigParams 4 sampleLegacy sampleDescriptors
               (fun _ => true) 0
               [SqlText "min:hmac_check"; SqlInteger 0] sampleWorld))
     = Some (mkCipherParams "hmac_check" 0 1 0 1).
Proof. repeat split; reflexivity. Qed.

(** The same slip on the text path: [sqlite3mc_config('max:cipher',
    'sqlcipher')] sets the current cipher from 2 to 3. *)
Lemma config_params_max_prefix_writes_cipher :
  commonCell 0 0
    (snd (sqlite3mcConfigParams 4 sampleLegacy sampleDescriptors (fun _ => true) 0
            [SqlText "max:cipher"; SqlText "sqlcipher"] sampleWorld))
  = Some (mkCipherParams "cipher" 3 2 1 3).
Proof. reflexivity. Qed.

Lemma registry_invariant_witness :
  worldInRange
    (performAll 4 sampleLegacy sampleDescriptors (fun _ => true)
       sampleGetBoolean sampleDecToI64
       [ OpConfig (Some 0%nat) (Some "default:cipher") 3;
         OpConfigParams 0 [SqlText "cipher"; SqlText "chacha20"];
         OpConfigParams 0 [SqlText "min:hmac_check"; SqlInteger 0];
         OpConfigCipher (Some 0%nat) (Some "sqlcipher") (Some "kdf_iter") 64000;
         OpConfigureFromUri (Some 0%nat)
           (Some [("cipher", "sqlcipher"); ("hmac_check", "0");
                  ("legacy", "3"); ("kdf_iter", "64000")]) 0 ]
       sampleWorld).
Proof.
  apply (registry_invariant 4 sampleLegacy sampleDescriptors (fun _ => true)
           sampleGetBoolean sampleDecToI64).
  - exact (sampleLegacy_preserves sampleDescriptors).
  - exact sampleWorld_inRange.
  - exact sampleWorld_fits.
Defined.

(** C3 (as stated) fails when the descriptor table is longer than the
    range of the common [cipher] cell: from the sample store, whose cells
    are all in range, and with a fourth descriptor, the SQL call
    [('cipher', 'rc4')] stores 4 in the cell with range [1..3]. *)
Lemma registry_invariant_counterexample :
  let w' :=
    performAll 4 noLegacy [ "aes128cbc"; "chacha20"; "sqlcipher"; "rc4" ]
      (fun _ => true) sampleGetBoolean sampleDecToI64
      [ OpConfigParams 0 [SqlText "cipher"; SqlText "rc4"] ] sampleWorld in
  worldInRange sampleWorld
  /\ commonCell 0 0 w' = Some (mkCipherParams "cipher" 4 2 1 3)
  /\ ~ worldInRange w'.
Proof.
  cbv zeta. split; [exact sampleWorld_inRange |]. split; [reflexivity |].
  intros [_ Hconn].
  pose proof (Forall_lookup_1 _ _ 0%nat _ Hconn eq_refl) as Htable.
  pose proof (Forall_lookup_1 _ _ 0%nat _ Htable eq_refl) as Hscope.
  pose proof (Forall_lookup_1 _ _ 0%nat _ Hscope eq_refl) as [[_ Hmax] _].
  simpl in Hmax. lia.
Qed.

(** C4 (as stated) fails: ["fast_kdf_iter"] resolves for ["sqlcipher"] with
    range [1..2147483647] and current value 2; both the negative value and
    the value 0 below the range are answered with 2, not with [-1]. *)
Lemma config_cipher_rejected_counterexample :
  findParam "fast_kdf_iter" (paramsAt 3 (loadTable (ConnTable 0) sampleWorld))
  = Some (1%nat, mkCipherParams "fast_kdf_iter" 2 2 1 2147483647)
  /\ fst (sqlite3mc_config_cipher 4 sampleLegacy (Some 0%nat) (Some "sqlcipher")
            (Some "fast_kdf_iter") (-5) sampleWorld) = 2
  /\ fst (sqlite3mc_config_cipher 4 sampleLegacy (Some 0%nat) (Some "sqlcipher")
            (Some "fast_kdf_iter") 0 sampleWorld) = 2.
Proof. repeat split; reflexivity. Qed.

Lemma config_without_overlay_witness :
  (fst (sqlite3mc_config (Some 1%nat) (Some "kdf_iter") 1000 sampleWorld)
   = -1
   /\ fst (sqlite3mc_config_cipher 4 sampleLegacy (Some 1%nat)
             (Some "sqlcipher") (Some "kdf_iter") 1000 sampleWorld) = -1
   /\ worldTables
        (snd (sqlite3mc_config_cipher 4 sampleLegacy (Some 1%nat)
                (Some "sqlcipher") (Some "kdf_iter") 1000 sampleWorld))
      = worldTables sampleWorld
   /\ logged
        (snd (sqlite3mc_config_cipher 4 sampleLegacy (Some 1%nat)
                (Some "sqlcipher") (Some "kdf_iter") 1000 sampleWorld))
      = [(SQLITE_WARNING, MsgTableNotFound)])
  /\ logged
       (snd (sqlite3mc_config_cipher 4 sampleLegacy (Some 0%nat)
               (Some "sqlcipher") (Some "kdf_iter") 1000 bareWorld))
     = [(SQLITE_ERROR, MsgHost "no such function: sqlite3mc_config_table");
        (SQLITE_WARNING, MsgTableNotFound)].
Proof.
  destruct (config_without_overlay 4 sampleLegacy 1 sampleWorld foreignConn
              (Some "sqlcipher") (Some "kdf_iter") "sqlcipher" "kdf_iter"
              1000 eq_refl eq_refl) as ((F1 & T1 & F2 & T2) & L1 & L2 & L3).
  destruct (config_without_overlay 4 sampleLegacy 0 bareWorld bareConn
              (Some "sqlcipher") (Some "kdf_iter") "sqlcipher" "kdf_iter"
              1000 eq_refl eq_refl) as (_ & _ & L2' & _).
  split; [split; [exact F1 | split; [exact F2 | split; [exact T2 |]]] |].
  - rewrite L2, (L3 eq_refl). reflexivity.
  - rewrite L2'. reflexivity.
Defined.

(** C5 (as stated) fails: on the connection whose table query answers under
    another tag, the read of ["hmac_check"] returns [-1], although the
    process-wide table exists and answers 1 for the same name. *)
Lemma config_without_overlay_counterexample :
  sqlite3_value_pointer (column_value (m_configTableQuery foreignConn))
    "sqlite3mc_codec_params" = false
  /\ connections sampleWorld !! 1%nat = Some foreignConn
  /\ fst (sqlite3mc_config None (Some "hmac_check") (-1) sampleWorld) = 1
  /\ fst (sqlite3mc_config (Some 1%nat) (Some "hmac_check") (-1) sampleWorld)
     = -1.
Proof. repeat split; reflexivity. Qed.

Lemma uri_hmac_check_witness :
  commonCell 0 1
    (snd (sqlite3mcConfigureFromUri 4 sampleLegacy sampleGetBoolean sampleDecToI64
            (Some 0%nat)
            (Some [("cipher", "sqlcipher"); ("legacy", "3");
                   ("kdf_iter", "64000"); ("hmac_check", "no")])
            0 sampleWorld))
  = Some (mkCipherParams "hmac_check" 0 1 0 1)
  /\ commonCell 0 1
       (snd (sqlite3mcConfigureFromUri 4 sampleLegacy sampleGetBoolean
               sampleDecToI64 (Some 0%nat)
               (Some [("cipher", "chacha20"); ("kdf_iter", "1000");
                      ("hmac_check", "no")])
               1 sampleWorld))
     = Some (mkCipherParams "hmac_check" 0 1 0 1)
  /\ sqlite3mcConfigureFromUri 4 sampleLegacy sampleGetBoolean sampleDecToI64
       (Some 0%nat) (Some [("kdf_iter", "1000"); ("hmac_check", "no")]) 1
       sampleWorld
     = (SQLITE_OK, sampleWorld)
  /\ worldTables
       (snd (sqlite3mcConfigureFromUri 4 sampleLegacy sampleGetBoolean
               sampleDecToI64 (Some 0%nat)
               (Some [("cipher", "rc4"); ("hmac_check", "no")]) 1
               sampleWorld))
     = worldTables sampleWorld.
Proof.
  split; [| split; [| split]].
  - apply (proj1 (uri_hmac_check 4 sampleLegacy sampleGetBoolean
                    sampleDecToI64 0 "sqlcipher"
                    (fun _ => sampleLegacy_keeps_common 0)
                    [("cipher", "sqlcipher"); ("legacy", "3");
                     ("kdf_iter", "64000"); ("hmac_check", "no")]
                    0 sampleWorld)
             2%nat 1%nat (mkCipherParams "hmac_check" 1 1 0 1)).
    + reflexivity.
    + reflexivity.
    + reflexivity.
    + reflexivity.
    + intros c [= <-]. discriminate.
  - apply (proj1 (uri_hmac_check 4 sampleLegacy sampleGetBoolean
                    sampleDecToI64 0 "chacha20"
                    (fun H => ltac:(discriminate H))
                    [("cipher", "chacha20"); ("kdf_iter", "1000");
                     ("hmac_check", "no")]
                    1 sampleWorld)
             1%nat 1%nat (mkCipherParams "hmac_check" 1 1 0 1)).
    + reflexivity.
    + reflexivity.
    + reflexivity.
    + reflexivity.
    + intros c [= <-]. discriminate.
  - apply (proj1 (proj2 (uri_hmac_check 4 sampleLegacy sampleGetBoolean
                           sampleDecToI64 0 "rc4"
                           (fun H => ltac:(discriminate H))
                           [("kdf_iter", "1000"); ("hmac_check", "no")]
                           1 sampleWorld))).
    reflexivity.
  - apply (proj2 (proj2 (uri_hmac_check 4 sampleLegacy sampleGetBoolean
                           sampleDecToI64 0 "rc4"
                           (fun H => ltac:(discriminate H))
                           [("cipher", "rc4"); ("hmac_check", "no")]
                           1 sampleWorld)) sampleTable);
      reflexivity.
Defined.

(** C6 (as stated) fails: a URI with a false [hmac_check] and no [cipher]
    parameter leaves the store, and with it the [hmac_check] cell, as it
    was. *)
Lemma uri_hmac_check_counterexample :
  sqlite3_uri_boolean sampleGetBoolean [("hmac_check", "0")] "hmac_check" 1 = 0
  /\ sqlite3mcConfigureFromUri 4 sampleLegacy sampleGetBoolean sampleDecToI64
       (Some 0%nat) (Some [("hmac_check", "0")]) 0 sampleWorld
     = (SQLITE_OK, sampleWorld)
  /\ commonCell 0 1 sampleWorld = Some (mkCipherParams "hmac_check" 1 1 0 1).
Proof. repeat split; reflexivity. Qed.

Lemma hmac_check_default_write_witness :
  let wc := snd (sqlite3mc_config (Some 0%nat) (Some "default:HMAC_Check") 0
                   sampleWorld) in
  let wa := snd (sqlite3mcConfigParams 4 sampleLegacy sampleDescriptors
                   (fun _ => true) 0
                   [SqlText "default:HMAC_Check"; SqlInteger 0] sampleWorld) in
  (m_value <$> commonCell 0 1 wc = Some 0
   /\ m_default <$> commonCell 0 1 wc = Some 1)
  /\ (m_value <$> commonCell 0 1 wa = Some 0
      /\ m_default <$> commonCell 0 1 wa = Some 1).
Proof.
  apply (hmac_check_default_write 4 sampleLegacy sampleDescriptors (fun _ => true)
           0 sampleWorld "HMAC_Check" 0 1
           (mkCipherParams "hmac_check" 1 1 0 1)).
  - reflexivity.
  - reflexivity.
  - reflexivity.
  - split; discriminate.
  - split; discriminate.
Defined.

Lemma codec_data_cipher_salt_witness :
  (exists buf,
      sqlite3mc_codec_data sampleHexdigits (fun _ => true) (Some 0%nat)
        (Some "main") (Some "cipher_salt") sampleWorld = CodecDataBuffer buf
      /\ length buf = 33%nat
      /\ (forall k b, sampleSalt !! k = Some b ->
            buf !! (2 * k)%nat
            = sampleHexdigits !! Z.to_nat (Z.land (Z.shiftr b 4) 15)
            /\ buf !! (2 * k + 1)%nat
               = sampleHexdigits !! Z.to_nat (Z.land b 15))
      /\ buf !! 32%nat = Some 0)
  /\ sqlite3mc_codec_data sampleHexdigits (fun _ => true) (Some 0%nat)
       (Some "main") (Some "raw:cipher_salt") sampleWorld
     = CodecDataBuffer (sampleSalt ++ [0])%list.
Proof.
  apply (proj1 (codec_data_cipher_salt sampleHexdigits (fun _ => true) 0
                  sampleWorld sampleConn (Some "main") eq_refl)
           sampleCodec sampleSalt).
  - discriminate.
  - reflexivity.
  - reflexivity.
  - reflexivity.
  - reflexivity.
  - reflexivity.
  - apply le_n.
  - reflexivity.
  - reflexivity.
Defined.

(** The readout of the sample salt, spelled out. *)
Example codec_data_sample :
  sqlite3mc_codec_data sampleHexdigits (fun _ => true) (Some 0%nat)
    (Some "main") (Some "cipher_salt") sampleWorld
  = CodecDataBuffer
      [48; 48; 49; 49; 50; 50; 51; 51; 52; 52; 53; 53; 54; 54; 55; 55;
          56; 56; 57; 57; 65; 65; 66; 66; 67; 67; 68; 68; 69; 69; 70; 70; 0].
Proof. reflexivity. Qed.

(** * Further properties of the entry points *)

Section Extras.

Variable SQLCIPHER_VERSION_MAX : Z.
Variable sqlite3mcConfigureSQLCipherVersion :
  option nat -> Z -> Z -> World -> World.
Variable codecDescriptorTable : list string.
Variable hexdigits : list Z.
Variable sqlite3_malloc_ok : Z -> bool.
Variable sqlite3GetBoolean : string -> bool -> bool.
Variable sqlite3DecOrHexToI64 : string -> option Z.

Local Abbreviation config_cipher :=
  (sqlite3mc_config_cipher SQLCIPHER_VERSION_MAX
     sqlite3mcConfigureSQLCipherVersion).
Local Abbreviation legacy_handling :=
  (legacyHandling SQLCIPHER_VERSION_MAX sqlite3mcConfigureSQLCipherVersion).
Local Abbreviation config_params :=
  (sqlite3mcConfigParams SQLCIPHER_VERSION_MAX
     sqlite3mcConfigureSQLCipherVersion codecDescriptorTable
     sqlite3_malloc_ok).
Local Abbreviation configure_from_uri :=
  (sqlite3mcConfigureFromUri SQLCIPHER_VERSION_MAX
     sqlite3mcConfigureSQLCipherVersion sqlite3GetBoolean
     sqlite3DecOrHexToI64).
Local Abbreviation perform_all :=
  (performAll SQLCIPHER_VERSION_MAX sqlite3mcConfigureSQLCipherVersion
     codecDescriptorTable sqlite3_malloc_ok sqlite3GetBoolean
     sqlite3DecOrHexToI64).
Local Abbreviation perform_op :=
  (perform SQLCIPHER_VERSION_MAX sqlite3mcConfigureSQLCipherVersion
     codecDescriptorTable sqlite3_malloc_ok sqlite3GetBoolean
     sqlite3DecOrHexToI64).

(** ** Reads and frames *)

(** A negative [newValue] never passes the write guard of
    [sqlite3mc_config]: the store that comes back is the one that went in,
    or the one the table query left. *)
Lemma config_negative (db : option nat) (paramName : option string) (v : Z)
    (w : World) :
  v < 0 ->
  snd (sqlite3mc_config db paramName v w) = w
  \/ (codecParamsFor db w = None
      /\ snd (sqlite3mc_config db paramName v w) = codecParamsFor_store db w).
Proof.
  intros Hv.
  assert (Hge : (v >=? 0) = false)
    by (destruct (Z.geb_spec v 0); [lia | reflexivity]).
  unfold sqlite3mc_config.
  destruct paramName as [name |]; [| left; reflexivity].
  rewrite Hge, andb_false_r.
  destruct (codecParamsFor db w) as [r |];
    [left | right; split; reflexivity].
  destruct (skipPrefix name "default:" 8) as [d n1].
  destruct (skipPrefix n1 "min:" 4) as [mn n2].
  destruct (skipPrefix n2 "max:" 4) as [mx n3].
  destruct (findParam n3 (paramsAt 0 (loadTable r w))) as [[i p] |];
    [| reflexivity].
  rewrite andb_false_r. reflexivity.
Qed.

(** X1: a negative [newValue] makes both programmatic entry points reads:
    neither changes a table, whatever the handle and the names, and
    [sqlite3mc_config], when it obtains the table, writes nothing to the
    log either.  ([sqlite3mc_config_cipher] may log its warnings, and the
    host logs when the table query cannot be prepared.) *)
Theorem negative_value_reads (db : option nat)
    (cipherName paramName : option string) (v : Z) (w : World) :
  v < 0 ->
  worldTables (snd (sqlite3mc_config db paramName v w)) = worldTables w
  /\ worldTables (snd (config_cipher db cipherName paramName v w))
     = worldTables w
  /\ (codecParamsFor db w <> None ->
      logged (snd (sqlite3mc_config db paramName v w)) = logged w).
Proof.
  intros Hv.
  assert (Hge : (v >=? 0) = false)
    by (destruct (Z.geb_spec v 0); [lia | reflexivity]).
  split; [| split].
  - destruct (config_negative db paramName v w Hv) as [-> | [_ ->]];
      [reflexivity | apply codecParamsFor_store_tables].
  - unfold sqlite3mc_config_cipher.
    destruct cipherName as [cn |], paramName as [pn |]; try reflexivity.
    rewrite Hge, andb_false_r.
    destruct (codecParamsFor db w) as [r |];
      [| exact (codecParamsFor_store_tables db w)].
    destruct (findCodec cn (loadTable r w)) as [j |]; [| reflexivity].
    destruct (skipPrefix pn "default:" 8) as [d n1].
    destruct (skipPrefix n1 "min:" 4) as [mn n2].
    destruct (skipPrefix n2 "max:" 4) as [mx n3].
    destruct (legacyHandling_unreached SQLCIPHER_VERSION_MAX
                sqlite3mcConfigureSQLCipherVersion db cn n3 d mn mx v w
                (reachesLegacy_negative SQLCIPHER_VERSION_MAX cn n3 mn mx v
                   ltac:(lia))) as [l ->].
    destruct (findParam n3 _) as [[i p] |]; [| reflexivity].
    destruct (negb mn && negb mx); reflexivity.
  - intros Hsome.
    destruct (config_negative db paramName v w Hv) as [-> | [Hnone _]];
      [reflexivity | contradiction].
Qed.

(** X2: [sqlite3mc_config] on a connection changes at most the common
    scope of that connection's own table: the process-wide table, every
    other connection and every cipher scope stay as they were.  The
    function has no log call of its own: the log is as it was, or, when no
    table came back, as the table query left it. *)
Theorem config_frame (h : nat) (paramName : option string) (v : Z)
    (w : World) :
  let w' := snd (sqlite3mc_config (Some h) paramName v w) in
  globalCodecParameterTable w' = globalCodecParameterTable w
  /\ (logged w' = logged w
      \/ (sqlite3mcGetCodecParams h w = None
          /\ logged w' = logged (sqlite3mcGetCodecParams_store h w)))
  /\ (forall h', h' <> h -> connections w' !! h' = connections w !! h')
  /\ (forall k, k <> 0%nat ->
        paramsAt k (loadTable (ConnTable h) w')
        = paramsAt k (loadTable (ConnTable h) w)).
Proof.
  cbv zeta. unfold sqlite3mc_config, codecParamsFor.
  destruct paramName as [name |];
    [| split; [| split; [left |]]; repeat split; reflexivity].
  change (bool_decide (Some h = None) && (v >=? 0)) with false. cbv iota.
  destruct (sqlite3mcGetCodecParams h w) as [r |] eqn:Hc.
  2:{ cbn [snd codecParamsFor_store].
      destruct (getCodecParams_store_connections h w) as [Eg Ec].
      split; [exact Eg |]. split; [right; split; reflexivity |].
      unfold loadTable. rewrite Ec. split; reflexivity. }
  apply getCodecParams_ref in Hc as ->.
  destruct (skipPrefix name "default:" 8) as [d n1].
  destruct (skipPrefix n1 "min:" 4) as [mn n2].
  destruct (skipPrefix n2 "max:" 4) as [mx n3].
  destruct (findParam n3 (paramsAt 0 (loadTable (ConnTable h) w)))
    as [[i p] |];
    [| split; [| split; [left |]]; repeat split; reflexivity].
  destruct (_ && _ && _ && _ && _); cbn [snd];
    [| split; [| split; [left |]]; repeat split; reflexivity].
  split; [reflexivity |]. split; [left; reflexivity |]. split.
  - intros h' Hne. unfold writeParam, storeTable. simpl.
    apply list_lookup_alter_ne. congruence.
  - intros k Hk. rewrite loadTable_writeParam.
    apply paramsAt_storeParam_ne. congruence.
Qed.

(** ** The process-wide table is never written *)

Section GlobalTable.

Hypothesis legacy_keeps_global :
  forall db configDefault legacy w,
    globalCodecParameterTable
      (sqlite3mcConfigureSQLCipherVersion db configDefault legacy w)
    = globalCodecParameterTable w.

Lemma config_global (db : option nat) (paramName : option string) (v : Z)
    (w : World) :
  globalCodecParameterTable (snd (sqlite3mc_config db paramName v w))
  = globalCodecParameterTable w.
Proof.
  destruct db as [h |].
  - unfold sqlite3mc_config, codecParamsFor.
    destruct paramName as [name |]; [| reflexivity].
    change (bool_decide (Some h = None) && (v >=? 0)) with false. cbv iota.
    destruct (sqlite3mcGetCodecParams h w) as [r |] eqn:Hc;
      [| exact (proj1 (getCodecParams_store_connections h w))].
    apply getCodecParams_ref in Hc as ->.
    destruct (skipPrefix name "default:" 8) as [d n1].
    destruct (skipPrefix n1 "min:" 4) as [mn n2].
    destruct (skipPrefix n2 "max:" 4) as [mx n3].
    destruct (findParam n3 (paramsAt 0 (loadTable (ConnTable h) w)))
      as [[i p] |]; [| reflexivity].
    destruct (_ && _ && _ && _ && _); reflexivity.
  - destruct (Z.geb_spec v 0) as [Hge | Hlt].
    + unfold sqlite3mc_config. destruct paramName as [name |]; [| reflexivity].
      destruct (Z.geb_spec v 0); [reflexivity | lia].
    + destruct (config_negative None paramName v w Hlt) as [-> | [_ ->]];
        reflexivity.
Qed.

Lemma legacyHandling_global (db : option nat) (cipherName name : string)
    (d mn mx : bool) (v : Z) (w : World) :
  globalCodecParameterTable (legacy_handling db cipherName name d mn mx v w)
  = globalCodecParameterTable w.
Proof.
  unfold legacyHandling.
  destruct (_ && _ && _); [| reflexivity].
  destruct (negb mn && negb mx); [| reflexivity].
  destruct (_ && _); [apply legacy_keeps_global | reflexivity].
Qed.

Lemma codecParamsFor_global (db : option nat) (w : World) :
  codecParamsFor db w = Some GlobalTable -> db = None.
Proof.
  destruct db as [h |]; [| reflexivity].
  intros H. apply getCodecParams_ref in H. discriminate.
Qed.

Lemma config_cipher_global (db : option nat)
    (cipherName paramName : option string) (v : Z) (w : World) :
  globalCodecParameterTable (snd (config_cipher db cipherName paramName v w))
  = globalCodecParameterTable w.
Proof.
  unfold sqlite3mc_config_cipher.
  destruct cipherName as [cn |], paramName as [pn |]; try reflexivity.
  destruct (bool_decide (db = None) && (v >=? 0)) eqn:Hguard; [reflexivity |].
  destruct (codecParamsFor db w) as [r |] eqn:Hr;
    [| exact (proj1 (codecParamsFor_store_connections db w))].
  destruct (findCodec cn (loadTable r w)) as [j |]; [| reflexivity].
  destruct (skipPrefix pn "default:" 8) as [d n1].
  destruct (skipPrefix n1 "min:" 4) as [mn n2].
  destruct (skipPrefix n2 "max:" 4) as [mx n3].
  pose proof (legacyHandling_global db cn n3 d mn mx v w) as Hw1.
  set (w1 := legacy_handling db cn n3 d mn mx v w) in *.
  destruct (findParam n3 (paramsAt j (loadTable r w1))) as [[i p] |];
    [| exact Hw1].
  destruct (negb mn && negb mx); [| exact Hw1].
  destruct (v >=? 0) eqn:Hge; [| exact Hw1].
  destruct r as [| h].
  - apply codecParamsFor_global in Hr as ->. discriminate.
  - clear Hguard. cbn [andb].
    destruct ((v >=? m_minValue p) && (v <=? m_maxValue p)); exact Hw1.
Qed.

Lemma config_params_global (db : nat) (argv : list sqlite3_value) (w : World) :
  globalCodecParameterTable (snd (config_params db argv w))
  = globalCodecParameterTable w.
Proof.
  unfold sqlite3mcConfigParams.
  destruct (_ || _); [reflexivity |].
  destruct (skipPrefix _ "default:" 8) as [d n1].
  destruct (skipPrefix n1 "min:" 4) as [mn n2].
  destruct (skipPrefix n2 "max:" 4) as [mx n3].
  destruct (findParam n3 (paramsAt 0 (loadTable (ConnTable db) w)))
    as [[i p] |].
  - destruct (_ =? 1).
    + destruct (sqlite3_stricmp n3 "cipher" =? 0); reflexivity.
    + destruct (_ =? 2); [| reflexivity]. unfold setCommonParam.
      destruct (sqlite3_stricmp n3 "cipher" =? 0).
      * destruct (_ =? SQLITE_TEXT); [| reflexivity].
        destruct (findDescriptor _ _) as [[j dn] |]; reflexivity.
      * destruct (_ =? SQLITE_INTEGER); [| reflexivity].
        destruct (_ && _); reflexivity.
  - destruct (if negb d && negb mn && negb mx
              then findCodec n3 (loadTable (ConnTable db) w) else None)
      as [j |]; [| reflexivity].
    destruct (_ =? 1); [reflexivity |].
    destruct (_ =? SQLITE_TEXT); [| reflexivity].
    unfold cipherParam.
    destruct (skipPrefix _ "default:" 8) as [d2 m1].
    destruct (skipPrefix m1 "min:" 4) as [mn2 m2].
    destruct (skipPrefix m2 "max:" 4) as [mx2 m3].
    assert (Hw1 : globalCodecParameterTable
                    (legacyHandlingSql SQLCIPHER_VERSION_MAX
                       sqlite3mcConfigureSQLCipherVersion db n3 m3 d2 mn2 mx2
                       (Z.of_nat (length argv)) (nth 2 argv SqlNull) w)
                  = globalCodecParameterTable w).
    { unfold legacyHandlingSql.
      destruct (_ && _ && _); [| reflexivity].
      destruct (_ && _ && _); [| reflexivity].
      destruct (_ && _); [apply legacy_keeps_global | reflexivity]. }
    set (w1 := legacyHandlingSql _ _ db n3 m3 d2 mn2 mx2 _ _ w) in *.
    destruct (findParam m3 _) as [[i q] |]; [| exact Hw1].
    destruct (paramsAt j (loadTable (ConnTable db) w1) !! i) as [p2 |];
      [| exact Hw1].
    destruct (strlen (m_name p2) >? 0); [| exact Hw1].
    destruct (_ =? 2); [exact Hw1 |].
    destruct (_ && _ && _); [| exact Hw1].
    destruct (_ && _); exact Hw1.
Qed.

Lemma configure_from_uri_global (db : option nat)
    (zDbName : option DbFileName) (configDefault : Z) (w : World) :
  globalCodecParameterTable
    (snd (configure_from_uri db zDbName configDefault w))
  = globalCodecParameterTable w.
Proof.
  unfold sqlite3mcConfigureFromUri.
  destruct zDbName as [uri |]; [| reflexivity].
  destruct (sqlite3_uri_parameter uri "cipher") as [cn |]; [| reflexivity].
  destruct (findCodec cn _) as [j' |];
    [| destruct db; reflexivity].
  cbn [snd].
  assert (Hfold : forall names w0,
             globalCodecParameterTable
               (fold_left
                  (configureParamFromUri SQLCIPHER_VERSION_MAX
                     sqlite3mcConfigureSQLCipherVersion sqlite3DecOrHexToI64
                     db uri cn configDefault) names w0)
             = globalCodecParameterTable w0).
  { induction names as [| n names IH]; intros w0; [reflexivity |].
    simpl. rewrite IH. unfold configureParamFromUri.
    destruct (_ >=? 0); [apply config_cipher_global | reflexivity]. }
  rewrite Hfold. unfold configureLegacyFromUri.
  assert (H1 : forall w0,
             globalCodecParameterTable
               (configureHmacCheckFromUri db
                  (sqlite3_uri_boolean sqlite3GetBoolean uri "hmac_check" 1)
                  (configureCipherFromUri db configDefault (S j') w0))
             = globalCodecParameterTable w0).
  { intros w0. unfold configureHmacCheckFromUri, configureCipherFromUri.
    destruct (_ =? 0); [rewrite config_global |];
      destruct (negb _); apply config_global. }
  destruct (sqlite3_stricmp cn "sqlcipher" =? 0); [| apply H1].
  destruct (_ && _); [rewrite legacy_keeps_global |]; apply H1.
Qed.

(** X3: no sequence of calls of the four entry points writes the
    process-wide table: as long as the external legacy configurator keeps
    it, it is after the calls what it was before. *)
Theorem global_table_never_written (ops : list Operation) (w : World) :
  globalCodecParameterTable (perform_all ops w) = globalCodecParameterTable w.
Proof.
  unfold performAll. revert w.
  induction ops as [| op ops IH]; intros w; [reflexivity |].
  simpl. rewrite IH. destruct op; simpl.
  - apply config_global.
  - apply config_cipher_global.
  - apply config_params_global.
  - apply configure_from_uri_global.
Qed.

End GlobalTable.

(** ** Properties of the store that every write keeps

    The entry points change the store in four ways only: they log, they set
    an error message, they call the legacy configurator, and they replace a
    cell by one with the same name and bounds.  A property kept by these
    four is kept by every sequence of calls. *)

Section Stable.

Variable P : World -> Prop.

Hypothesis P_log : forall w code msg, P w -> P (sqlite3_log code msg w).
Hypothesis P_error :
  forall w db rc msg, P w -> P (sqlite3ErrorWithMsg db rc msg w).
Hypothesis P_legacy :
  forall db configDefault legacy w,
    P w -> P (sqlite3mcConfigureSQLCipherVersion db configDefault legacy w).
Hypothesis P_write :
  forall w r j i p p',
    P w -> paramsAt j (loadTable r w) !! i = Some p ->
    cellKey p' = cellKey p -> P (writeParam r j i p' w).

Lemma stable_hostLog (entries : list (Z * string)) (w : World) :
  P w -> P (hostLog entries w).
Proof.
  revert w. induction entries as [| e entries IH]; intros w HP; [exact HP |].
  apply IH, P_log. exact HP.
Qed.

Lemma stable_queried (db : option nat) (w : World) :
  P w -> P (codecParamsFor_store db w).
Proof.
  intros HP. destruct db as [h |]; [| exact HP].
  unfold codecParamsFor_store, sqlite3mcGetCodecParams_store.
  destruct (connections w !! h) as [c |]; [| exact HP]. cbv zeta.
  destruct (prepare_rc (m_configTableQuery c) =? SQLITE_OK);
    [exact HP | apply stable_hostLog; exact HP].
Qed.

Lemma cellKey_assignCommon (d : bool) (name : string) (v : Z)
    (p : CipherParams) :
  cellKey (assignCommon d name v p) = cellKey p.
Proof. unfold assignCommon. destruct (d && _); reflexivity. Qed.

Lemma cellKey_assignCipher (d : bool) (v : Z) (p : CipherParams) :
  cellKey (assignCipher d v p) = cellKey p.
Proof. unfold assignCipher. destruct d; reflexivity. Qed.

Lemma stable_config (db : option nat) (paramName : option string) (v : Z)
    (w : World) :
  P w -> P (snd (sqlite3mc_config db paramName v w)).
Proof.
  intros HP. unfold sqlite3mc_config.
  destruct paramName as [name |]; [| exact HP].
  destruct (bool_decide (db = None) && (v >=? 0)); [exact HP |].
  destruct (codecParamsFor db w) as [r |]; [| exact (stable_queried db w HP)].
  destruct (skipPrefix name "default:" 8) as [d n1].
  destruct (skipPrefix n1 "min:" 4) as [mn n2].
  destruct (skipPrefix n2 "max:" 4) as [mx n3].
  destruct (findParam n3 (paramsAt 0 (loadTable r w))) as [[i p] |] eqn:Hf;
    [| exact HP].
  destruct (findParam_Some _ _ _ _ Hf) as (Hi & _ & _).
  destruct (_ && _ && _ && _ && _); cbn [snd]; [| exact HP].
  exact (P_write w r 0 i p _ HP Hi (cellKey_assignCommon d n3 v p)).
Qed.

Lemma stable_legacyHandling (db : option nat) (cipherName name : string)
    (d mn mx : bool) (v : Z) (w : World) :
  P w -> P (legacy_handling db cipherName name d mn mx v w).
Proof.
  intros HP. unfold legacyHandling.
  destruct (_ && _ && _); [| exact HP].
  destruct (negb mn && negb mx); [| exact HP].
  destruct (_ && _); [apply P_legacy | apply P_log]; exact HP.
Qed.

Lemma stable_config_cipher (db : option nat)
    (cipherName paramName : option string) (v : Z) (w : World) :
  P w -> P (snd (config_cipher db cipherName paramName v w)).
Proof.
  intros HP. unfold sqlite3mc_config_cipher.
  destruct cipherName as [cn |], paramName as [pn |];
    try (apply P_log; exact HP).
  destruct (bool_decide (db = None) && (v >=? 0)); [apply P_log; exact HP |].
  destruct (codecParamsFor db w) as [r |];
    [| apply P_log, stable_queried; exact HP].
  destruct (findCodec cn (loadTable r w)) as [j |]; [| exact HP].
  destruct (skipPrefix pn "default:" 8) as [d n1].
  destruct (skipPrefix n1 "min:" 4) as [mn n2].
  destruct (skipPrefix n2 "max:" 4) as [mx n3].
  pose proof (stable_legacyHandling db cn n3 d mn mx v w HP) as HP1.
  set (w1 := legacy_handling db cn n3 d mn mx v w) in *.
  destruct (findParam n3 (paramsAt j (loadTable r w1))) as [[i p] |] eqn:Hf;
    [| exact HP1].
  destruct (findParam_Some _ _ _ _ Hf) as (Hi & _ & _).
  destruct (negb mn && negb mx); [| exact HP1].
  destruct (_ && _ && _); cbn [snd]; [| apply P_log; exact HP1].
  exact (P_write w1 r j i p _ HP1 Hi (cellKey_assignCipher d v p)).
Qed.

Lemma stable_config_params (db : nat) (argv : list sqlite3_value)
    (w : World) :
  P w -> P (snd (config_params db argv w)).
Proof.
  intros HP. unfold sqlite3mcConfigParams.
  destruct (_ || _); [exact HP |].
  destruct (skipPrefix _ "default:" 8) as [d n1].
  destruct (skipPrefix n1 "min:" 4) as [mn n2].
  destruct (skipPrefix n2 "max:" 4) as [mx n3].
  destruct (findParam n3 (paramsAt 0 (loadTable (ConnTable db) w)))
    as [[i p] |] eqn:Hf.
  - destruct (findParam_Some _ _ _ _ Hf) as (Hi & _ & _).
    destruct (_ =? 1).
    + destruct (sqlite3_stricmp n3 "cipher" =? 0); exact HP.
    + destruct (_ =? 2); [| exact HP]. unfold setCommonParam.
      destruct (sqlite3_stricmp n3 "cipher" =? 0).
      * destruct (_ =? SQLITE_TEXT); [| exact HP].
        destruct (findDescriptor _ _) as [[j dn] |]; [| exact HP].
        exact (P_write w _ 0 i p _ HP Hi (cellKey_assignCipher d _ p)).
      * destruct (_ =? SQLITE_INTEGER); [| exact HP].
        destruct (_ && _); [| exact HP].
        exact (P_write w _ 0 i p _ HP Hi (cellKey_assignCommon d n3 _ p)).
  - destruct (if negb d && negb mn && negb mx
              then findCodec n3 (loadTable (ConnTable db) w) else None)
      as [j |]; [| exact HP].
    destruct (_ =? 1); [exact HP |].
    destruct (_ =? SQLITE_TEXT); [| exact HP].
    unfold cipherParam.
    destruct (skipPrefix _ "default:" 8) as [d2 m1].
    destruct (skipPrefix m1 "min:" 4) as [mn2 m2].
    destruct (skipPrefix m2 "max:" 4) as [mx2 m3].
    assert (HP1 : P (legacyHandlingSql SQLCIPHER_VERSION_MAX
                       sqlite3mcConfigureSQLCipherVersion db n3 m3 d2 mn2 mx2
                       (Z.of_nat (length argv)) (nth 2 argv SqlNull) w)).
    { unfold legacyHandlingSql.
      destruct (_ && _ && _); [| exact HP].
      destruct (_ && _ && _); [| exact HP].
      destruct (_ && _); [apply P_legacy |]; exact HP. }
    set (w1 := legacyHandlingSql _ _ db n3 m3 d2 mn2 mx2 _ _ w) in *.
    destruct (findParam m3 _) as [[i q] |]; [| exact HP1].
    destruct (paramsAt j (loadTable (ConnTable db) w1) !! i) as [p2 |] eqn:Hi;
      [| exact HP1].
    destruct (strlen (m_name p2) >? 0); [| exact HP1].
    destruct (_ =? 2); [exact HP1 |].
    destruct (_ && _ && _); [| exact HP1].
    destruct (_ && _); [| exact HP1].
    exact (P_write w1 _ j i p2 _ HP1 Hi (cellKey_assignCipher d2 _ p2)).
Qed.

Lemma stable_configure_from_uri (db : option nat)
    (zDbName : option DbFileName) (configDefault : Z) (w : World) :
  P w -> P (snd (configure_from_uri db zDbName configDefault w)).
Proof.
  intros HP. unfold sqlite3mcConfigureFromUri.
  destruct zDbName as [uri |]; [| exact HP].
  destruct (sqlite3_uri_parameter uri "cipher") as [cn |]; [| exact HP].
  destruct (findCodec cn _) as [j' |]; [| apply P_error; exact HP].
  cbn [snd].
  assert (Hfold : forall names w0,
             P w0 ->
             P (fold_left
                  (configureParamFromUri SQLCIPHER_VERSION_MAX
                     sqlite3mcConfigureSQLCipherVersion sqlite3DecOrHexToI64
                     db uri cn configDefault) names w0)).
  { induction names as [| n names IH]; intros w0 HP0; [exact HP0 |].
    simpl. apply IH. unfold configureParamFromUri.
    destruct (_ >=? 0); [apply stable_config_cipher |]; exact HP0. }
  apply Hfold.
  assert (HP1 : P (configureHmacCheckFromUri db
                     (sqlite3_uri_boolean sqlite3GetBoolean uri "hmac_check" 1)
                     (configureCipherFromUri db configDefault (S j') w))).
  { unfold configureHmacCheckFromUri, configureCipherFromUri.
    destruct (_ =? 0); [apply stable_config |];
      destruct (negb _); apply stable_config; exact HP. }
  unfold configureLegacyFromUri.
  destruct (sqlite3_stricmp cn "sqlcipher" =? 0); [| exact HP1].
  destruct (_ && _); [apply P_legacy |]; exact HP1.
Qed.

Lemma stable_perform_all (ops : list Operation) (w : World) :
  P w -> P (perform_all ops w).
Proof.
  unfold performAll. revert w.
  induction ops as [| op ops IH]; intros w HP; [exact HP |].
  simpl. apply IH. destruct op; simpl.
  - apply stable_config; exact HP.
  - apply stable_config_cipher; exact HP.
  - apply stable_config_params; exact HP.
  - apply stable_configure_from_uri; exact HP.
Qed.

End Stable.

(** ** Names and bounds are immutable *)

Lemma tableShape_storeParam (t : list CodecParameter) (j i : nat)
    (p p' : CipherParams) :
  paramsAt j t !! i = Some p -> cellKey p' = cellKey p ->
  tableShape (storeParam p' j i t) = tableShape t.
Proof.
  unfold paramsAt, tableShape, storeParam. intros Hp Hkey.
  apply list_eq. intros k. rewrite !list_lookup_fmap.
  destruct (decide (j = k)) as [<- | Hne];
    [| rewrite list_lookup_alter_ne by assumption; reflexivity].
  rewrite list_lookup_alter_eq.
  destruct (t !! j) as [c |]; [| reflexivity]. simpl. do 2 f_equal.
  rewrite list_fmap_insert, Hkey. apply list_insert_id.
  rewrite list_lookup_fmap, Hp. reflexivity.
Qed.

Lemma worldShape_writeParam (w : World) (r : TableRef) (j i : nat)
    (p p' : CipherParams) :
  paramsAt j (loadTable r w) !! i = Some p -> cellKey p' = cellKey p ->
  worldShape (writeParam r j i p' w) = worldShape w.
Proof.
  intros Hp Hkey. unfold worldShape, writeParam, storeTable.
  destruct r as [| h]; simpl in *.
  - f_equal. destruct (globalCodecParameterTable w) as [t |]; [| reflexivity].
    simpl in *. f_equal. exact (tableShape_storeParam t j i p p' Hp Hkey).
  - f_equal. apply list_eq. intros k. rewrite !list_lookup_fmap.
    destruct (decide (h = k)) as [<- | Hne];
      [| rewrite list_lookup_alter_ne by assumption; reflexivity].
    rewrite list_lookup_alter_eq.
    destruct (connections w !! h) as [c |]; [| reflexivity]. simpl in *.
    do 2 f_equal. exact (tableShape_storeParam _ j i p p' Hp Hkey).
Qed.

Lemma worldShape_error (w : World) (db : option nat) (rc : Z) (msg : string) :
  worldShape (sqlite3ErrorWithMsg db rc msg w) = worldShape w.
Proof.
  destruct db as [h |]; [| reflexivity]. unfold worldShape. simpl. f_equal.
  apply list_eq. intros k. rewrite !list_lookup_fmap.
  destruct (decide (h = k)) as [<- | Hne];
    [| rewrite list_lookup_alter_ne by assumption; reflexivity].
  rewrite list_lookup_alter_eq.
  destruct (connections w !! h) as [c |]; reflexivity.
Qed.

(** X4: the names and the bounds of all cells, the names of all scopes and
    the answer of every connection's table query are the same after any
    sequence of calls as before it, given that the external legacy
    configurator keeps them: the entry points write [m_value] and
    [m_default] and nothing else. *)
Theorem shape_never_changes (ops : list Operation) (w : World) :
  (forall db configDefault legacy w0,
      worldShape (sqlite3mcConfigureSQLCipherVersion db configDefault legacy w0)
      = worldShape w0) ->
  worldShape (perform_all ops w) = worldShape w.
Proof.
  intros Hlegacy.
  apply (stable_perform_all (fun w' => worldShape w' = worldShape w)).
  - intros w0 code msg H0. exact H0.
  - intros w0 db rc msg H0. rewrite worldShape_error. exact H0.
  - intros db cd lg w0 H0. rewrite Hlegacy. exact H0.
  - intros w0 r j i p p' H0 Hp Hkey.
    rewrite (worldShape_writeParam w0 r j i p p' Hp Hkey). exact H0.
  - reflexivity.
Qed.

Lemma findParam_keys (name : string) (ps ps' : list CipherParams) :
  cellKey <$> ps' = cellKey <$> ps ->
  prod_map id cellKey <$> findParam name ps'
  = prod_map id cellKey <$> findParam name ps.
Proof.
  revert ps'. induction ps as [| p ps IH]; intros [| p' ps'] Hk;
    try discriminate; [reflexivity |].
  injection Hk as Hn Hlo Hhi Hrest. simpl. rewrite Hn.
  destruct (strlen (m_name p) >? 0); [| reflexivity].
  destruct (sqlite3_stricmp name (m_name p) =? 0);
    [simpl; unfold prod_map, cellKey; simpl; rewrite Hn, Hlo, Hhi;
     reflexivity |].
  specialize (IH ps' Hrest).
  destruct (findParam name ps') as [[i q] |],
    (findParam name ps) as [[i0 q0] |]; simpl in *;
    unfold prod_map in *; simpl in *; congruence.
Qed.

Lemma worldShape_connection (h : nat) (w w' : World) :
  worldShape w' = worldShape w ->
  sqlite3mcGetCodecParams h w' = sqlite3mcGetCodecParams h w
  /\ cellKey <$> paramsAt 0 (loadTable (ConnTable h) w')
     = cellKey <$> paramsAt 0 (loadTable (ConnTable h) w).
Proof.
  unfold worldShape. intros [= _ Hconn].
  apply (f_equal (fun l => l !! h)) in Hconn.
  rewrite !list_lookup_fmap in Hconn.
  unfold sqlite3mcGetCodecParams, loadTable, paramsAt.
  destruct (connections w' !! h) as [c' |], (connections w !! h) as [c |];
    try discriminate; [| split; reflexivity].
  simpl in *. injection Hconn as Hq Ht. rewrite Hq. split; [reflexivity |].
  apply (f_equal (fun l => l !! 0%nat)) in Ht. unfold tableShape in Ht.
  rewrite !list_lookup_fmap in Ht.
  destruct (m_codecParams c' !! 0%nat) as [e' |],
    (m_codecParams c !! 0%nat) as [e |]; try discriminate; [| reflexivity].
  simpl in Ht. congruence.
Qed.

(** X5: what [sqlite3mc_config] answers through a [min:] or [max:] view
    (without [default:]) on a connection is the same after any sequence of
    calls as before it. *)
Theorem bounds_views_constant (h : nat) (name0 n1 n2 name : string)
    (mn mx : bool) (v : Z) (ops : list Operation) (w : World) :
  (forall db configDefault legacy w0,
      worldShape (sqlite3mcConfigureSQLCipherVersion db configDefault legacy w0)
      = worldShape w0) ->
  skipPrefix name0 "default:" 8 = (false, n1) ->
  skipPrefix n1 "min:" 4 = (mn, n2) ->
  skipPrefix n2 "max:" 4 = (mx, name) ->
  mn || mx = true ->
  fst (sqlite3mc_config (Some h) (Some name0) v (perform_all ops w))
  = fst (sqlite3mc_config (Some h) (Some name0) v w).
Proof.
  intros Hlegacy H1 H2 H3 Hp.
  assert (Hshape : worldShape (perform_all ops w) = worldShape w).
  { apply (stable_perform_all (fun w' => worldShape w' = worldShape w)).
    - intros w0 code msg H0. exact H0.
    - intros w0 db rc msg H0. rewrite worldShape_error. exact H0.
    - intros db cd lg w0 H0. rewrite Hlegacy. exact H0.
    - intros w0 r j i p p' H0 Hq Hkey.
      rewrite (worldShape_writeParam w0 r j i p p' Hq Hkey). exact H0.
    - reflexivity. }
  destruct (worldShape_connection h w (perform_all ops w) Hshape)
    as [Hc Hk].
  set (w' := perform_all ops w) in *.
  unfold sqlite3mc_config, codecParamsFor.
  change (bool_decide (Some h = None) && (v >=? 0)) with false. cbv iota.
  rewrite Hc.
  destruct (sqlite3mcGetCodecParams h w) as [r |] eqn:Hr; [| reflexivity].
  apply getCodecParams_ref in Hr as ->. rewrite H1, H2, H3.
  pose proof (findParam_keys name _ _ Hk) as Hf.
  assert (Hn : negb mn && negb mx = false)
    by (destruct mn, mx; try discriminate; reflexivity).
  destruct (findParam name (paramsAt 0 (loadTable (ConnTable h) w')))
    as [[i' p'] |],
    (findParam name (paramsAt 0 (loadTable (ConnTable h) w))) as [[i p] |];
    try discriminate; [| reflexivity].
  rewrite Hn. simpl in *. unfold prod_map, cellKey in Hf. simpl in Hf.
  injection Hf as _ _ Hlo Hhi.
  destruct mn, mx; try discriminate; simpl; assumption.
Qed.

(** ** Names are matched without regard to case *)

Lemma stricmp_sameCase (a b t : string) :
  sameCase a b -> sqlite3_stricmp a t = sqlite3_stricmp b t.
Proof.
  revert b t. induction a as [| c a IH]; intros [| x b] t Hs;
    try contradiction; [reflexivity |].
  destruct Hs as [Hcx Hs]. destruct t as [| y t]; simpl; [congruence |].
  rewrite (IH b t Hs), Hcx.
  destruct (Ascii.eqb_spec c y) as [-> | Hcy], (Ascii.eqb_spec x y) as [-> | Hxy];
    try reflexivity.
  - rewrite Hcx, Z.sub_diag. reflexivity.
  - rewrite <- Hcx, Z.sub_diag. reflexivity.
Qed.

Lemma strnicmp_sameCase (a b t : string) (n : nat) :
  sameCase a b -> sqlite3_strnicmp a t n = sqlite3_strnicmp b t n.
Proof.
  revert a b t. induction n as [| n IH]; intros a b t Hs; [reflexivity |].
  destruct a as [| c a], b as [| x b]; try contradiction; [reflexivity |].
  destruct Hs as [Hcx Hs]. destruct t as [| y t]; simpl; [congruence |].
  rewrite Hcx, (IH a b t Hs). reflexivity.
Qed.

Lemma advance_sameCase (a b : string) (n : nat) :
  sameCase a b -> sameCase (advance a n) (advance b n).
Proof.
  revert a b. induction n as [| n IH]; intros a b Hs; [exact Hs |].
  destruct a as [| c a], b as [| x b]; try contradiction; [exact I |].
  simpl. apply IH. exact (proj2 Hs).
Qed.

Lemma skipPrefix_sameCase (a b pfx : string) (n : nat) :
  sameCase a b ->
  fst (skipPrefix a pfx n) = fst (skipPrefix b pfx n)
  /\ sameCase (snd (skipPrefix a pfx n)) (snd (skipPrefix b pfx n)).
Proof.
  intros Hs. unfold skipPrefix. rewrite (strnicmp_sameCase a b pfx n Hs).
  destruct (sqlite3_strnicmp b pfx n =? 0); simpl;
    [split; [reflexivity | apply advance_sameCase; exact Hs]
    | split; [reflexivity | exact Hs]].
Qed.

Lemma findParam_sameCase (a b : string) (ps : list CipherParams) :
  sameCase a b -> findParam a ps = findParam b ps.
Proof.
  intros Hs. induction ps as [| p ps IH]; [reflexivity |].
  simpl. rewrite IH, (stricmp_sameCase a b _ Hs). reflexivity.
Qed.

(** X6: [sqlite3mc_config] does not tell apart two parameter names that
    differ only in the case of their letters, prefixes included: it
    returns the same value and the same store for both. *)
Theorem config_ignores_case (db : option nat) (a b : string) (v : Z)
    (w : World) :
  sameCase a b ->
  sqlite3mc_config db (Some a) v w = sqlite3mc_config db (Some b) v w.
Proof.
  intros Hs. unfold sqlite3mc_config.
  destruct (bool_decide (db = None) && (v >=? 0)); [reflexivity |].
  destruct (codecParamsFor db w) as [r |]; [| reflexivity].
  destruct (skipPrefix_sameCase a b "default:" 8 Hs) as [Hd Hs1].
  destruct (skipPrefix a "default:" 8) as [d a1],
    (skipPrefix b "default:" 8) as [d' b1]. simpl in Hd, Hs1. subst d'.
  destruct (skipPrefix_sameCase a1 b1 "min:" 4 Hs1) as [Hmn Hs2].
  destruct (skipPrefix a1 "min:" 4) as [mn a2],
    (skipPrefix b1 "min:" 4) as [mn' b2]. simpl in Hmn, Hs2. subst mn'.
  destruct (skipPrefix_sameCase a2 b2 "max:" 4 Hs2) as [Hmx Hs3].
  destruct (skipPrefix a2 "max:" 4) as [mx a3],
    (skipPrefix b2 "max:" 4) as [mx' b3]. simpl in Hmx, Hs3. subst mx'.
  rewrite (findParam_sameCase a3 b3 _ Hs3).
  destruct (findParam b3 (paramsAt 0 (loadTable r w))) as [[i p] |];
    [| reflexivity].
  unfold assignCommon. rewrite (stricmp_sameCase a3 b3 "hmac_check" Hs3).
  reflexivity.
Qed.

(** ** Write, then read *)

(** X7: on a connection, a write of an admissible [v] through the plain
    name returns [v], is read back as [v], and leaves the default of the
    cell (and its name and bounds) as they were. *)
Theorem config_write_read (h : nat) (w : World) (name : string) (v : Z)
    (i : nat) (p : CipherParams) :
  sqlite3mcGetCodecParams h w = Some (ConnTable h) ->
  hasNoPrefix name ->
  findParam name (paramsAt 0 (loadTable (ConnTable h) w)) = Some (i, p) ->
  0 <= v -> m_minValue p <= v <= m_maxValue p ->
  let r := sqlite3mc_config (Some h) (Some name) v w in
  fst r = v
  /\ commonCell h i (snd r) = Some (set_m_value v p)
  /\ fst (sqlite3mc_config (Some h) (Some name) (-1) (snd r)) = v
  /\ fst (sqlite3mc_config (Some h) (Some ("default:" ++ name)) (-1) (snd r))
     = m_default p.
Proof.
  intros Hc (Hd & Hmn & Hmx) Hf Hv Hr.
  pose proof (skipPrefix_none _ _ _ Hd) as Sd.
  pose proof (skipPrefix_none _ _ _ Hmn) as Smn.
  pose proof (skipPrefix_none _ _ _ Hmx) as Smx.
  destruct (findParam_Some _ _ _ _ Hf) as (Hi & _ & _).
  cbv zeta.
  rewrite (config_on_connection h _ _ _ _ v w _ _ _ i p Hc Sd Smn Smx Hf).
  assert (Hw : negb false && negb false && (v >=? 0)
               && (v >=? m_minValue p) && (v <=? m_maxValue p) = true).
  { simpl. destruct (Z.geb_spec v 0), (Z.geb_spec v (m_minValue p)),
      (Z.leb_spec v (m_maxValue p)); try reflexivity; lia. }
  rewrite Hw. cbn [fst snd].
  change (assignCommon false name v p) with (set_m_value v p).
  set (p' := set_m_value v p).
  assert (Hf' := common_after_write h i p p' name w Hf eq_refl).
  assert (Hc' : sqlite3mcGetCodecParams h
                  (writeParam (ConnTable h) 0 i p' w) = Some (ConnTable h))
    by (rewrite getCodecParams_writeParam; exact Hc).
  split; [reflexivity |]. split.
  - unfold commonCell. rewrite loadTable_writeParam, paramsAt_storeParam.
    apply list_lookup_insert_eq. exact (lookup_lt_Some _ _ _ Hi).
  - rewrite (config_on_connection h _ _ _ _ (-1) _ _ _ _ i p' Hc' Sd Smn Smx Hf').
    rewrite (config_on_connection h _ _ _ _ (-1) _ _ _ _ i p' Hc'
               (skipPrefix_default name) Smn Smx Hf').
    split; reflexivity.
Qed.

Lemma findCodec_storeParam (name : string) (p : CipherParams) (j i : nat)
    (t : list CodecParameter) :
  findCodec name (storeParam p j i t) = findCodec name t.
Proof.
  assert (Hgen : forall f : CodecParameter -> CodecParameter,
             (forall c, codec_m_name (f c) = codec_m_name c) ->
             forall k, findCodec name (list_alter f k t) = findCodec name t).
  { intros f Hf. induction t as [| c t IH]; intros k; [reflexivity |].
    destruct k as [| k]; simpl; [rewrite Hf; reflexivity |].
    rewrite (IH k). reflexivity. }
  apply Hgen. intros c. reflexivity.
Qed.

(** The outcome of [sqlite3mc_config_cipher] on a connection when the call
    does not reach the legacy configurator. *)
Lemma config_cipher_unreached (h : nat) (cipherName name0 n1 n2 name : string)
    (v : Z) (w : World) (d mn mx : bool) (j i : nat) (p : CipherParams) :
  sqlite3mcGetCodecParams h w = Some (ConnTable h) ->
  findCodec cipherName (loadTable (ConnTable h) w) = Some j ->
  skipPrefix name0 "default:" 8 = (d, n1) ->
  skipPrefix n1 "min:" 4 = (mn, n2) ->
  skipPrefix n2 "max:" 4 = (mx, name) ->
  reachesLegacy SQLCIPHER_VERSION_MAX cipherName name mn mx v = false ->
  findParam name (paramsAt j (loadTable (ConnTable h) w)) = Some (i, p) ->
  exists l,
    let w1 := mkWorld (globalCodecParameterTable w) (connections w)
                      (logged w ++ l)%list in
    config_cipher (Some h) (Some cipherName) (Some name0) v w
    = if negb mn && negb mx then
        if (v >=? 0) && (v >=? m_minValue p) && (v <=? m_maxValue p)
        then (v, writeParam (ConnTable h) j i (assignCipher d v p) w1)
        else (viewValue d mn mx p,
              sqlite3_log SQLITE_WARNING
                (MsgValueOutOfRange v name cipherName
                   (m_minValue p) (m_maxValue p)) w1)
      else (viewValue d mn mx p, w1).
Proof.
  intros Hc Hj H1 H2 H3 Hr Hf.
  rewrite (config_cipher_on_connection SQLCIPHER_VERSION_MAX
             sqlite3mcConfigureSQLCipherVersion h cipherName name0 n1 n2 name
             v w d mn mx j Hc Hj H1 H2 H3).
  destruct (legacyHandling_unreached SQLCIPHER_VERSION_MAX
              sqlite3mcConfigureSQLCipherVersion (Some h) cipherName name
              d mn mx v w Hr) as [l ->].
  exists l. cbv zeta.
  change (loadTable (ConnTable h)
            (mkWorld (globalCodecParameterTable w) (connections w)
               (logged w ++ l)%list))
    with (loadTable (ConnTable h) w).
  rewrite Hf. reflexivity.
Qed.

(** The write branch of [sqlite3mc_config_cipher]. *)
Lemma config_cipher_write (h : nat) (w : World)
    (cipherName name : string) (d : bool) (v : Z) (j i : nat)
    (p : CipherParams) :
  sqlite3mcGetCodecParams h w = Some (ConnTable h) ->
  findCodec cipherName (loadTable (ConnTable h) w) = Some j ->
  hasNoPrefix name ->
  findParam name (paramsAt j (loadTable (ConnTable h) w)) = Some (i, p) ->
  0 <= v -> m_minValue p <= v <= m_maxValue p ->
  reachesLegacy SQLCIPHER_VERSION_MAX cipherName name false false v = false ->
  let name0 := (if d then "default:" else "") ++ name in
  let r := config_cipher (Some h) (Some cipherName) (Some name0) v w in
  fst r = v
  /\ paramsAt j (loadTable (ConnTable h) (snd r)) !! i
     = Some (assignCipher d v p).
Proof.
  intros Hc Hj (Hd & Hmn & Hmx) Hf Hv Hr Hleg.
  pose proof (skipPrefix_none _ _ _ Hd) as Sd.
  pose proof (skipPrefix_none _ _ _ Hmn) as Smn.
  pose proof (skipPrefix_none _ _ _ Hmx) as Smx.
  destruct (findParam_Some _ _ _ _ Hf) as (Hi & _ & _).
  assert (S0 : skipPrefix ((if d then "default:" else "") ++ name)
                 "default:" 8 = (d, name))
    by (destruct d; [reflexivity | exact Sd]).
  cbv zeta.
  destruct (config_cipher_unreached h cipherName _ name name name v w
              d false false j i p Hc Hj S0 Smn Smx Hleg Hf) as [l ->].
  cbv zeta.
  assert (Hw : (v >=? 0) && (v >=? m_minValue p) && (v <=? m_maxValue p)
               = true).
  { destruct (Z.geb_spec v 0), (Z.geb_spec v (m_minValue p)),
      (Z.leb_spec v (m_maxValue p)); try reflexivity; lia. }
  rewrite Hw. cbn [negb andb fst snd].
  split; [reflexivity |].
  rewrite loadTable_writeParam.
  change (loadTable (ConnTable h)
            (mkWorld (globalCodecParameterTable w) (connections w)
               (logged w ++ l)%list))
    with (loadTable (ConnTable h) w).
  rewrite paramsAt_storeParam.
  apply list_lookup_insert_eq. exact (lookup_lt_Some _ _ _ Hi).
Qed.

(** X8: on a connection, a cipher-scope write of an admissible [v] that
    does not reach the legacy configurator returns [v] and is read back as
    [v]; through [default:] it sets the default as well, for every name
    (the cipher-scope entry point has no exception for ["hmac_check"]),
    and without the prefix it keeps the default. *)
Theorem config_cipher_write_read (h : nat) (w : World)
    (cipherName name : string) (d : bool) (v : Z) (j i : nat)
    (p : CipherParams) :
  sqlite3mcGetCodecParams h w = Some (ConnTable h) ->
  findCodec cipherName (loadTable (ConnTable h) w) = Some j ->
  hasNoPrefix name ->
  findParam name (paramsAt j (loadTable (ConnTable h) w)) = Some (i, p) ->
  0 <= v -> m_minValue p <= v <= m_maxValue p ->
  reachesLegacy SQLCIPHER_VERSION_MAX cipherName name false false v = false ->
  let name0 := (if d then "default:" else "") ++ name in
  let r := config_cipher (Some h) (Some cipherName) (Some name0) v w in
  fst r = v
  /\ paramsAt j (loadTable (ConnTable h) (snd r)) !! i
     = Some (assignCipher d v p)
  /\ fst (config_cipher (Some h) (Some cipherName) (Some name) (-1) (snd r))
     = v
  /\ fst (config_cipher (Some h) (Some cipherName)
            (Some ("default:" ++ name)) (-1) (snd r))
     = (if d then v else m_default p).
Proof.
  intros Hc Hj (Hd & Hmn & Hmx) Hf Hv Hr Hleg.
  pose proof (skipPrefix_none _ _ _ Hd) as Sd.
  pose proof (skipPrefix_none _ _ _ Hmn) as Smn.
  pose proof (skipPrefix_none _ _ _ Hmx) as Smx.
  destruct (findParam_Some _ _ _ _ Hf) as (Hi & _ & _).
  assert (S0 : skipPrefix ((if d then "default:" else "") ++ name)
                 "default:" 8 = (d, name))
    by (destruct d; [reflexivity | exact Sd]).
  cbv zeta.
  destruct (config_cipher_unreached h cipherName _ name name name v w
              d false false j i p Hc Hj S0 Smn Smx Hleg Hf) as [l ->].
  cbv zeta.
  assert (Hw : (v >=? 0) && (v >=? m_minValue p) && (v <=? m_maxValue p)
               = true).
  { destruct (Z.geb_spec v 0), (Z.geb_spec v (m_minValue p)),
      (Z.leb_spec v (m_maxValue p)); try reflexivity; lia. }
  rewrite Hw. cbn [negb andb fst snd].
  set (p' := assignCipher d v p).
  set (w1 := mkWorld (globalCodecParameterTable w) (connections w)
               (logged w ++ l)%list).
  set (w2 := writeParam (ConnTable h) j i p' w1).
  assert (Ht : loadTable (ConnTable h) w2
               = storeParam p' j i (loadTable (ConnTable h) w))
    by (unfold w2; rewrite loadTable_writeParam; reflexivity).
  assert (Hc2 : sqlite3mcGetCodecParams h w2 = Some (ConnTable h))
    by (unfold w2; rewrite getCodecParams_writeParam; exact Hc).
  assert (Hj2 : findCodec cipherName (loadTable (ConnTable h) w2) = Some j)
    by (rewrite Ht, findCodec_storeParam; exact Hj).
  assert (Hf2 : findParam name (paramsAt j (loadTable (ConnTable h) w2))
                = Some (i, p')).
  { rewrite Ht, paramsAt_storeParam.
    exact (findParam_insert_same _ _ _ _ _ Hf (assignCipher_name d v p)). }
  assert (Hneg : reachesLegacy SQLCIPHER_VERSION_MAX cipherName name
                   false false (-1) = false)
    by (apply reachesLegacy_negative; lia).
  split; [reflexivity |]. split.
  - rewrite Ht, paramsAt_storeParam.
    apply list_lookup_insert_eq. exact (lookup_lt_Some _ _ _ Hi).
  - destruct (config_cipher_unreached h cipherName name name name name (-1)
                w2 false false false j i p' Hc2 Hj2 Sd Smn Smx Hneg Hf2)
      as [l1 ->].
    destruct (config_cipher_unreached h cipherName ("default:" ++ name)
                name name name (-1) w2 true false false j i p' Hc2 Hj2
                (skipPrefix_default name) Smn Smx Hneg Hf2) as [l2 ->].
    cbv zeta. cbn [negb andb].
    change ((-1 >=? 0) && (-1 >=? m_minValue p') && (-1 <=? m_maxValue p'))
      with false.
    cbv iota. cbn [fst]. unfold p', assignCipher.
    destruct d; split; reflexivity.
Qed.

(** X9: [sqlite3mc_config_cipher] looks scope names up from entry 0 of the
    table, so the common scope answers to the name of its own entry; a
    write of ["default:hmac_check"] made that way sets the default of
    [hmac_check], which [sqlite3mc_config] refuses to do. *)
Theorem config_cipher_reaches_common (h : nat) (w : World)
    (scope name : string) (v : Z) (i : nat) (p : CipherParams) :
  sqlite3mcGetCodecParams h w = Some (ConnTable h) ->
  findCodec scope (loadTable (ConnTable h) w) = Some 0%nat ->
  sqlite3_stricmp name "hmac_check" = 0 ->
  findParam name (paramsAt 0 (loadTable (ConnTable h) w)) = Some (i, p) ->
  0 <= v -> m_minValue p <= v <= m_maxValue p ->
  let r := config_cipher (Some h) (Some scope) (Some ("default:" ++ name)) v w
  in
  fst r = v
  /\ commonCell h i (snd r) = Some (set_m_value v (set_m_default v p))
  /\ commonCell h i
       (snd (sqlite3mc_config (Some h) (Some ("default:" ++ name)) v w))
     = Some (set_m_value v p).
Proof.
  intros Hc Hj Hh Hf Hv Hr.
  assert (Hleg : reachesLegacy SQLCIPHER_VERSION_MAX scope name
                   false false v = false).
  { unfold reachesLegacy.
    destruct (Z.eqb_spec (sqlite3_stricmp name "legacy") 0) as [E | _];
      [| rewrite andb_false_r; reflexivity].
    exfalso. destruct name as [| c s]; [discriminate |].
    apply stricmp_head in Hh. apply stricmp_head in E.
    rewrite Hh in E. discriminate. }
  destruct (config_cipher_write h w scope name true v 0 i p Hc Hj
              (hmac_check_hasNoPrefix name Hh) Hf Hv Hr Hleg)
    as (R1 & R2).
  cbv zeta. split; [exact R1 |]. split; [exact R2 |].
  destruct (hmac_check_hasNoPrefix name Hh) as (_ & Hmn & Hmx).
  destruct (findParam_Some _ _ _ _ Hf) as (Hi & _ & _).
  rewrite (config_on_connection h _ _ _ _ v w _ _ _ i p Hc
             (skipPrefix_default name) (skipPrefix_none _ _ _ Hmn)
             (skipPrefix_none _ _ _ Hmx) Hf).
  assert (Hw : negb false && negb false && (v >=? 0)
               && (v >=? m_minValue p) && (v <=? m_maxValue p) = true).
  { simpl. destruct (Z.geb_spec v 0), (Z.geb_spec v (m_minValue p)),
      (Z.leb_spec v (m_maxValue p)); try reflexivity; lia. }
  rewrite Hw. cbn [snd]. unfold assignCommon. rewrite Hh. cbn [Z.eqb negb andb].
  unfold commonCell. rewrite loadTable_writeParam, paramsAt_storeParam.
  apply list_lookup_insert_eq. exact (lookup_lt_Some _ _ _ Hi).
Qed.

(** ** The SQL function *)

Lemma string_length_append (a b : string) :
  String.length (a ++ b) = (String.length a + String.length b)%nat.
Proof. induction a as [| c a IH]; simpl; [reflexivity | rewrite IH; reflexivity]. Qed.

Lemma concat_length (names : list string) :
  names <> [] ->
  Z.of_nat (String.length (String.concat "," names)) + 1
  = foldr (fun n acc => strlen n + acc) 0 names + Z.of_nat (length names).
Proof.
  induction names as [| n names IH]; [congruence |]. intros _.
  destruct names as [| m names].
  - simpl. unfold strlen. lia.
  - specialize (IH ltac:(discriminate)).
    change (String.concat "," (n :: m :: names))
      with (n ++ "," ++ String.concat "," (m :: names)).
    rewrite !string_length_append.
    change (foldr (fun n0 acc => strlen n0 + acc) 0 (n :: m :: names))
      with (strlen n + foldr (fun n0 acc => strlen n0 + acc) 0 (m :: names)).
    change (length (n :: m :: names)) with (S (length (m :: names))).
    change (String.length ",") with 1%nat. unfold strlen in *.
    set (L := String.length (String.concat "," (m :: names))) in *.
    set (F := foldr _ 0 (m :: names)) in *.
    set (N := length (m :: names)) in *.
    lia.
Qed.

(** X10: the one-argument form on a cipher name asks the allocator for
    exactly the length of the comma-separated list plus one, the room its
    [strcpy]/[strcat] chain and the closing zero byte need, and answers
    with the list, or with the no-memory error when that request fails.
    The size is computed in [int]; the statement is for lists whose size
    fits one, where that arithmetic is exact. *)
Theorem listParams_allocates_exactly (cipherParamTable : list CipherParams) :
  paramNames cipherParamTable <> [] ->
  Z.of_nat (String.length (String.concat "," (paramNames cipherParamTable)))
  + 1 <= 2147483647 ->
  let s := String.concat "," (paramNames cipherParamTable) in
  listParams sqlite3_malloc_ok cipherParamTable
  = if sqlite3_malloc_ok (Z.of_nat (String.length s) + 1)
    then ResultText s else ResultErrorNomem.
Proof.
  intros Hne _. cbv zeta. unfold listParams.
  rewrite <- (concat_length _ Hne).
  destruct (paramNames cipherParamTable) as [| n names]; [congruence |].
  reflexivity.
Qed.

Lemma findDescriptor_lookup (name : string) (ds : list string) (j : nat)
    (d : string) :
  findDescriptor name ds = Some (j, d) -> ds !! j = Some d.
Proof.
  revert j. induction ds as [| a ds IH]; intros j; simpl; [discriminate |].
  destruct (strlen a >? 0); [| discriminate].
  destruct (sqlite3_stricmp name a =? 0).
  - intros [= <- <-]. reflexivity.
  - destruct (findDescriptor name ds) as [[k r] |]; simpl; [| discriminate].
    intros [= <- <-]. exact (IH k eq_refl).
Qed.

Lemma cipher_hasNoPrefix (name : string) :
  sqlite3_stricmp name "cipher" = 0 -> hasNoPrefix name.
Proof.
  destruct name as [| c rest]; [discriminate |].
  intros H1. apply stricmp_head in H1.
  repeat split; intros H2; apply strnicmp_head in H2;
    rewrite H1 in H2; discriminate.
Qed.

(** The SQL form with one text argument that names a common parameter. *)
Lemma config_params_read (h : nat) (w : World) (name0 n1 n2 name : string)
    (d mn mx : bool) (i : nat) (p : CipherParams) :
  skipPrefix name0 "default:" 8 = (d, n1) ->
  skipPrefix n1 "min:" 4 = (mn, n2) ->
  skipPrefix n2 "max:" 4 = (mx, name) ->
  findParam name (paramsAt 0 (loadTable (ConnTable h) w)) = Some (i, p) ->
  config_params h [SqlText name0] w
  = (if sqlite3_stricmp name "cipher" =? 0
     then descriptorName codecDescriptorTable (viewValue d mn mx p)
     else ResultInt (viewValue d mn mx p), w).
Proof.
  intros H1 H2 H3 Hf. unfold sqlite3mcConfigParams.
  change (nth 0 [SqlText name0] SqlNull) with (SqlText name0).
  change (Z.of_nat (length [SqlText name0])) with 1.
  cbn [sqlite3_value_type sqlite3_value_text].
  change ((SQLITE_TEXT =? SQLITE_NULL)
          || (1 >? 1) && (sqlite3_value_type (nth 1 [SqlText name0] SqlNull)
                          =? SQLITE_NULL)) with false.
  cbv iota. rewrite H1, H2, H3, Hf.
  change (1 =? 1) with true. cbv iota.
  destruct (sqlite3_stricmp name "cipher" =? 0); reflexivity.
Qed.

(** X11: a cipher chosen through the SQL form [('cipher', name)] is stored
    as the 1-based position of its descriptor, and the one-argument form
    then answers with that descriptor's name. *)
Theorem sql_cipher_set_get (h : nat) (w : World) (name nameCipher : string)
    (i j : nat) (p : CipherParams) (dname : string) :
  sqlite3_stricmp name "cipher" = 0 ->
  findParam name (paramsAt 0 (loadTable (ConnTable h) w)) = Some (i, p) ->
  findDescriptor nameCipher codecDescriptorTable = Some (j, dname) ->
  let r := config_params h [SqlText name; SqlText nameCipher] w in
  fst r = ResultText dname
  /\ commonCell h i (snd r) = Some (set_m_value (Z.of_nat j + 1) p)
  /\ fst (config_params h [SqlText name] (snd r)) = ResultText dname.
Proof.
  intros Hcip Hf Hd.
  destruct (cipher_hasNoPrefix name Hcip) as (Hdf & Hmn & Hmx).
  pose proof (skipPrefix_none _ _ _ Hdf) as Sd.
  pose proof (skipPrefix_none _ _ _ Hmn) as Smn.
  pose proof (skipPrefix_none _ _ _ Hmx) as Smx.
  destruct (findParam_Some _ _ _ _ Hf) as (Hi & _ & _).
  cbv zeta.
  assert (Hset : config_params h [SqlText name; SqlText nameCipher] w
                 = (ResultText dname,
                    writeParam (ConnTable h) 0 i
                      (set_m_value (Z.of_nat j + 1) p) w)).
  { unfold sqlite3mcConfigParams.
    change (nth 0 [SqlText name; SqlText nameCipher] SqlNull)
      with (SqlText name).
    change (nth 1 [SqlText name; SqlText nameCipher] SqlNull)
      with (SqlText nameCipher).
    change (Z.of_nat (length [SqlText name; SqlText nameCipher])) with 2.
    cbn [sqlite3_value_type sqlite3_value_text].
    change ((SQLITE_TEXT =? SQLITE_NULL)
            || (2 >? 1) && (SQLITE_TEXT =? SQLITE_NULL)) with false.
    cbv iota. rewrite Sd, Smn, Smx, Hf.
    change (2 =? 1) with false. change (2 =? 2) with true. cbv iota.
    unfold setCommonParam. rewrite Hcip.
    cbn [sqlite3_value_type sqlite3_value_text].
    change (0 =? 0) with true. change (SQLITE_TEXT =? SQLITE_TEXT) with true.
    cbv iota. rewrite Hd. reflexivity. }
  rewrite Hset. cbn [fst snd].
  set (p' := set_m_value (Z.of_nat j + 1) p).
  split; [reflexivity |]. split.
  - unfold commonCell. rewrite loadTable_writeParam, paramsAt_storeParam.
    apply list_lookup_insert_eq. exact (lookup_lt_Some _ _ _ Hi).
  - rewrite (config_params_read h _ name name name name false false false i p'
               Sd Smn Smx (common_after_write h i p p' name w Hf eq_refl)).
    rewrite Hcip. cbn [fst Z.eqb viewValue]. unfold descriptorName.
    change (m_value p') with (Z.of_nat j + 1).
    replace (Z.of_nat j + 1 - 1) with (Z.of_nat j) by lia.
    destruct (Z.ltb_spec (Z.of_nat j) 0); [lia |].
    rewrite Nat2Z.id, (findDescriptor_lookup _ _ _ _ Hd). reflexivity.
Qed.

(** X12: with a reachable table, the one-argument SQL form on a common
    parameter other than [cipher] answers with what [sqlite3mc_config]
    returns for the same name and a negative value, and writes nothing. *)
Theorem sql_read_agrees_with_config (h : nat) (w : World)
    (name0 n1 n2 name : string) (d mn mx : bool) (i : nat)
    (p : CipherParams) :
  sqlite3mcGetCodecParams h w = Some (ConnTable h) ->
  skipPrefix name0 "default:" 8 = (d, n1) ->
  skipPrefix n1 "min:" 4 = (mn, n2) ->
  skipPrefix n2 "max:" 4 = (mx, name) ->
  findParam name (paramsAt 0 (loadTable (ConnTable h) w)) = Some (i, p) ->
  sqlite3_stricmp name "cipher" <> 0 ->
  config_params h [SqlText name0] w
  = (ResultInt (fst (sqlite3mc_config (Some h) (Some name0) (-1) w)), w).
Proof.
  intros Hc H1 H2 H3 Hf Hcip.
  rewrite (config_params_read h w name0 n1 n2 name d mn mx i p H1 H2 H3 Hf).
  rewrite (config_on_connection h name0 n1 n2 name (-1) w d mn mx i p
             Hc H1 H2 H3 Hf).
  destruct (Z.eqb_spec (sqlite3_stricmp name "cipher") 0); [contradiction |].
  change (-1 >=? 0) with false. rewrite andb_false_r. reflexivity.
Qed.

(** X13: when the SQL form is called with another number of arguments
    than three and answers with null or with the no-memory error, it has
    written nothing. *)
Theorem sql_failure_writes_nothing (db : nat) (argv : list sqlite3_value)
    (w : World) :
  length argv <> 3%nat ->
  fst (config_params db argv w) = ResultNull
  \/ fst (config_params db argv w) = ResultErrorNomem ->
  snd (config_params db argv w) = w.
Proof.
  intros Hargc. unfold sqlite3mcConfigParams.
  destruct (_ || _); [reflexivity |].
  destruct (skipPrefix _ "default:" 8) as [d n1].
  destruct (skipPrefix n1 "min:" 4) as [mn n2].
  destruct (skipPrefix n2 "max:" 4) as [mx n3].
  destruct (findParam n3 (paramsAt 0 (loadTable (ConnTable db) w)))
    as [[i p] |].
  - destruct (_ =? 1).
    + destruct (sqlite3_stricmp n3 "cipher" =? 0); reflexivity.
    + destruct (_ =? 2); [| reflexivity]. unfold setCommonParam.
      destruct (sqlite3_stricmp n3 "cipher" =? 0).
      * destruct (_ =? SQLITE_TEXT); [| reflexivity].
        destruct (findDescriptor _ _) as [[j dn] |]; [| reflexivity].
        intros [H | H]; discriminate.
      * destruct (_ =? SQLITE_INTEGER); [| reflexivity].
        destruct (_ && _); [| reflexivity].
        intros [H | H]; discriminate.
  - destruct (if negb d && negb mn && negb mx
              then findCodec n3 (loadTable (ConnTable db) w) else None)
      as [j |]; [| reflexivity].
    destruct (_ =? 1); [reflexivity |].
    destruct (_ =? SQLITE_TEXT); [| reflexivity].
    unfold cipherParam.
    destruct (skipPrefix _ "default:" 8) as [d2 m1].
    destruct (skipPrefix m1 "min:" 4) as [mn2 m2].
    destruct (skipPrefix m2 "max:" 4) as [mx2 m3].
    assert (Hw1 : legacyHandlingSql SQLCIPHER_VERSION_MAX
                    sqlite3mcConfigureSQLCipherVersion db n3 m3 d2 mn2 mx2
                    (Z.of_nat (length argv)) (nth 2 argv SqlNull) w = w).
    { unfold legacyHandlingSql.
      destruct (Z.eqb_spec (Z.of_nat (length argv)) 3) as [E | _];
        [lia | reflexivity]. }
    rewrite Hw1.
    destruct (findParam m3 _) as [[i q] |]; [| reflexivity].
    destruct (paramsAt j (loadTable (ConnTable db) w) !! i) as [p2 |];
      [| reflexivity].
    destruct (strlen (m_name p2) >? 0); [| reflexivity].
    destruct (_ =? 2); [reflexivity |].
    destruct (_ && _ && _); [| reflexivity].
    destruct (_ && _); [| reflexivity].
    intros [H | H]; discriminate.
Qed.

(** ** The URI ingester *)

(** X14: a URI whose [cipher] parameter names no cipher scope of the
    process-wide table (which exists; the search skips entry 0, the common
    scope) makes the ingester return [SQLITE_ERROR], leave a message
    "unknown cipher '<name>'" on the connection, and change no table and
    no log; no other URI parameter is looked at. *)
Theorem uri_unknown_cipher (h : nat) (uri : DbFileName) (cipherName : string)
    (configDefault : Z) (w : World) (conn : sqlite3)
    (t : list CodecParameter) :
  connections w !! h = Some conn ->
  sqlite3_uri_parameter uri "cipher" = Some cipherName ->
  globalCodecParameterTable w = Some t ->
  findCodec cipherName (drop 1 t) = None ->
  let r := configure_from_uri (Some h) (Some uri) configDefault w in
  fst r = SQLITE_ERROR
  /\ worldTables (snd r) = worldTables w
  /\ logged (snd r) = logged w
  /\ m_errMsg <$> connections (snd r) !! h
     = Some (Some (SQLITE_ERROR, "unknown cipher '" ++ cipherName ++ "'")).
Proof.
  intros Hc Huri Ht Hnone. cbv zeta. unfold sqlite3mcConfigureFromUri.
  rewrite Huri, Ht.
  change (default [] (Some t)) with t. rewrite Hnone. cbn [fst snd].
  split; [reflexivity |]. split; [apply worldTables_error |].
  split; [reflexivity |].
  unfold sqlite3ErrorWithMsg. simpl.
  rewrite list_lookup_alter_eq, Hc. reflexivity.
Qed.

Section UriCipher.

Variable h : nat.
Variable cipherName : string.

Hypothesis legacy_keeps_common :
  forall db configDefault legacy w,
    cipherNotCommon h cipherName w ->
    commonEntry h (sqlite3mcConfigureSQLCipherVersion db configDefault legacy w)
    = commonEntry h w.

(** A write through one name keeps the cell another name resolves to, when
    no cell answers to both. *)
Lemma config_keeps_other_cell (nameA name0 nameB : string) (d : bool) (v : Z)
    (i : nat) (p : CipherParams) (w : World) :
  (forall q, sqlite3_stricmp nameB (m_name q) = 0 ->
             sqlite3_stricmp nameA (m_name q) = 0 -> False) ->
  skipPrefix name0 "default:" 8 = (d, nameB) ->
  skipPrefix nameB "min:" 4 = (false, nameB) ->
  skipPrefix nameB "max:" 4 = (false, nameB) ->
  sqlite3mcGetCodecParams h w = Some (ConnTable h) ->
  findParam nameA (paramsAt 0 (loadTable (ConnTable h) w)) = Some (i, p) ->
  let w' := snd (sqlite3mc_config (Some h) (Some name0) v w) in
  sqlite3mcGetCodecParams h w' = Some (ConnTable h)
  /\ findParam nameA (paramsAt 0 (loadTable (ConnTable h) w')) = Some (i, p)
  /\ codec_m_name <$> commonEntry h w' = codec_m_name <$> commonEntry h w.
Proof.
  intros Hdis H1 H2 H3 Hc Hf. cbv zeta.
  destruct (findParam nameB (paramsAt 0 (loadTable (ConnTable h) w)))
    as [[i' p'] |] eqn:Hf'.
  - rewrite (config_on_connection h name0 nameB nameB nameB v w
               d false false i' p' Hc H1 H2 H3 Hf').
    destruct (_ && _ && _ && _ && _); cbn [snd];
      [| repeat split; assumption].
    destruct (findParam_Some _ _ _ _ Hf) as (Hi & Hn & _).
    destruct (findParam_Some _ _ _ _ Hf') as (Hi' & Hn' & _).
    assert (Hne : i <> i').
    { intros ->. rewrite Hi in Hi'. injection Hi' as <-.
      exact (Hdis p Hn' Hn). }
    split; [| split].
    + rewrite getCodecParams_writeParam. exact Hc.
    + rewrite loadTable_writeParam, paramsAt_storeParam.
      apply (findParam_insert_other _ _ i i' p p'); try assumption.
      apply assignCommon_name.
    + apply commonEntry_name_writeParam.
  - rewrite (config_unresolved h name0 nameB nameB nameB v w
               d false false Hc H1 H2 H3 Hf').
    repeat split; assumption.
Qed.

(** X15: when the URI names, under [cipher], the cipher scope at position
    [j >= 1] of the process-wide table and [j] lies in the range of the
    connection's common [cipher] cell, the ingester stores [j] as the
    current cipher, and as its default too when [configDefault] is set;
    no later step of the ingester changes that cell. *)
Theorem uri_selects_cipher (uri : DbFileName) (configDefault : Z) (w : World)
    (j' i : nat) (p : CipherParams) :
  sqlite3_uri_parameter uri "cipher" = Some cipherName ->
  findCodec cipherName (drop 1 (default [] (globalCodecParameterTable w)))
  = Some j' ->
  sqlite3mcGetCodecParams h w = Some (ConnTable h) ->
  findParam "cipher" (paramsAt 0 (loadTable (ConnTable h) w)) = Some (i, p) ->
  m_minValue p <= Z.of_nat (S j') <= m_maxValue p ->
  cipherNotCommon h cipherName w ->
  let j := Z.of_nat (S j') in
  commonCell h i
    (snd (configure_from_uri (Some h) (Some uri) configDefault w))
  = Some (if negb (configDefault =? 0)
          then set_m_value j (set_m_default j p) else set_m_value j p).
Proof.
  intros Huri Hj Hc Hf Hr Hname. cbv zeta.
  unfold sqlite3mcConfigureFromUri. rewrite Huri, Hj. cbn [snd].
  destruct (findParam_Some _ _ _ _ Hf) as (Hi & _ & _).
  set (j := Z.of_nat (S j')) in *.
  set (p1 := if negb (configDefault =? 0)
             then set_m_value j (set_m_default j p) else set_m_value j p).
  assert (Hw : negb false && negb false && (j >=? 0)
               && (j >=? m_minValue p) && (j <=? m_maxValue p) = true).
  { simpl. destruct (Z.geb_spec j 0), (Z.geb_spec j (m_minValue p)),
      (Z.leb_spec j (m_maxValue p)); try reflexivity; lia. }
  assert (H0 : configureCipherFromUri (Some h) configDefault (S j') w
               = writeParam (ConnTable h) 0 i p1 w).
  { unfold configureCipherFromUri, p1. fold j.
    destruct (negb (configDefault =? 0)).
    - rewrite (config_on_connection h "default:cipher" "cipher" "cipher"
                 "cipher" j w true false false i p Hc
                 eq_refl eq_refl eq_refl Hf), Hw. reflexivity.
    - rewrite (config_on_connection h "cipher" "cipher" "cipher"
                 "cipher" j w false false false i p Hc
                 eq_refl eq_refl eq_refl Hf), Hw. reflexivity. }
  rewrite H0. set (w0 := writeParam (ConnTable h) 0 i p1 w).
  assert (Hn1 : m_name p1 = m_name p)
    by (unfold p1; destruct (negb _); reflexivity).
  assert (Hc0 : sqlite3mcGetCodecParams h w0 = Some (ConnTable h))
    by (unfold w0; rewrite getCodecParams_writeParam; exact Hc).
  assert (Hf0 : findParam "cipher" (paramsAt 0 (loadTable (ConnTable h) w0))
                = Some (i, p1))
    by exact (common_after_write h i p p1 "cipher" w Hf Hn1).
  assert (Hname0 : cipherNotCommon h cipherName w0).
  { apply (cipherIsNotCommon_name h cipherName w); [| exact Hname].
    apply commonEntry_name_writeParam. }
  set (hm := sqlite3_uri_boolean sqlite3GetBoolean uri "hmac_check" 1).
  assert (H1 : sqlite3mcGetCodecParams h
                 (configureHmacCheckFromUri (Some h) hm w0)
               = Some (ConnTable h)
               /\ findParam "cipher"
                    (paramsAt 0 (loadTable (ConnTable h)
                       (configureHmacCheckFromUri (Some h) hm w0)))
                  = Some (i, p1)
               /\ codec_m_name
                    <$> commonEntry h (configureHmacCheckFromUri (Some h) hm w0)
                  = codec_m_name <$> commonEntry h w0).
  { unfold configureHmacCheckFromUri.
    destruct (hm =? 0); [| repeat split; assumption].
    apply (config_keeps_other_cell "cipher" "hmac_check" "hmac_check" false
             hm i p1 w0); try reflexivity; try assumption.
    intros q Hq1 Hq2. exact (cipher_hmac_check_distinct q Hq2 Hq1). }
  destruct H1 as (_ & Hf1 & Hn).
  set (w1 := configureHmacCheckFromUri (Some h) hm w0) in *.
  assert (Hname1 : cipherNotCommon h cipherName w1)
    by exact (cipherIsNotCommon_name h cipherName w0 w1 Hn Hname0).
  pose proof (configureLegacyFromUri_commonEntry SQLCIPHER_VERSION_MAX
                sqlite3mcConfigureSQLCipherVersion sqlite3DecOrHexToI64
                h cipherName (fun _ => legacy_keeps_common) uri configDefault
                w1 Hname1)
    as Hw2.
  set (w2 := configureLegacyFromUri _ _ _ (Some h) uri cipherName
               configDefault w1) in *.
  rewrite (commonCell_commonEntry h i w1);
    [exact (proj1 (findParam_Some _ _ _ _ Hf1)) |].
  rewrite (configureParamFromUri_commonEntry SQLCIPHER_VERSION_MAX
             sqlite3mcConfigureSQLCipherVersion sqlite3DecOrHexToI64
             h cipherName (fun _ => legacy_keeps_common)); [exact Hw2 |].
  apply (cipherIsNotCommon_name h cipherName w1);
    [rewrite Hw2; reflexivity | exact Hname1].
Qed.

End UriCipher.

(** ** The salt readout *)

Lemma byte_nibbles (b : Z) :
  isByte b ->
  Z.land (Z.shiftr b 4) 15 = b / 16 /\ Z.land b 15 = b mod 16
  /\ 0 <= b / 16 < 16 /\ 0 <= b mod 16 < 16.
Proof.
  unfold isByte. intros Hb.
  change 15 with (Z.ones 4). rewrite !Z.land_ones by lia.
  rewrite Z.shiftr_div_pow2 by lia. change (2 ^ 4) with 16.
  assert (0 <= b / 16 < 16)
    by (split; [apply Z.div_pos; lia | apply Z.div_lt_upper_bound; lia]).
  rewrite (Z.mod_small (b / 16)) by lia.
  pose proof (Z.mod_pos_bound b 16 ltac:(lia)). repeat split; lia.
Qed.

Lemma hexdigit_injective (x y : Z) :
  NoDup hexdigits -> length hexdigits = 16%nat ->
  0 <= x < 16 -> 0 <= y < 16 ->
  hexdigit hexdigits x = hexdigit hexdigits y -> x = y.
Proof.
  intros Hnd Hlen Hx Hy. unfold hexdigit. intros E.
  assert (Hlx : (Z.to_nat x < length hexdigits)%nat) by lia.
  assert (Hly : (Z.to_nat y < length hexdigits)%nat) by lia.
  destruct (lookup_lt_is_Some_2 _ _ Hlx) as [a Ha].
  destruct (lookup_lt_is_Some_2 _ _ Hly) as [b Hb].
  rewrite (nth_lookup_Some _ _ 0 _ Ha), (nth_lookup_Some _ _ 0 _ Hb) in E.
  subst b. pose proof (NoDup_lookup _ _ _ _ Hnd Ha Hb). lia.
Qed.

(** X16: when the sixteen entries of [hexdigits] are pairwise different,
    the hexadecimal readout determines the salt: two 16-byte salts with
    the same readout are the same salt. *)
Theorem hexSalt_injective (s1 s2 : list Z) :
  NoDup hexdigits -> length hexdigits = 16%nat ->
  length s1 = 16%nat -> length s2 = 16%nat ->
  Forall isByte s1 -> Forall isByte s2 ->
  hexSalt hexdigits s1 = hexSalt hexdigits s2 -> s1 = s2.
Proof.
  intros Hnd Hlen H1 H2 Hb1 Hb2 E.
  apply (nth_ext s1 s2 0 0); [congruence |]. intros k Hk. rewrite H1 in Hk.
  destruct (hexSalt_digits hexdigits s1 k Hk) as [A1 A2].
  destruct (hexSalt_digits hexdigits s2 k Hk) as [B1 B2].
  rewrite E in A1, A2. rewrite B1 in A1. rewrite B2 in A2.
  injection A1 as A1. injection A2 as A2.
  assert (I1 : isByte (nth k s1 0)).
  { destruct (lookup_lt_is_Some_2 s1 k ltac:(lia)) as [b Hb].
    rewrite (nth_lookup_Some _ _ 0 _ Hb).
    exact (Forall_lookup_1 _ _ _ _ Hb1 Hb). }
  assert (I2 : isByte (nth k s2 0)).
  { destruct (lookup_lt_is_Some_2 s2 k ltac:(lia)) as [b Hb].
    rewrite (nth_lookup_Some _ _ 0 _ Hb).
    exact (Forall_lookup_1 _ _ _ _ Hb2 Hb). }
  destruct (byte_nibbles _ I1) as (Eh1 & El1 & Rh1 & Rl1).
  destruct (byte_nibbles _ I2) as (Eh2 & El2 & Rh2 & Rl2).
  rewrite Eh1, Eh2 in A1. rewrite El1, El2 in A2.
  apply (hexdigit_injective _ _ Hnd Hlen) in A1; [| lia | lia].
  apply (hexdigit_injective _ _ Hnd Hlen) in A2; [| lia | lia].
  rewrite (Z.div_mod (nth k s1 0) 16), (Z.div_mod (nth k s2 0) 16) by lia.
  lia.
Qed.

Lemma cstring_digits (l : list Z) :
  Forall (fun b => b <> 0) l -> cstring (l ++ [0]) = l.
Proof.
  induction l as [| b l IH]; intros Hl; [reflexivity |].
  apply Forall_cons in Hl as [Hb Hl]. simpl.
  destruct (Z.eqb_spec b 0); [contradiction |]. rewrite (IH Hl). reflexivity.
Qed.

Lemma hexSalt_nonzero (s : list Z) :
  length hexdigits = 16%nat -> Forall (fun b => b <> 0) hexdigits ->
  Forall (fun b => b <> 0) (hexSalt hexdigits s).
Proof.
  intros Hlen Hnz.
  assert (Hd : forall x, hexdigit hexdigits (Z.land x 15) <> 0).
  { intros x. unfold hexdigit.
    assert (0 <= Z.land x 15 < 16).
    { change 15 with (Z.ones 4). rewrite Z.land_ones by lia.
      apply Z.mod_pos_bound. lia. }
    destruct (lookup_lt_is_Some_2 hexdigits (Z.to_nat (Z.land x 15))
                ltac:(lia)) as [a Ha].
    rewrite (nth_lookup_Some _ _ 0 _ Ha).
    exact (Forall_lookup_1 _ _ _ _ Hnz Ha). }
  unfold hexSalt. cbn [flat_map seq app].
  repeat (apply Forall_cons; split; [apply Hd |]). apply Forall_nil. exact I.
Qed.

(** X17: the SQL function for codec data, asked for ["cipher_salt"] (in any
    case) on a schema with an encrypted codec, answers with exactly the 32
    hexadecimal digits of the salt; a name with the [raw:] prefix is no
    known name to it and yields null, so the raw salt cannot be read
    through SQL. *)
Theorem codec_data_sql_hex_only (h : nat) (w : World) (conn : sqlite3)
    (name schema : string) (codec : Codec) (salt : list Z) :
  connections w !! h = Some conn ->
  sqlite3_stricmp name "cipher_salt" = 0 ->
  0 <= sqlite3FindDbName conn schema ->
  sqlite3mcGetCodec conn (sqlite3FindDbName conn schema) = Some codec ->
  sqlite3mcIsEncrypted codec = true ->
  sqlite3mcHasWriteCipher codec = true ->
  sqlite3mcGetSaltWriteCipher codec = Some salt ->
  sqlite3_malloc_ok 33 = true ->
  length hexdigits = 16%nat -> Forall (fun b => b <> 0) hexdigits ->
  sqlite3mcCodecDataSql hexdigits sqlite3_malloc_ok h
    [SqlText name; SqlText schema] w
  = Some (hexSalt hexdigits salt)
  /\ forall rest,
       sqlite3mcCodecDataSql hexdigits sqlite3_malloc_ok h
         [SqlText ("raw:" ++ rest); SqlText schema] w
       = None.
Proof.
  intros Hc Hn HiDb Hcodec Henc Hwr Hsalt H33 Hlen Hnz. split.
  - unfold sqlite3mcCodecDataSql.
    change (nth 0 [SqlText name; SqlText schema] SqlNull) with (SqlText name).
    change (nth 1 [SqlText name; SqlText schema] SqlNull)
      with (SqlText schema).
    change (Z.of_nat (length [SqlText name; SqlText schema])) with 2.
    cbn [sqlite3_value_type sqlite3_value_text].
    change ((SQLITE_TEXT =? SQLITE_NULL)
            || (2 >? 1) && (SQLITE_TEXT =? SQLITE_NULL)) with false.
    cbv iota. rewrite Hn. change (0 =? 0) with true. change (2 =? 2) with true.
    cbv iota. unfold sqlite3mc_codec_data. rewrite Hc.
    change (skipPrefix "cipher_salt" "raw:" 4) with (false, "cipher_salt").
    cbv iota.
    assert (Hge : (sqlite3FindDbName conn schema >=? 0) = true)
      by (destruct (Z.geb_spec (sqlite3FindDbName conn schema) 0);
          [reflexivity | lia]).
    rewrite Hge, Hcodec, Henc, Hwr, Hsalt.
    change (32 + 1) with 33.
    change (sqlite3_stricmp "cipher_salt" "cipher_salt" =? 0) with true.
    cbn [andb negb]. rewrite H33. cbv beta iota.
    rewrite (cstring_digits _ (hexSalt_nonzero salt Hlen Hnz)). reflexivity.
  - intros rest. reflexivity.
Qed.

(** ** How calls compose *)

Lemma storeParam_twice (p1 p2 : CipherParams) (j i : nat)
    (t : list CodecParameter) :
  storeParam p2 j i (storeParam p1 j i t) = storeParam p2 j i t.
Proof.
  unfold storeParam. apply list_eq. intros k.
  destruct (decide (j = k)) as [<- | Hne];
    [| rewrite !list_lookup_alter_ne by assumption; reflexivity].
  rewrite !list_lookup_alter_eq.
  destruct (t !! j) as [c |]; [| reflexivity]. simpl. f_equal.
  unfold set_m_params. simpl. f_equal. apply list_insert_insert_eq.
Qed.

Lemma writeParam_twice (h j i : nat) (p1 p2 : CipherParams) (w : World) :
  writeParam (ConnTable h) j i p2 (writeParam (ConnTable h) j i p1 w)
  = writeParam (ConnTable h) j i p2 w.
Proof.
  unfold writeParam at 1. rewrite loadTable_writeParam, storeParam_twice.
  unfold writeParam, storeTable. simpl. f_equal.
  apply list_eq. intros k.
  destruct (decide (h = k)) as [<- | Hne];
    [| rewrite !list_lookup_alter_ne by assumption; reflexivity].
  rewrite !list_lookup_alter_eq.
  destruct (connections w !! h) as [c |]; reflexivity.
Qed.

(** X18: of two admissible writes to the same common parameter through the
    same view, the later one alone decides the store: writing [v1] and
    then [v2] leaves exactly the store that writing [v2] leaves. *)
Theorem config_last_write_wins (h : nat) (w : World) (name : string)
    (d : bool) (v1 v2 : Z) (i : nat) (p : CipherParams) :
  sqlite3mcGetCodecParams h w = Some (ConnTable h) ->
  hasNoPrefix name ->
  findParam name (paramsAt 0 (loadTable (ConnTable h) w)) = Some (i, p) ->
  0 <= v1 -> m_minValue p <= v1 <= m_maxValue p ->
  0 <= v2 -> m_minValue p <= v2 <= m_maxValue p ->
  let name0 := (if d then "default:" else "") ++ name in
  snd (sqlite3mc_config (Some h) (Some name0) v2
         (snd (sqlite3mc_config (Some h) (Some name0) v1 w)))
  = snd (sqlite3mc_config (Some h) (Some name0) v2 w).
Proof.
  intros Hc (Hd & Hmn & Hmx) Hf Hv1 Hr1 Hv2 Hr2.
  pose proof (skipPrefix_none _ _ _ Hd) as Sd.
  pose proof (skipPrefix_none _ _ _ Hmn) as Smn.
  pose proof (skipPrefix_none _ _ _ Hmx) as Smx.
  assert (S0 : skipPrefix ((if d then "default:" else "") ++ name)
                 "default:" 8 = (d, name))
    by (destruct d; [reflexivity | exact Sd]).
  assert (Hw : forall v q, 0 <= v -> m_minValue q <= v <= m_maxValue q ->
               negb false && negb false && (v >=? 0)
               && (v >=? m_minValue q) && (v <=? m_maxValue q) = true).
  { intros v q H0 Hq. simpl.
    destruct (Z.geb_spec v 0), (Z.geb_spec v (m_minValue q)),
      (Z.leb_spec v (m_maxValue q)); try reflexivity; lia. }
  cbv zeta.
  rewrite (config_on_connection h _ _ _ _ v1 w _ _ _ i p Hc S0 Smn Smx Hf),
    (Hw v1 p Hv1 Hr1).
  rewrite (config_on_connection h _ _ _ _ v2 w _ _ _ i p Hc S0 Smn Smx Hf),
    (Hw v2 p Hv2 Hr2).
  cbn [snd]. set (p1 := assignCommon d name v1 p).
  assert (Hb : m_minValue p1 = m_minValue p /\ m_maxValue p1 = m_maxValue p)
    by apply assignCommon_bounds.
  assert (Hf1 := common_after_write h i p p1 name w Hf
                   (assignCommon_name d name v1 p)).
  assert (Hc1 : sqlite3mcGetCodecParams h
                  (writeParam (ConnTable h) 0 i p1 w) = Some (ConnTable h))
    by (rewrite getCodecParams_writeParam; exact Hc).
  rewrite (config_on_connection h _ _ _ _ v2 _ _ _ _ i p1 Hc1 S0 Smn Smx Hf1).
  rewrite (Hw v2 p1 Hv2) by (destruct Hb as [-> ->]; exact Hr2).
  cbn [snd]. rewrite writeParam_twice. f_equal.
  unfold p1, assignCommon. destruct (d && _); reflexivity.
Qed.

Lemma legacyHandlingSql_unreached (db : nat) (nameParam1 name : string)
    (d mn mx : bool) (v : Z) (w : World) :
  0 <= v <= 2147483647 ->
  reachesLegacy SQLCIPHER_VERSION_MAX nameParam1 name mn mx v = false ->
  legacyHandlingSql SQLCIPHER_VERSION_MAX sqlite3mcConfigureSQLCipherVersion
    db nameParam1 name d mn mx 3 (SqlInteger v) w = w.
Proof.
  intros Hv. unfold reachesLegacy, legacyHandlingSql.
  assert (Hint : to_int v = v) by (unfold to_int; rewrite Z.mod_small; lia).
  cbn [sqlite3_value_type sqlite3_value_int]. rewrite Hint.
  change (3 =? 3) with true. change (SQLITE_INTEGER =? SQLITE_INTEGER) with true.
  destruct (sqlite3_stricmp nameParam1 "sqlcipher" =? 0); [| reflexivity].
  destruct (sqlite3_stricmp name "legacy" =? 0); [| reflexivity].
  destruct mn; [reflexivity |]. destruct mx; [reflexivity |].
  cbn [negb andb]. intros ->. reflexivity.
Qed.

(** X19: for a cipher scope and one of its parameters, the three-argument
    SQL form and [sqlite3mc_config_cipher] make the same write and give
    the same answer, whenever the value is admissible and the call does
    not reach the legacy configurator. *)
Theorem sql_write_agrees_with_config_cipher (h : nat) (w : World)
    (cipherName name : string) (d : bool) (v : Z) (j i : nat)
    (p : CipherParams) :
  sqlite3mcGetCodecParams h w = Some (ConnTable h) ->
  hasNoPrefix cipherName ->
  findParam cipherName (paramsAt 0 (loadTable (ConnTable h) w)) = None ->
  findCodec cipherName (loadTable (ConnTable h) w) = Some j ->
  hasNoPrefix name ->
  findParam name (paramsAt j (loadTable (ConnTable h) w)) = Some (i, p) ->
  0 <= v <= 2147483647 -> m_minValue p <= v <= m_maxValue p ->
  reachesLegacy SQLCIPHER_VERSION_MAX cipherName name false false v = false ->
  let name0 := (if d then "default:" else "") ++ name in
  let s := config_params h [SqlText cipherName; SqlText name0; SqlInteger v] w
  in
  let c := config_cipher (Some h) (Some cipherName) (Some name0) v w in
  fst s = ResultInt (fst c) /\ worldTables (snd s) = worldTables (snd c).
Proof.
  intros Hc (Cd & Cmn & Cmx) Hcommon Hj (Hd & Hmn & Hmx) Hf Hv Hr Hleg.
  pose proof (skipPrefix_none _ _ _ Hd) as Sd.
  pose proof (skipPrefix_none _ _ _ Hmn) as Smn.
  pose proof (skipPrefix_none _ _ _ Hmx) as Smx.
  destruct (findParam_Some _ _ _ _ Hf) as (Hi & _ & Hlen).
  assert (S0 : skipPrefix ((if d then "default:" else "") ++ name)
                 "default:" 8 = (d, name))
    by (destruct d; [reflexivity | exact Sd]).
  assert (Hw : (v >=? m_minValue p) && (v <=? m_maxValue p) = true).
  { destruct (Z.geb_spec v (m_minValue p)), (Z.leb_spec v (m_maxValue p));
      try reflexivity; lia. }
  assert (Hge : (v >=? 0) = true)
    by (destruct (Z.geb_spec v 0); [reflexivity | lia]).
  assert (Hint : to_int v = v) by (unfold to_int; rewrite Z.mod_small; lia).
  cbv zeta.
  destruct (config_cipher_unreached h cipherName _ name name name v w
              d false false j i p Hc Hj S0 Smn Smx Hleg Hf) as [l ->].
  cbv zeta. cbn [negb andb]. rewrite Hge. cbn [andb]. rewrite Hw.
  assert (Hs : config_params h
                 [SqlText cipherName;
                  SqlText ((if d then "default:" else "") ++ name);
                  SqlInteger v] w
               = (ResultInt v,
                  writeParam (ConnTable h) j i (assignCipher d v p) w)).
  { unfold sqlite3mcConfigParams.
    set (name0 := (if d then "default:" else "") ++ name) in *.
    change (nth 0 [SqlText cipherName; SqlText name0; SqlInteger v] SqlNull)
      with (SqlText cipherName).
    change (nth 1 [SqlText cipherName; SqlText name0; SqlInteger v] SqlNull)
      with (SqlText name0).
    change (nth 2 [SqlText cipherName; SqlText name0; SqlInteger v] SqlNull)
      with (SqlInteger v).
    change (Z.of_nat (length [SqlText cipherName; SqlText name0; SqlInteger v]))
      with 3.
    cbn [sqlite3_value_type sqlite3_value_text].
    change ((SQLITE_TEXT =? SQLITE_NULL)
            || (3 >? 1) && (SQLITE_TEXT =? SQLITE_NULL)) with false.
    cbv iota.
    rewrite (skipPrefix_none _ _ _ Cd), (skipPrefix_none _ _ _ Cmn),
      (skipPrefix_none _ _ _ Cmx), Hcommon.
    cbn [negb andb]. rewrite Hj.
    change (3 =? 1) with false. change (SQLITE_TEXT =? SQLITE_TEXT) with true.
    cbv iota. unfold cipherParam.
    cbn [sqlite3_value_text]. rewrite S0, Smn, Smx, Hf.
    rewrite (legacyHandlingSql_unreached h cipherName name d false false v w
               Hv Hleg).
    rewrite Hi.
    destruct (Z.gtb_spec (strlen (m_name p)) 0) as [_ | Hn]; [| lia].
    change (3 =? 2) with false. cbn [negb andb sqlite3_value_type].
    change (SQLITE_INTEGER =? SQLITE_INTEGER) with true.
    cbn [sqlite3_value_int]. rewrite Hint, Hw. reflexivity. }
  rewrite Hs. split; reflexivity.
Qed.

End Extras.

(** * The further properties on the sample data *)

Lemma sampleLegacy_keeps_global (db : option nat) (configDefault legacy : Z)
    (w : World) :
  globalCodecParameterTable (sampleLegacy db configDefault legacy w)
  = globalCodecParameterTable w.
Proof.
  unfold sampleLegacy. cbn [fold_left].
  rewrite !(config_cipher_global 4 noLegacy (fun _ _ _ _ => eq_refl)).
  reflexivity.
Qed.

Lemma sampleLegacy_keeps_shape (db : option nat) (configDefault legacy : Z)
    (w : World) :
  worldShape (sampleLegacy db configDefault legacy w) = worldShape w.
Proof.
  unfold sampleLegacy. cbn [fold_left].
  do 3 (apply (stable_config_cipher 4 noLegacy
                 (fun w' => worldShape w' = worldShape w)
                 (fun _ _ _ H => H) (fun _ _ _ _ H => H));
        [intros w0 r j i p p' H0 Hp Hkey;
         rewrite (worldShape_writeParam w0 r j i p p' Hp Hkey); exact H0 |]).
  reflexivity.
Qed.

Lemma sampleHexdigits_NoDup : NoDup sampleHexdigits.
Proof. apply (bool_decide_unpack (NoDup sampleHexdigits)). vm_compute. exact I. Qed.

Lemma sampleHexdigits_nonzero : Forall (fun b => b <> 0) sampleHexdigits.
Proof. repeat (apply Forall_cons; split; [discriminate |]). apply Forall_nil. exact I. Qed.

Lemma sampleSalt_bytes : Forall isByte sampleSalt.
Proof.
  repeat (apply Forall_cons; split; [unfold isByte; lia |]).
  apply Forall_nil. exact I.
Qed.

Lemma negative_value_reads_witness :
  worldTables
    (snd (sqlite3mc_config (Some 0%nat) (Some "hmac_check") (-1) sampleWorld))
  = worldTables sampleWorld
  /\ worldTables
       (snd (sqlite3mc_config_cipher 4 sampleLegacy (Some 0%nat)
               (Some "global") (Some "hmac_check") (-1) sampleWorld))
     = worldTables sampleWorld
  /\ logged
       (snd (sqlite3mc_config (Some 0%nat) (Some "hmac_check") (-1)
               sampleWorld))
     = logged sampleWorld.
Proof.
  destruct (negative_value_reads 4 sampleLegacy (Some 0%nat) (Some "global")
              (Some "hmac_check") (-1) sampleWorld eq_refl)
    as (H1 & H2 & H3).
  split; [exact H1 | split; [exact H2 | apply H3; discriminate]].
Defined.

Lemma global_table_never_written_witness :
  globalCodecParameterTable
    (performAll 4 sampleLegacy sampleDescriptors (fun _ => true)
       sampleGetBoolean sampleDecToI64 sampleOps sampleWorld)
  = globalCodecParameterTable sampleWorld.
Proof.
  apply (global_table_never_written 4 sampleLegacy sampleDescriptors
           (fun _ => true) sampleGetBoolean sampleDecToI64
           sampleLegacy_keeps_global).
Defined.

Lemma shape_never_changes_witness :
  worldShape
    (performAll 4 sampleLegacy sampleDescriptors (fun _ => true)
       sampleGetBoolean sampleDecToI64 sampleOps sampleWorld)
  = worldShape sampleWorld.
Proof.
  apply (shape_never_changes 4 sampleLegacy sampleDescriptors
           (fun _ => true) sampleGetBoolean sampleDecToI64).
  exact sampleLegacy_keeps_shape.
Defined.

Lemma bounds_views_constant_witness :
  fst (sqlite3mc_config (Some 0%nat) (Some "max:cipher") (-1)
         (performAll 4 sampleLegacy sampleDescriptors (fun _ => true)
            sampleGetBoolean sampleDecToI64 sampleOps sampleWorld))
  = fst (sqlite3mc_config (Some 0%nat) (Some "max:cipher") (-1) sampleWorld).
Proof.
  apply (bounds_views_constant 4 sampleLegacy sampleDescriptors
           (fun _ => true) sampleGetBoolean sampleDecToI64 0
           "max:cipher" "max:cipher" "max:cipher" "cipher" false true).
  - exact sampleLegacy_keeps_shape.
  - reflexivity.
  - reflexivity.
  - reflexivity.
  - reflexivity.
Defined.

Lemma config_ignores_case_witness :
  sqlite3mc_config (Some 0%nat) (Some "DEFAULT:Hmac_Check") 0 sampleWorld
  = sqlite3mc_config (Some 0%nat) (Some "default:hmac_check") 0 sampleWorld.
Proof.
  apply (config_ignores_case (Some 0%nat) "DEFAULT:Hmac_Check"
           "default:hmac_check" 0 sampleWorld).
  repeat (split; [reflexivity |]). exact I.
Defined.

Lemma config_write_read_witness :
  let r := sqlite3mc_config (Some 0%nat) (Some "cipher") 3 sampleWorld in
  fst r = 3
  /\ commonCell 0 0 (snd r) = Some (mkCipherParams "cipher" 3 2 1 3)
  /\ fst (sqlite3mc_config (Some 0%nat) (Some "cipher") (-1) (snd r)) = 3
  /\ fst (sqlite3mc_config (Some 0%nat) (Some "default:cipher") (-1) (snd r))
     = 2.
Proof.
  apply (config_write_read 0 sampleWorld "cipher" 3 0
           (mkCipherParams "cipher" 2 2 1 3)).
  - reflexivity.
  - repeat split; discriminate.
  - reflexivity.
  - discriminate.
  - split; discriminate.
Defined.

Lemma config_cipher_write_read_witness :
  let r := sqlite3mc_config_cipher 4 sampleLegacy (Some 0%nat)
             (Some "chacha20") (Some "default:kdf_iter") 1000 sampleWorld in
  fst r = 1000
  /\ paramsAt 2 (loadTable (ConnTable 0) (snd r)) !! 0%nat
     = Some (mkCipherParams "kdf_iter" 1000 1000 1 2147483647)
  /\ fst (sqlite3mc_config_cipher 4 sampleLegacy (Some 0%nat)
            (Some "chacha20") (Some "kdf_iter") (-1) (snd r)) = 1000
  /\ fst (sqlite3mc_config_cipher 4 sampleLegacy (Some 0%nat)
            (Some "chacha20") (Some "default:kdf_iter") (-1) (snd r)) = 1000.
Proof.
  apply (config_cipher_write_read 4 sampleLegacy 0 sampleWorld "chacha20"
           "kdf_iter" true 1000 2 0
           (mkCipherParams "kdf_iter" 64007 64007 1 2147483647)).
  - reflexivity.
  - reflexivity.
  - repeat split; discriminate.
  - reflexivity.
  - discriminate.
  - split; discriminate.
  - reflexivity.
Defined.

Lemma config_cipher_reaches_common_witness :
  let r := sqlite3mc_config_cipher 4 sampleLegacy (Some 0%nat)
             (Some "global") (Some "default:hmac_check") 0 sampleWorld in
  fst r = 0
  /\ commonCell 0 1 (snd r) = Some (mkCipherParams "hmac_check" 0 0 0 1)
  /\ commonCell 0 1
       (snd (sqlite3mc_config (Some 0%nat) (Some "default:hmac_check") 0
               sampleWorld))
     = Some (mkCipherParams "hmac_check" 0 1 0 1).
Proof.
  apply (config_cipher_reaches_common 4 sampleLegacy 0 sampleWorld "global"
           "hmac_check" 0 1 (mkCipherParams "hmac_check" 1 1 0 1)).
  - reflexivity.
  - reflexivity.
  - reflexivity.
  - reflexivity.
  - discriminate.
  - split; discriminate.
Defined.

Lemma listParams_allocates_exactly_witness :
  listParams (fun n => n <=? 56) sampleSqlcipher
  = ResultText "kdf_iter,fast_kdf_iter,hmac_use,legacy,legacy_page_size"
  /\ listParams (fun n => n <=? 55) sampleSqlcipher = ResultErrorNomem.
Proof.
  split.
  - exact (listParams_allocates_exactly (fun n => n <=? 56) sampleSqlcipher
             ltac:(discriminate) ltac:(discriminate)).
  - exact (listParams_allocates_exactly (fun n => n <=? 55) sampleSqlcipher
             ltac:(discriminate) ltac:(discriminate)).
Defined.

Lemma sql_cipher_set_get_witness :
  let r := sqlite3mcConfigParams 4 sampleLegacy sampleDescriptors
             (fun _ => true) 0 [SqlText "Cipher"; SqlText "SQLCipher"]
             sampleWorld in
  fst r = ResultText "sqlcipher"
  /\ commonCell 0 0 (snd r) = Some (mkCipherParams "cipher" 3 2 1 3)
  /\ fst (sqlite3mcConfigParams 4 sampleLegacy sampleDescriptors
            (fun _ => true) 0 [SqlText "Cipher"] (snd r))
     = ResultText "sqlcipher".
Proof.
  apply (sql_cipher_set_get 4 sampleLegacy sampleDescriptors (fun _ => true)
           0 sampleWorld "Cipher" "SQLCipher" 0 2
           (mkCipherParams "cipher" 2 2 1 3) "sqlcipher").
  - reflexivity.
  - reflexivity.
  - reflexivity.
Defined.

Lemma sql_read_agrees_with_config_witness :
  sqlite3mcConfigParams 4 sampleLegacy sampleDescriptors (fun _ => true) 0
    [SqlText "max:hmac_check"] sampleWorld
  = (ResultInt
       (fst (sqlite3mc_config (Some 0%nat) (Some "max:hmac_check") (-1)
               sampleWorld)),
     sampleWorld).
Proof.
  apply (sql_read_agrees_with_config 4 sampleLegacy sampleDescriptors
           (fun _ => true) 0 sampleWorld "max:hmac_check" "max:hmac_check"
           "max:hmac_check" "hmac_check" false false true 1
           (mkCipherParams "hmac_check" 1 1 0 1)).
  - reflexivity.
  - reflexivity.
  - reflexivity.
  - reflexivity.
  - reflexivity.
  - discriminate.
Defined.

Lemma sql_failure_writes_nothing_witness :
  snd (sqlite3mcConfigParams 4 sampleLegacy sampleDescriptors (fun _ => true)
         0 [SqlText "hmac_check"; SqlInteger 7] sampleWorld)
  = sampleWorld.
Proof.
  apply (sql_failure_writes_nothing 4 sampleLegacy sampleDescriptors
           (fun _ => true) 0 [SqlText "hmac_check"; SqlInteger 7] sampleWorld).
  - discriminate.
  - left. reflexivity.
Defined.

Lemma uri_unknown_cipher_witness :
  let r := sqlite3mcConfigureFromUri 4 sampleLegacy sampleGetBoolean
             sampleDecToI64 (Some 0%nat)
             (Some [("cipher", "global"); ("hmac_check", "0")]) 0 sampleWorld
  in
  fst r = SQLITE_ERROR
  /\ worldTables (snd r) = worldTables sampleWorld
  /\ logged (snd r) = logged sampleWorld
  /\ m_errMsg <$> connections (snd r) !! 0%nat
     = Some (Some (SQLITE_ERROR, "unknown cipher 'global'")).
Proof.
  apply (uri_unknown_cipher 4 sampleLegacy sampleGetBoolean sampleDecToI64
           0 [("cipher", "global"); ("hmac_check", "0")] "global" 0
           sampleWorld sampleConn sampleTable).
  - reflexivity.
  - reflexivity.
  - reflexivity.
  - reflexivity.
Defined.

Lemma uri_selects_cipher_witness :
  commonCell 0 0
    (snd (sqlite3mcConfigureFromUri 4 sampleLegacy sampleGetBoolean
            sampleDecToI64 (Some 0%nat)
            (Some [("cipher", "sqlcipher"); ("legacy", "3");
                   ("hmac_check", "no")])
            1 sampleWorld))
  = Some (mkCipherParams "cipher" 3 3 1 3).
Proof.
  apply (uri_selects_cipher 4 sampleLegacy sampleGetBoolean sampleDecToI64 0
           "sqlcipher" (sampleLegacy_keeps_common 0)
           [("cipher", "sqlcipher"); ("legacy", "3"); ("hmac_check", "no")]
           1 sampleWorld 2 0 (mkCipherParams "cipher" 2 2 1 3)).
  - reflexivity.
  - reflexivity.
  - reflexivity.
  - reflexivity.
  - split; discriminate.
  - intros c [= <-]. discriminate.
Defined.

Lemma hexSalt_injective_witness :
  hexSalt sampleHexdigits sampleSalt
  = hexSalt sampleHexdigits (rev (rev sampleSalt))
  /\ sampleSalt = rev (rev sampleSalt).
Proof.
  split; [reflexivity |].
  apply (hexSalt_injective sampleHexdigits sampleSalt (rev (rev sampleSalt))).
  - exact sampleHexdigits_NoDup.
  - reflexivity.
  - reflexivity.
  - reflexivity.
  - exact sampleSalt_bytes.
  - exact sampleSalt_bytes.
  - reflexivity.
Defined.

Lemma codec_data_sql_hex_only_witness :
  sqlite3mcCodecDataSql sampleHexdigits (fun _ => true) 0
    [SqlText "Cipher_Salt"; SqlText "main"] sampleWorld
  = Some (hexSalt sampleHexdigits sampleSalt)
  /\ forall rest,
       sqlite3mcCodecDataSql sampleHexdigits (fun _ => true) 0
         [SqlText ("raw:" ++ rest); SqlText "main"] sampleWorld
       = None.
Proof.
  apply (codec_data_sql_hex_only sampleHexdigits (fun _ => true) 0 sampleWorld
           sampleConn "Cipher_Salt" "main" sampleCodec sampleSalt).
  - reflexivity.
  - reflexivity.
  - discriminate.
  - reflexivity.
  - reflexivity.
  - reflexivity.
  - reflexivity.
  - reflexivity.
  - reflexivity.
  - exact sampleHexdigits_nonzero.
Defined.

Lemma config_last_write_wins_witness :
  snd (sqlite3mc_config (Some 0%nat) (Some "default:cipher") 3
         (snd (sqlite3mc_config (Some 0%nat) (Some "default:cipher") 1
                 sampleWorld)))
  = snd (sqlite3mc_config (Some 0%nat) (Some "default:cipher") 3 sampleWorld).
Proof.
  apply (config_last_write_wins 0 sampleWorld "cipher" true 1 3 0
           (mkCipherParams "cipher" 2 2 1 3)).
  - reflexivity.
  - repeat split; discriminate.
  - reflexivity.
  - discriminate.
  - split; discriminate.
  - discriminate.
  - split; discriminate.
Defined.

Lemma sql_write_agrees_with_config_cipher_witness :
  let s := sqlite3mcConfigParams 4 sampleLegacy sampleDescriptors
             (fun _ => true) 0
             [SqlText "chacha20"; SqlText "default:kdf_iter"; SqlInteger 1000]
             sampleWorld in
  let c := sqlite3mc_config_cipher 4 sampleLegacy (Some 0%nat)
             (Some "chacha20") (Some "default:kdf_iter") 1000 sampleWorld in
  fst s = ResultInt (fst c) /\ worldTables (snd s) = worldTables (snd c).
Proof.
  apply (sql_write_agrees_with_config_cipher 4 sampleLegacy sampleDescriptors
           (fun _ => true) 0 sampleWorld "chacha20" "kdf_iter" true 1000 2 0
           (mkCipherParams "kdf_iter" 64007 64007 1 2147483647)).
  - reflexivity.
  - repeat split; discriminate.
  - reflexivity.
  - reflexivity.
  - repeat split; discriminate.
  - reflexivity.
  - split; discriminate.
  - split; discriminate.
  - reflexivity.
Defined.
